(** * google-slides-mcp: the tool execution pipeline and the summarize walk

    A shallow embedding of the server's TypeScript sources:
    - [executeTool] and [extractErrorMessage] (utils/toolExecutor.ts),
    - the five argument schemas (schemas.ts),
    - the tool methods of the server class, [createPresentation],
      [getPresentation], [batchUpdatePresentation], [getPage] and
      [summarizePresentation] (the class form of the server),
    - the dispatch of a tool call request to the pipeline, for any five
      tool functions, and the listing of the tools (index.ts),
    - the remote error normalizer (utils/errorHandler.ts) and the tool
      functions built on it (tools/*.ts), which are not among the sources
      and are modelled from sections 4.3 and 4.4 of the design,
    - the request handler of the class form of the server, and the first
      form of the server class, which validated the arguments by hand.

    JavaScript values are a small inductive type. An [await]ed call is a
    computation that completes normally or throws, and that leaves a trace
    of what an observer sees of it: console diagnostics, calls of the tool
    function, requests sent to the remote client. *)

From Stdlib Require Import String Ascii List ZArith Lia Bool Arith DecimalString.
Import ListNotations.
Local Open Scope list_scope.
Local Open Scope string_scope.

Set Implicit Arguments.
Set Warnings "-register-all".

(* ===================================================================== *)
(** ** Strings *)
(* ===================================================================== *)

(** A JavaScript string is modelled as a [string] whose characters are the
    code units below 256. *)
Module Str.

Definition quote : string := String "034"%char EmptyString.

(** Code units that [String.prototype.trim] removes (white space and line
    terminators below 256): TAB, LF, VT, FF, CR, SP and NBSP. *)
Definition is_whitespace (c : ascii) : bool :=
  let n := nat_of_ascii c in
  ((9 <=? n)%nat && (n <=? 13)%nat) || (n =? 32)%nat || (n =? 160)%nat.

Fixpoint trimStart (s : string) : string :=
  match s with
  | EmptyString => EmptyString
  | String c rest => if is_whitespace c then trimStart rest else s
  end.

Fixpoint trimEnd (s : string) : string :=
  match s with
  | EmptyString => EmptyString
  | String c rest =>
      match trimEnd rest with
      | EmptyString =>
          if is_whitespace c then EmptyString else String c EmptyString
      | kept => String c kept
      end
  end.

(** [s.trim()] *)
Definition trim (s : string) : string := trimEnd (trimStart s).

(** [s.length > 0], which is also the truthiness of a string. *)
Definition nonempty (s : string) : bool :=
  match s with
  | EmptyString => false
  | String _ _ => true
  end.

(** [parts.join(sep)] on an array of strings. *)
Definition join (sep : string) (parts : list string) : string :=
  String.concat sep parts.

(** The concatenation of all parts. *)
Definition concat_all (parts : list string) : string :=
  fold_right String.append EmptyString parts.

(** Decimal rendering of a non-negative integer, as a template literal
    prints an array index or a slide number. *)
Definition of_nat (n : nat) : string :=
  NilEmpty.string_of_uint (Nat.to_uint n).

(** [hay.startsWith(prefix)] *)
Fixpoint startsWith (prefix hay : string) : bool :=
  match prefix, hay with
  | EmptyString, _ => true
  | String a p, String b h => Ascii.eqb a b && startsWith p h
  | String _ _, EmptyString => false
  end.

(** [hay.includes(needle)] *)
Fixpoint includes (needle hay : string) : bool :=
  startsWith needle hay
  || match hay with
     | EmptyString => false
     | String _ rest => includes needle rest
     end.

(** [hay.includes(needle)], as a proposition. *)
Definition contains (needle hay : string) : Prop :=
  exists before after, hay = before ++ needle ++ after.

End Str.

(* ===================================================================== *)
(** ** JavaScript values, errors and error codes *)
(* ===================================================================== *)

(** Modelled from the spec: the [ErrorCode] enumeration belongs to the MCP
    SDK, which is not part of the sources. These are the members that
    section 6 lists (InvalidParams, MethodNotFound, InternalError, and
    InvalidRequest as a code that is passed through), which are also the
    ones the server and its tests name. *)
Inductive ErrorCode : Type :=
| InvalidRequest
| MethodNotFound
| InvalidParams
| InternalError.

(** The [code] attribute of an [McpError] is a JavaScript number: a member
    of the enumeration, or any other number. *)
Inductive McpCode : Type :=
| EnumCode (c : ErrorCode)
| NumericCode (n : Z).

Definition in_enumeration (c : McpCode) : bool :=
  match c with
  | EnumCode _ => true
  | NumericCode _ => false
  end.

(** One entry of [ZodError.errors]: the path of the offending field, whose
    segments are property names or array indices, and the reason. *)
Inductive PathSegment : Type :=
| Key (name : string)
| Index (i : nat).

Record ZodIssue : Type := {
  path : list PathSegment;
  message : string
}.

(** The classes an [Error] instance is tested against with [instanceof]. *)
Inductive ErrorClass : Type :=
| PlainError
| ZodErrorClass (errors : list ZodIssue)
| McpErrorClass (code : McpCode).

(** Values. Numbers are integers (no code path below looks at more than
    [typeof] of a number). Objects are ordered property lists; a property
    is read at its first occurrence. [JsError] is an instance of [Error]:
    its class, its [message] attribute and its further own properties. *)
Inductive JsValue : Type :=
| JsUndefined
| JsNull
| JsBoolean (b : bool)
| JsNumber (n : Z)
| JsString (s : string)
| JsArray (items : list JsValue)
| JsObject (props : list (string * JsValue))
| JsError (cls : ErrorClass) (msg : string) (props : list (string * JsValue)).

Module Js.

Definition is_some {A} (o : option A) : bool :=
  match o with
  | Some _ => true
  | None => false
  end.

Fixpoint lookup (key : string) (props : list (string * JsValue)) : option JsValue :=
  match props with
  | [] => None
  | (k, v) :: rest => if String.eqb k key then Some v else lookup key rest
  end.

(** [key in obj] for an object or error [obj]. *)
Definition has_property (key : string) (v : JsValue) : bool :=
  match v with
  | JsObject props => is_some (lookup key props)
  | JsError _ _ props => String.eqb key "message" || is_some (lookup key props)
  | _ => false
  end.

(** [v?.key]: the property, or [undefined]. Strings, arrays and the other
    primitives carry none of the properties the code reads. *)
Definition get (v : JsValue) (key : string) : JsValue :=
  match v with
  | JsObject props =>
      match lookup key props with Some x => x | None => JsUndefined end
  | JsError _ msg props =>
      if String.eqb key "message" then JsString msg
      else match lookup key props with Some x => x | None => JsUndefined end
  | _ => JsUndefined
  end.

(** Truthiness, as [||], [!] and [if] use it. *)
Definition truthy (v : JsValue) : bool :=
  match v with
  | JsUndefined | JsNull => false
  | JsBoolean b => b
  | JsNumber n => negb (Z.eqb n 0)
  | JsString s => Str.nonempty s
  | JsArray _ | JsObject _ | JsError _ _ _ => true
  end.

(** [typeof v === 'object'] *)
Definition typeof_object (v : JsValue) : bool :=
  match v with
  | JsNull | JsArray _ | JsObject _ | JsError _ _ _ => true
  | _ => false
  end.

(** [v instanceof Error] *)
Definition instanceof_Error (v : JsValue) : bool :=
  match v with
  | JsError _ _ _ => true
  | _ => false
  end.

Definition keys (props : list (string * JsValue)) : list string :=
  map fst props.

End Js.

(* ===================================================================== *)
(** ** Results of a tool call *)
(* ===================================================================== *)

Record TextBlock : Type := {
  block_type : string;
  text : string
}.

(** The object a tool call answers with. An absent key is [None]. *)
Record Envelope : Type := {
  content : list TextBlock;
  isError : option bool;
  errorCode : option McpCode
}.

(** [{ content: [{ type: 'text', text }] }] *)
Definition success_result (t : string) : Envelope :=
  {| content := [ {| block_type := "text"; text := t |} ];
     isError := None;
     errorCode := None |}.

(** [{ content: [{ type: 'text', text }], isError: true, errorCode }] *)
Definition error_result (t : string) (c : McpCode) : Envelope :=
  {| content := [ {| block_type := "text"; text := t |} ];
     isError := Some true;
     errorCode := Some c |}.

(* ===================================================================== *)
(** ** Computations: completion, trace, try/catch *)
(* ===================================================================== *)

Inductive Completion (A : Type) : Type :=
| Normal (a : A)
| Throw (v : JsValue).

Arguments Normal {A} a.
Arguments Throw {A} v.

(** What an observer of a call sees besides its result. *)
Inductive Event : Type :=
| ConsoleError (label : string) (value : JsValue)
| ToolFnCall (parsedArgs : JsValue)
| RemoteCall (method : string) (request : JsValue).

Definition Exec (A : Type) : Type := (Completion A * list Event)%type.

Module ExecMonad.

Definition ret {A} (a : A) : Exec A := (Normal a, []).

Definition throw {A} (v : JsValue) : Exec A := (Throw v, []).

Definition emit (e : Event) : Exec unit := (Normal tt, [e]).

Definition lift {A} (c : Completion A) : Exec A := (c, []).

Definition bind {A B} (m : Exec A) (f : A -> Exec B) : Exec B :=
  match m with
  | (Normal a, t) => let (r, t') := f a in (r, (t ++ t')%list)
  | (Throw v, t) => (Throw v, t)
  end.

(** [try { body } catch (error) { handler }] *)
Definition try_catch {A} (body : Exec A) (handler : JsValue -> Exec A) : Exec A :=
  match body with
  | (Throw v, t) => let (r, t') := handler v in (r, (t ++ t')%list)
  | done => done
  end.

Definition result {A} (m : Exec A) : Completion A := fst m.
Definition trace {A} (m : Exec A) : list Event := snd m.

End ExecMonad.

Import ExecMonad.

Notation "x <- m ;; k" := (bind m (fun x => k))
  (at level 61, m at next level, right associativity).
Notation "m ;;; k" := (bind m (fun _ => k))
  (at level 61, right associativity).

Definition is_ToolFnCall (e : Event) : bool :=
  match e with
  | ToolFnCall _ => true
  | _ => false
  end.

(** The tool function was not called during [m]. *)
Definition toolFn_not_invoked {A} (m : Exec A) : Prop :=
  forallb (fun e => negb (is_ToolFnCall e)) (trace m) = true.

(* ===================================================================== *)
(** ** The document tree of the remote API *)
(* ===================================================================== *)

(** Modelled from the spec: the response types are declared by the client
    library of the remote API, which is not part of the sources. These are
    the records of section 3 (Document Tree) with the fields that the code
    reads and their names in the code; an optional field is an [option],
    and a [null] is read like an absent field. *)
Record TextRun : Type := { run_content : option string }.
Record TextElement : Type := { textRun : option TextRun }.
Record TextContent : Type := { textElements : option (list TextElement) }.
Record Shape : Type := { shape_text : option TextContent }.
Record TableCell : Type := { cell_text : option TextContent }.
Record TableRow : Type := { tableCells : option (list TableCell) }.
Record Table : Type := { tableRows : option (list TableRow) }.
Record PageElement : Type := { shape : option Shape; table : option Table }.
Record NotesPage : Type := { notes_pageElements : option (list PageElement) }.
Record SlideProperties : Type := { notesPage : option NotesPage }.
Record Page : Type := {
  objectId : option string;
  pageElements : option (list PageElement);
  slideProperties : option SlideProperties
}.
Record Presentation : Type := {
  title : option string;
  revisionId : option string;
  slides : option (list Page)
}.

(* ===================================================================== *)
(** ** What the platform and the libraries provide *)
(* ===================================================================== *)

(** The parts of the JavaScript platform, of the MCP SDK and of zod that
    the server calls and that are not its own code are parameters: how
    [McpError] and [ZodError] compute their [message] attribute from the
    constructor arguments, [String(v)] on a value that is not a string,
    and [JSON.stringify(v, null, 2)] at the types it is applied to. *)
Record Runtime : Type := {
  McpError_message : McpCode -> string -> string;
  ZodError_message : list ZodIssue -> string;
  ToString : JsValue -> string;
  stringify : JsValue -> string;
  stringify_presentation : Presentation -> string;
  stringify_page : Page -> string
}.

(** The capability handle: the four operations of the remote client the
    tools call. Each takes the request object and resolves with the
    [data] of the response, or rejects with some value. *)
Record Slides : Type := {
  presentations_create : JsValue -> Completion Presentation;
  presentations_get : JsValue -> Completion Presentation;
  presentations_batchUpdate : JsValue -> Completion JsValue;
  presentations_pages_get : JsValue -> Completion Page
}.

(** [schema.parse]: the validated value, or a thrown error. *)
Definition ZodSchema : Type := JsValue -> Completion JsValue.

Definition ToolFn : Type := Slides -> JsValue -> Exec Envelope.

(* ===================================================================== *)
(** ** The zod combinators the schemas are built from *)
(* ===================================================================== *)

(** Modelled from the spec: zod is a library that the server imports, not
    part of its sources. Section 4.1 gives the contract of a schema: a
    validated object of the declared shape, or one entry per violated
    field with the path of the field and a reason such as [Required]. The
    combinators that schemas.ts uses are modelled to that contract with the
    behaviour zod (version 3) documents for them: [z.string()],
    [z.boolean()], [z.any()], [.optional()], [z.array(e)],
    [.min(n, { message })] and [z.object(shape)], which in its default mode
    does not look at the keys the shape does not declare and leaves them
    out of its result. A value that is [undefined] where a type is
    expected is reported as [Required]. *)
Module Zod.

Inductive ZodType : Type :=
| ZString (min : option (nat * string))
| ZBoolean
| ZAny
| ZOptional (inner : ZodType)
| ZArray (element : ZodType) (min : option (nat * string))
| ZObject (shape : list (string * ZodType)).

Definition parsedType (v : JsValue) : string :=
  match v with
  | JsUndefined => "undefined"
  | JsNull => "null"
  | JsBoolean _ => "boolean"
  | JsNumber _ => "number"
  | JsString _ => "string"
  | JsArray _ => "array"
  | JsObject _ | JsError _ _ _ => "object"
  end.

Definition invalid_type (expected : string) (p : list PathSegment) (v : JsValue) : ZodIssue :=
  {| path := p;
     message := match v with
                | JsUndefined => "Required"
                | _ => "Expected " ++ expected ++ ", received " ++ parsedType v
                end |}.

Definition too_small (size : nat) (min : option (nat * string)) (p : list PathSegment)
    : list ZodIssue :=
  match min with
  | Some (n, msg) => if (size <? n)%nat then [ {| path := p; message := msg |} ] else []
  | None => []
  end.

Definition is_undefined (v : JsValue) : bool :=
  match v with
  | JsUndefined => true
  | _ => false
  end.

Definition Checker : Type := list PathSegment -> JsValue -> JsValue * list ZodIssue.

(** The elements of an array, each under its index. *)
Fixpoint check_items (element : Checker) (p : list PathSegment) (i : nat)
    (items : list JsValue) : list (JsValue * list ZodIssue) :=
  match items with
  | [] => []
  | item :: rest =>
      element (p ++ [Index i])%list item :: check_items element p (S i) rest
  end.

(** The keys of a shape, in the order of the shape: each is read from
    the input and validated; it is part of the output when its value is
    defined or when the input has the key. Keys of the input that the
    shape does not declare are never looked at. *)
Fixpoint check_fields (validate : ZodType -> Checker) (p : list PathSegment)
    (data : JsValue) (shape : list (string * ZodType))
    : list (string * JsValue) * list ZodIssue :=
  match shape with
  | [] => ([], [])
  | (key, validator) :: rest =>
      let (value, issues) := validate validator (p ++ [Key key])%list (Js.get data key) in
      let (out, more) := check_fields validate p data rest in
      (if negb (is_undefined value) || Js.has_property key data
       then (key, value) :: out else out,
       (issues ++ more)%list)
  end.

(** [check t p data]: the output value and the issues found, in the order
    zod reports them. The output is meaningful when there is no issue. *)
Fixpoint check (t : ZodType) (p : list PathSegment) (data : JsValue) {struct t}
    : JsValue * list ZodIssue :=
  match t with
  | ZString min =>
      match data with
      | JsString s => (data, too_small (String.length s) min p)
      | _ => (JsUndefined, [invalid_type "string" p data])
      end
  | ZBoolean =>
      match data with
      | JsBoolean _ => (data, [])
      | _ => (JsUndefined, [invalid_type "boolean" p data])
      end
  | ZAny => (data, [])
  | ZOptional inner =>
      match data with
      | JsUndefined => (JsUndefined, [])
      | _ => check inner p data
      end
  | ZArray element min =>
      match data with
      | JsArray items =>
          let results := check_items (check element) p 0 items in
          (JsArray (map fst results),
           (too_small (List.length items) min p ++ List.concat (map snd results))%list)
      | _ => (JsUndefined, [invalid_type "array" p data])
      end
  | ZObject shape =>
      match data with
      | JsObject _ | JsError _ _ _ =>
          let fields := check_fields (fun validator => check validator) p data shape in
          (JsObject (fst fields), snd fields)
      | _ => (JsUndefined, [invalid_type "object" p data])
      end
  end.

(** The keys a schema declares, for an object schema. *)
Definition declared (t : ZodType) : list string :=
  match t with
  | ZObject shape => map fst shape
  | _ => []
  end.

End Zod.

Import Zod.

(* ===================================================================== *)
(** ** schemas.ts *)
(* ===================================================================== *)

Definition required_message (field kind : string) : string :=
  Str.quote ++ field ++ Str.quote ++ " (" ++ kind ++ ") is required.".

Definition CreatePresentationArgsSchema : ZodType :=
  ZObject [ ("title", ZString (Some (1%nat, required_message "title" "string"))) ].

Definition GetPresentationArgsSchema : ZodType :=
  ZObject [ ("presentationId", ZString (Some (1%nat, required_message "presentationId" "string")));
            ("fields", ZOptional (ZString None)) ].

Definition GoogleSlidesRequestSchema : ZodType := ZAny.
Definition GoogleSlidesWriteControlSchema : ZodType := ZAny.

Definition BatchUpdatePresentationArgsSchema : ZodType :=
  ZObject [ ("presentationId", ZString (Some (1%nat, required_message "presentationId" "string")));
            ("requests", ZArray GoogleSlidesRequestSchema
                                (Some (1%nat, required_message "requests" "array")));
            ("writeControl", ZOptional GoogleSlidesWriteControlSchema) ].

Definition GetPageArgsSchema : ZodType :=
  ZObject [ ("presentationId", ZString (Some (1%nat, required_message "presentationId" "string")));
            ("pageObjectId", ZString (Some (1%nat, required_message "pageObjectId" "string"))) ].

Definition SummarizePresentationArgsSchema : ZodType :=
  ZObject [ ("presentationId", ZString (Some (1%nat, required_message "presentationId" "string")));
            ("include_notes", ZOptional ZBoolean) ].

Section Server.

Variable rt : Runtime.

(** [new McpError(code, message)]: the SDK computes the [message]
    attribute of the error from both arguments. *)
Definition new_McpError (code : ErrorCode) (msg : string) : JsValue :=
  JsError (McpErrorClass (EnumCode code))
          (McpError_message rt (EnumCode code) msg) [].

(** [new ZodError(issues)], what a zod schema throws. *)
Definition new_ZodError (issues : list ZodIssue) : JsValue :=
  JsError (ZodErrorClass issues) (ZodError_message rt issues) [].

(** A value inside a template literal. *)
Definition interpolate (v : JsValue) : string :=
  match v with
  | JsString s => s
  | other => ToString rt other
  end.

(** [schema.parse(data)] for a schema built from the combinators. *)
Definition parse (schema : ZodType) : ZodSchema :=
  fun data =>
    match check schema [] data with
    | (value, []) => Normal value
    | (_, issues) => Throw (new_ZodError issues)
    end.

(* =================================================================== *)
(** *** utils/toolExecutor.ts *)
(* =================================================================== *)

(** [extractErrorMessage]: the message of an [Error], a string itself, or
    the literal. *)
Definition extractErrorMessage (err : JsValue) : string :=
  match err with
  | JsError _ msg _ => msg          (* err instanceof Error *)
  | JsString s => s                 (* typeof err === 'string' *)
  | _ => "Unknown error"
  end.

Definition segment_to_string (seg : PathSegment) : string :=
  match seg with
  | Key name => name
  | Index i => Str.of_nat i
  end.

(** [e.path.join('.')] *)
Definition path_join (p : list PathSegment) : string :=
  Str.join "." (map segment_to_string p).

(** [error.errors.map((e) => `${e.path.join('.')}: ${e.message}`).join('; ')] *)
Definition validationErrors (errors : list ZodIssue) : string :=
  Str.join "; " (map (fun e => path_join (path e) ++ ": " ++ message e) errors).

(** [executeTool]: the body of the [try] block, then the [catch] block
    with its three cases, tested in this order: a [ZodError], an
    [McpError], anything else. The call of the tool function is recorded
    in the trace. *)
Definition executeTool (slides : Slides) (toolName : string) (args : JsValue)
    (schema : ZodSchema) (toolFn : ToolFn) : Exec Envelope :=
  try_catch
    (match args with
     | JsUndefined =>
         throw (new_McpError InvalidParams
                  ("Missing arguments for tool " ++ Str.quote ++ toolName ++ Str.quote ++ "."))
     | _ =>
         parsedArgs <- lift (schema args) ;;
         emit (ToolFnCall parsedArgs) ;;;
         toolFn slides parsedArgs
     end)
    (fun error =>
       emit (ConsoleError ("Error executing tool " ++ Str.quote ++ toolName ++ Str.quote ++ ":") error) ;;;
       match error with
       | JsError (ZodErrorClass errors) _ _ =>
           let code := EnumCode InvalidParams in
           let mcpError_message :=
             McpError_message rt code
               ("Invalid arguments for tool " ++ Str.quote ++ toolName ++ Str.quote ++ ": "
                  ++ validationErrors errors) in
           ret (error_result mcpError_message code)
       | JsError (McpErrorClass code) msg _ =>
           ret (error_result msg code)
       | _ =>
           let errorMessage := extractErrorMessage error in
           let code := EnumCode InternalError in
           let mcpError_message :=
             McpError_message rt code
               ("Failed to execute tool " ++ Str.quote ++ toolName ++ Str.quote ++ ": "
                  ++ errorMessage) in
           ret (error_result mcpError_message code)
       end).

(* =================================================================== *)
(** *** The tool methods of the server class *)
(* =================================================================== *)

(** The methods below are the tool functions in the form they have as
    methods of the server class: one remote call inside [try], the
    serialized response as the result, and a [catch] block that logs and
    throws an [McpError] with the code InternalError. *)

(** [await call(request)] on the remote client. *)
Definition await_remote {A} (method : string) (call : JsValue -> Completion A)
    (request : JsValue) : Exec A :=
  emit (RemoteCall method request) ;;; lift (call request).

(** The [errorMessage] that the catch block of every tool method
    computes from the value the remote call rejected with. *)
Definition apiErrorMessage (error : JsValue) : JsValue :=
  if Js.typeof_object error
     && negb (match error with JsNull => true | _ => false end)
     && Js.has_property "response" error
  then
    let nested :=
      Js.get (Js.get (Js.get (Js.get error "response") "data") "error") "message" in
    if Js.truthy nested then nested
    else match error with
         | JsError _ msg _ => JsString msg
         | other => JsString (ToString rt other)
         end
  else
    match error with
    | JsError _ msg _ => JsString msg
    | _ => JsString "Unknown Google API error"
    end.

(** The catch block of the tool method [method]. *)
Definition rethrow_api_error (method : string) (error : JsValue) : Exec Envelope :=
  emit (ConsoleError ("Google API Error (" ++ method ++ "):") error) ;;;
  throw (new_McpError InternalError
           ("Google API Error: " ++ interpolate (apiErrorMessage error))).

Definition createPresentation : ToolFn := fun this_slides args =>
  try_catch
    (data <- await_remote "presentations.create" (presentations_create this_slides)
               (JsObject [ ("requestBody", JsObject [ ("title", Js.get args "title") ]) ]) ;;
     ret (success_result (stringify_presentation rt data)))
    (rethrow_api_error "createPresentation").

Definition getPresentation : ToolFn := fun this_slides args =>
  try_catch
    (data <- await_remote "presentations.get" (presentations_get this_slides)
               (JsObject [ ("presentationId", Js.get args "presentationId");
                           ("fields", Js.get args "fields") ]) ;;
     ret (success_result (stringify_presentation rt data)))
    (rethrow_api_error "getPresentation").

Definition batchUpdatePresentation : ToolFn := fun this_slides args =>
  try_catch
    (data <- await_remote "presentations.batchUpdate" (presentations_batchUpdate this_slides)
               (JsObject [ ("presentationId", Js.get args "presentationId");
                           ("requestBody",
                            JsObject [ ("requests", Js.get args "requests");
                                       ("writeControl", Js.get args "writeControl") ]) ]) ;;
     ret (success_result (stringify rt data)))
    (rethrow_api_error "batchUpdatePresentation").

Definition getPage : ToolFn := fun this_slides args =>
  try_catch
    (data <- await_remote "presentations.pages.get" (presentations_pages_get this_slides)
               (JsObject [ ("presentationId", Js.get args "presentationId");
                           ("pageObjectId", Js.get args "pageObjectId") ]) ;;
     ret (success_result (stringify_page rt data)))
    (rethrow_api_error "getPage").

(** [o || fallback] for an optional string. *)
Definition or_else (o : option string) (fallback : string) : string :=
  match o with
  | Some s => if Str.nonempty s then s else fallback
  | None => fallback
  end.

(** [textElement.textRun && textElement.textRun.content]: the content of
    the run when both are truthy. *)
Definition truthy_content (textElement : TextElement) : option string :=
  match textRun textElement with
  | Some run =>
      match run_content run with
      | Some c => if Str.nonempty c then Some c else None
      | None => None
      end
  | None => None
  end.

(** [x && x.text && x.text.textElements], then [forEach] over it. *)
Definition elements_of (t : option TextContent) : list TextElement :=
  match t with
  | Some tc => match textElements tc with Some l => l | None => [] end
  | None => []
  end.

(** The inner [forEach] of the slide walk: [slideText.push(content.trim())]. *)
Definition push_runs (slideText : list string) (l : list TextElement) : list string :=
  fold_left
    (fun acc textElement =>
       match truthy_content textElement with
       | Some c => (acc ++ [Str.trim c])%list
       | None => acc
       end)
    l slideText.

Definition push_shape (slideText : list string) (element : PageElement) : list string :=
  match shape element with
  | Some sh => push_runs slideText (elements_of (shape_text sh))
  | None => slideText
  end.

Definition push_table (slideText : list string) (element : PageElement) : list string :=
  match table element with
  | Some tb =>
      match tableRows tb with
      | Some rows =>
          fold_left
            (fun acc row =>
               match tableCells row with
               | Some cells =>
                   fold_left (fun acc' cell => push_runs acc' (elements_of (cell_text cell)))
                             cells acc
               | None => acc
               end)
            rows slideText
      | None => slideText
      end
  | None => slideText
  end.

(** [slide.pageElements.forEach(...)]: the shape of an element, then its
    table. *)
Definition collect_slideText (slide : Page) : list string :=
  match pageElements slide with
  | Some elements =>
      fold_left (fun acc element => push_table (push_shape acc element) element)
                elements []
  | None => []
  end.

(** The inner [forEach] of the notes walk: [notes += content.trim() + ' ']. *)
Definition append_notes (notes : string) (l : list TextElement) : string :=
  fold_left
    (fun acc textElement =>
       match truthy_content textElement with
       | Some c => acc ++ Str.trim c ++ " "
       | None => acc
       end)
    l notes.

Definition collect_notes (includeNotes : bool) (slide : Page) : string :=
  if includeNotes then
    match slideProperties slide with
    | Some sp =>
        match notesPage sp with
        | Some np =>
            match notes_pageElements np with
            | Some elements =>
                fold_left
                  (fun acc element =>
                     match shape element with
                     | Some sh => append_notes acc (elements_of (shape_text sh))
                     | None => acc
                     end)
                  elements EmptyString
            | None => EmptyString
            end
        | None => EmptyString
        end
    | None => EmptyString
    end
  else EmptyString.

(** The callback of [presentation.slides.map((slide, index) => ...)]. *)
Definition slideSummary (includeNotes : bool) (index : nat) (slide : Page) : JsValue :=
  let slideNumber := S index in
  let slideText := collect_slideText slide in
  let notes := collect_notes includeNotes slide in
  JsObject
    ([ ("slideNumber", JsNumber (Z.of_nat slideNumber));
       ("slideId", JsString (or_else (objectId slide) ("slide_" ++ Str.of_nat slideNumber)));
       ("content", JsString (Str.join " " (filter Str.nonempty slideText))) ]
     ++ (if includeNotes && Str.nonempty notes
         then [ ("notes", JsString (Str.trim notes)) ]
         else []))%list.

Fixpoint map_from {A B} (f : nat -> A -> B) (index : nat) (l : list A) : list B :=
  match l with
  | [] => []
  | x :: rest => f index x :: map_from f (S index) rest
  end.

(** [l.map((x, index) => f(x, index))] *)
Definition map_indexed {A B} (f : nat -> A -> B) (l : list A) : list B :=
  map_from f 0 l.

(** The object that [summarizePresentation] serializes. *)
Definition summary_of (includeNotes : bool) (presentation : Presentation) : JsValue :=
  match slides presentation with
  | None | Some [] =>
      JsObject [ ("title", JsString (or_else (title presentation) "Untitled Presentation"));
                 ("slideCount", JsNumber 0);
                 ("summary", JsString "This presentation contains no slides.") ]
  | Some pages =>
      let slidesContent := map_indexed (slideSummary includeNotes) pages in
      JsObject [ ("title", JsString (or_else (title presentation) "Untitled Presentation"));
                 ("slideCount", JsNumber (Z.of_nat (List.length slidesContent)));
                 ("lastModified",
                  JsString (match revisionId presentation with
                            | Some r => if Str.nonempty r then "Revision " ++ r else "Unknown"
                            | None => "Unknown"
                            end));
                 ("slides", JsArray slidesContent) ]
  end.

Definition summarizePresentation : ToolFn := fun this_slides args =>
  let includeNotes :=
    match Js.get args "include_notes" with
    | JsBoolean true => true
    | _ => false
    end in
  try_catch
    (presentation <- await_remote "presentations.get" (presentations_get this_slides)
                       (JsObject [ ("presentationId", Js.get args "presentationId") ]) ;;
     ret (success_result (stringify rt (summary_of includeNotes presentation))))
    (rethrow_api_error "summarizePresentation").

(* =================================================================== *)
(** *** index.ts: the handler of a tool call request *)
(* =================================================================== *)

(** The tool functions that index.ts imports from tools/*.js and passes
    to [executeTool]. They are not among the sources, so the handler is
    embedded for any five tool functions. *)
Record Tools : Type := {
  createPresentationTool : ToolFn;
  getPresentationTool : ToolFn;
  batchUpdatePresentationTool : ToolFn;
  getPageTool : ToolFn;
  summarizePresentationTool : ToolFn
}.

(** The [switch] on the tool name: each known tool goes through
    [executeTool] with its schema and its tool function; an unknown name
    is answered with a MethodNotFound envelope. *)
Definition callToolWith (tools : Tools) (this_slides : Slides) (name : string)
    (args : JsValue) : Exec Envelope :=
  if String.eqb name "create_presentation" then
    executeTool this_slides name args (parse CreatePresentationArgsSchema)
                (createPresentationTool tools)
  else if String.eqb name "get_presentation" then
    executeTool this_slides name args (parse GetPresentationArgsSchema)
                (getPresentationTool tools)
  else if String.eqb name "batch_update_presentation" then
    executeTool this_slides name args (parse BatchUpdatePresentationArgsSchema)
                (batchUpdatePresentationTool tools)
  else if String.eqb name "get_page" then
    executeTool this_slides name args (parse GetPageArgsSchema) (getPageTool tools)
  else if String.eqb name "summarize_presentation" then
    executeTool this_slides name args (parse SummarizePresentationArgsSchema)
                (summarizePresentationTool tools)
  else
    ret (error_result ("Unknown tool requested: " ++ name) (EnumCode MethodNotFound)).

(** The tool methods of the class form of the server, as tool functions. *)
Definition class_tools : Tools :=
  {| createPresentationTool := createPresentation;
     getPresentationTool := getPresentation;
     batchUpdatePresentationTool := batchUpdatePresentation;
     getPageTool := getPage;
     summarizePresentationTool := summarizePresentation |}.

(** The handler of index.ts with the tool methods of the class form in
    the place of the tool functions of tools/*.js: the same remote calls,
    requests and success envelopes; the catch blocks of the methods are
    those of the class form. *)
Definition callTool (this_slides : Slides) (name : string) (args : JsValue) : Exec Envelope :=
  callToolWith class_tools this_slides name args.

End Server.

(* ===================================================================== *)
(** ** What the design document says, in its own words *)
(* ===================================================================== *)

(** The envelope invariant: [isError] and [errorCode] are both absent, or
    both present with [isError] true and the code a member of the
    enumeration. *)
Definition well_formed (e : Envelope) : bool :=
  match isError e, errorCode e with
  | None, None => true
  | Some true, Some c => in_enumeration c
  | _, _ => false
  end.

(** The text runs of a slide in document order: for every page element,
    the runs of its shape, then the runs of its table, rows then cells.
    A run without a content contributes nothing. *)
Definition run_contents (l : list TextElement) : list string :=
  flat_map
    (fun textElement =>
       match textRun textElement with
       | Some run => match run_content run with Some c => [c] | None => [] end
       | None => []
       end)
    l.

Definition text_of (t : option TextContent) : list string :=
  match t with
  | Some tc => match textElements tc with Some l => run_contents l | None => [] end
  | None => []
  end.

Definition shape_runs (element : PageElement) : list string :=
  match shape element with
  | Some sh => text_of (shape_text sh)
  | None => []
  end.

Definition table_runs (element : PageElement) : list string :=
  match table element with
  | Some tb =>
      flat_map
        (fun row =>
           flat_map (fun cell => text_of (cell_text cell))
                    (match tableCells row with Some cells => cells | None => [] end))
        (match tableRows tb with Some rows => rows | None => [] end)
  | None => []
  end.

Definition document_runs (slide : Page) : list string :=
  flat_map (fun element => (shape_runs element ++ table_runs element)%list)
           (match pageElements slide with Some elements => elements | None => [] end).

(** The content of a slide: the trimmed runs that are not empty, joined
    with one space. *)
Definition content_of (slide : Page) : string :=
  Str.join " " (filter Str.nonempty (map Str.trim (document_runs slide))).

(** A notes run as it is accumulated: trimmed, then a space. *)
Definition spaced (c : string) : string := Str.trim c ++ " ".

(** The notes text of a slide: the runs of the shapes of the notes page,
    each trimmed and followed by a space, the whole trimmed. *)
Definition notes_runs (slide : Page) : list string :=
  match slideProperties slide with
  | Some sp =>
      match notesPage sp with
      | Some np =>
          flat_map shape_runs
                   (match notes_pageElements np with Some l => l | None => [] end)
      | None => []
      end
  | None => []
  end.

Definition notes_text (slide : Page) : string :=
  Str.trim (Str.concat_all (map spaced (filter Str.nonempty (notes_runs slide)))).

(** The failure envelope that section 4.2 (step 3) describes for a value
    thrown by the tool function: a structured error passes through;
    anything else is wrapped as an InternalError whose detail is the
    message of an exception-like value, a string itself, or a literal. *)
Definition described_detail (thrown : JsValue) : string :=
  match thrown with
  | JsError _ msg _ => msg
  | JsString s => s
  | _ => "Unknown error"
  end.

Definition described_failure (rt : Runtime) (toolName : string) (thrown : JsValue) : Envelope :=
  match thrown with
  | JsError (McpErrorClass code) msg _ => error_result msg code
  | _ =>
      error_result
        (McpError_message rt (EnumCode InternalError)
           ("Failed to execute tool " ++ Str.quote ++ toolName ++ Str.quote ++ ": "
              ++ described_detail thrown))
        (EnumCode InternalError)
  end.

(** Modelled from the spec: utils/errorHandler.ts is not among the
    sources (its tests are). Section 4.4 resolves the detail of a rejected
    remote call in this order: the nested response/data/error/message
    field when present (a string at that path), else the message of an
    exception-like value, else a string itself, else a fixed literal. *)
Definition described_remote_detail (rawError : JsValue) : string :=
  match Js.get (Js.get (Js.get (Js.get rawError "response") "data") "error") "message" with
  | JsString nested => nested
  | _ =>
      match rawError with
      | JsError _ msg _ => msg
      | JsString s => s
      | _ => "Unknown Remote API error"
      end
  end.

(** Modelled from the spec: the message of the structured error that
    section 4.4 describes. *)
Definition described_remote_message (operationName : string) (rawError : JsValue) : string :=
  "Remote API Error in " ++ operationName ++ ": " ++ described_remote_detail rawError.

(** The value at [rawError.response.data.error.message]. *)
Definition nested_message (rawError : JsValue) : JsValue :=
  Js.get (Js.get (Js.get (Js.get rawError "response") "data") "error") "message".

Section ErrorHandler.

Variable rt : Runtime.

(** Modelled from the spec: utils/errorHandler.ts is not among the
    sources (its tests are). Section 4.4, [normalize(rawError,
    operationName)]: one diagnostic record with the operation name and the
    raw error, and a structured error with the code InternalError and the
    message [Remote API Error in <operationName>: <detail>]. The tests
    write the name of the vendor where the design writes [Remote]. *)
Definition handleGoogleApiError (rawError : JsValue) (operationName : string) : Exec JsValue :=
  emit (ConsoleError ("Remote API Error (" ++ operationName ++ "):") rawError) ;;;
  ret (new_McpError rt InternalError (described_remote_message operationName rawError)).

(** Modelled from the spec: the tool functions of tools/*.ts, which
    index.ts passes to [executeTool], are not among the sources.
    Section 4.3: a tool function issues its one remote call and returns a
    success envelope with the serialized payload, or raises the structured
    error that the normalizer builds. The remote operation, the request
    built from the validated arguments and the serialization of the
    payload are those of the tool. *)
Definition toolFunction {A} (toolName : string) (call : Slides -> JsValue -> Completion A)
    (request : JsValue -> JsValue) (serialize : A -> string) : ToolFn :=
  fun this_slides args =>
    try_catch
      (data <- await_remote toolName (call this_slides) (request args) ;;
       ret (success_result (serialize data)))
      (fun error =>
         mcpError <- handleGoogleApiError error toolName ;;
         throw mcpError).

End ErrorHandler.

(** The SDK's error message carries the message it was constructed with. *)
Definition carries_message (rt : Runtime) : Prop :=
  forall code msg, Str.contains msg (McpError_message rt code msg).

(* ===================================================================== *)
(** ** Properties of tool functions and schemas *)
(* ===================================================================== *)

(** A tool function keeps the envelope discipline when the envelopes it
    returns are well formed and the structured errors it throws carry a
    code of the enumeration. *)
Definition disciplined (toolFn : ToolFn) : Prop :=
  forall slides args,
    match result (toolFn slides args) with
    | Normal envelope => well_formed envelope = true
    | Throw (JsError (McpErrorClass code) _ _) => in_enumeration code = true
    | Throw _ => True
    end.

(** A tool function as section 4.3 describes it: what it returns is a
    success envelope, with neither [isError] nor [errorCode]; a structured
    error that it throws carries a code of the enumeration. *)
Definition well_behaved (toolFn : ToolFn) : Prop :=
  forall slides args,
    match result (toolFn slides args) with
    | Normal envelope => isError envelope = None /\ errorCode envelope = None
    | Throw (JsError (McpErrorClass code) _ _) => in_enumeration code = true
    | Throw _ => True
    end.

(** A schema that, when it throws, throws a validation error. *)
Definition throws_only_ZodError (schema : ZodSchema) : Prop :=
  forall data thrown,
    schema data = Throw thrown ->
    exists errors msg props, thrown = JsError (ZodErrorClass errors) msg props.

(* ===================================================================== *)
(** ** Undeclared properties *)
(* ===================================================================== *)


(** The schema that the request handler pairs with a tool name. *)
Definition schema_of (name : string) : option ZodType :=
  if String.eqb name "create_presentation" then Some CreatePresentationArgsSchema
  else if String.eqb name "get_presentation" then Some GetPresentationArgsSchema
  else if String.eqb name "batch_update_presentation" then Some BatchUpdatePresentationArgsSchema
  else if String.eqb name "get_page" then Some GetPageArgsSchema
  else if String.eqb name "summarize_presentation" then Some SummarizePresentationArgsSchema
  else None.

(** The schema and the tool function that the request handler pairs with
    a tool name. *)
Definition registered (tools : Tools) (name : string) : option (ZodType * ToolFn) :=
  if String.eqb name "create_presentation"
  then Some (CreatePresentationArgsSchema, createPresentationTool tools)
  else if String.eqb name "get_presentation"
  then Some (GetPresentationArgsSchema, getPresentationTool tools)
  else if String.eqb name "batch_update_presentation"
  then Some (BatchUpdatePresentationArgsSchema, batchUpdatePresentationTool tools)
  else if String.eqb name "get_page"
  then Some (GetPageArgsSchema, getPageTool tools)
  else if String.eqb name "summarize_presentation"
  then Some (SummarizePresentationArgsSchema, summarizePresentationTool tools)
  else None.

(* ===================================================================== *)
(** ** The other handlers of the server *)
(* ===================================================================== *)

(** What is counted in the trace of a call. *)
Definition is_RemoteCall (e : Event) : bool :=
  match e with
  | RemoteCall _ _ => true
  | _ => false
  end.

Definition is_ConsoleError (e : Event) : bool :=
  match e with
  | ConsoleError _ _ => true
  | _ => false
  end.

(** How many requests a call sent to the remote client, and how many
    diagnostics it wrote. *)
Definition remote_calls {A} (m : Exec A) : nat :=
  List.length (filter is_RemoteCall (trace m)).

Definition diagnostics {A} (m : Exec A) : nat :=
  List.length (filter is_ConsoleError (trace m)).

(** The label of the diagnostic of the pipeline. *)
Definition pipeline_label (toolName : string) : string :=
  "Error executing tool " ++ Str.quote ++ toolName ++ Str.quote ++ ":".

(* =================================================================== *)
(** *** The request handler of the class form of the server *)
(* =================================================================== *)

Section ClassHandler.

Variable rt : Runtime.

(** The handler of a tool call request in the class form of the server:
    the test for missing arguments, the [switch] on the tool name with the
    schema and the method of each tool, and the [catch] block that turns
    the thrown value into an [McpError] and answers with its message and
    code. The call of a tool method is recorded in the trace like the call
    of a tool function. *)
Definition handleCallTool (this_slides : Slides) (name : string) (args : JsValue)
    : Exec Envelope :=
  let call (schema : ZodType) (method : ToolFn) : Exec Envelope :=
    parsedArgs <- lift (parse rt schema args) ;;
    emit (ToolFnCall parsedArgs) ;;;
    method this_slides parsedArgs in
  try_catch
    (match args with
     | JsUndefined =>
         throw (new_McpError rt InvalidParams
                  ("Missing arguments for tool " ++ Str.quote ++ name ++ Str.quote ++ "."))
     | _ =>
         if String.eqb name "create_presentation" then
           call CreatePresentationArgsSchema (createPresentation rt)
         else if String.eqb name "get_presentation" then
           call GetPresentationArgsSchema (getPresentation rt)
         else if String.eqb name "batch_update_presentation" then
           call BatchUpdatePresentationArgsSchema (batchUpdatePresentation rt)
         else if String.eqb name "get_page" then
           call GetPageArgsSchema (getPage rt)
         else if String.eqb name "summarize_presentation" then
           call SummarizePresentationArgsSchema (summarizePresentation rt)
         else
           throw (new_McpError rt MethodNotFound ("Unknown tool requested: " ++ name))
     end)
    (fun error =>
       emit (ConsoleError ("Error executing tool " ++ Str.quote ++ name ++ Str.quote ++ ":") error) ;;;
       let mcpError : string * McpCode :=
         match error with
         | JsError (ZodErrorClass errors) _ _ =>
             (McpError_message rt (EnumCode InvalidParams)
                ("Invalid arguments for tool " ++ Str.quote ++ name ++ Str.quote ++ ": "
                   ++ validationErrors errors),
              EnumCode InvalidParams)
         | JsError (McpErrorClass code) msg _ => (msg, code)
         | _ =>
             let errorMessage :=
               match error with
               | JsError _ msg _ => msg
               | JsString s => s
               | _ => "Unknown error"
               end in
             (McpError_message rt (EnumCode InternalError)
                ("Failed to execute tool " ++ Str.quote ++ name ++ Str.quote ++ ": "
                   ++ errorMessage),
              EnumCode InternalError)
         end in
       ret (error_result (fst mcpError) (snd mcpError))).

End ClassHandler.

(** The tool names of the [switch] of the request handler. *)
Definition known_tools : list string :=
  [ "create_presentation"; "get_presentation"; "batch_update_presentation";
    "get_page"; "summarize_presentation" ].

(* =================================================================== *)
(** *** Remote clients, tool functions and validators *)
(* =================================================================== *)

(** A remote client whose every call rejects with [error]. *)
Definition rejecting_slides (error : JsValue) : Slides :=
  {| presentations_create := fun _ => Throw error;
     presentations_get := fun _ => Throw error;
     presentations_batchUpdate := fun _ => Throw error;
     presentations_pages_get := fun _ => Throw error |}.

(** A tool function that is one guarded remote call: it sends one request
    and returns a success envelope, or it sends one request, writes one
    diagnostic with the value the call rejected with, and throws an
    [McpError] with the code InternalError. *)
Definition guarded_call (rt : Runtime) (toolFn : ToolFn) : Prop :=
  forall slides args,
    (exists t request method,
       toolFn slides args = (Normal (success_result t), [ RemoteCall method request ]))
    \/ (exists error request method name,
          toolFn slides args
          = (Throw (new_McpError rt InternalError
                      ("Google API Error: " ++ interpolate rt (apiErrorMessage rt error))),
             [ RemoteCall method request;
               ConsoleError ("Google API Error (" ++ name ++ "):") error ])).

(** A validator that does not accept [undefined]: every combinator but
    [.optional()] and [z.any()]. *)
Definition requires (validator : ZodType) : bool :=
  match validator with
  | ZOptional _ | ZAny => false
  | _ => true
  end.

(** The property [key] of the validated arguments, when the input has the
    key or the value is defined. *)
Definition optional_property (key : string) (args : JsValue) : list (string * JsValue) :=
  if negb (is_undefined (Js.get args key)) || Js.has_property key args
  then [ (key, Js.get args key) ]
  else [].

(** A validator whose output, when it accepts, is its input: the strings,
    booleans, [z.any()], arrays of [z.any()], and their [.optional()]. *)
Definition passes_through (validator : ZodType) : bool :=
  match validator with
  | ZString _ | ZBoolean | ZAny | ZArray ZAny _ => true
  | ZOptional (ZString _) | ZOptional ZBoolean | ZOptional ZAny => true
  | _ => false
  end.

(* =================================================================== *)
(** *** index.ts: the handler of a list tools request *)
(* =================================================================== *)

(** [{ type, description }], a property of an input schema. *)
Definition described_property (type description : string) : JsValue :=
  JsObject [ ("type", JsString type); ("description", JsString description) ].

(** The object the handler of [ListToolsRequestSchema] answers with. *)
Definition listTools : JsValue :=
  JsObject
    [ ("tools",
       JsArray
         [ JsObject
             [ ("name", JsString "create_presentation");
               ("description", JsString "Create a new Google Slides presentation");
               ("inputSchema",
                JsObject
                  [ ("type", JsString "object");
                    ("properties",
                     JsObject
                       [ ("title",
                          described_property "string" "The title of the presentation.") ]);
                    ("required", JsArray [ JsString "title" ]) ]) ];
           JsObject
             [ ("name", JsString "get_presentation");
               ("description", JsString "Get details about a Google Slides presentation");
               ("inputSchema",
                JsObject
                  [ ("type", JsString "object");
                    ("properties",
                     JsObject
                       [ ("presentationId",
                          described_property "string" "The ID of the presentation to retrieve.");
                         ("fields",
                          described_property "string"
                            ("Optional. A mask specifying which fields to include in the response (e.g., "
                               ++ Str.quote ++ "slides,pageSize" ++ Str.quote ++ ").")) ]);
                    ("required", JsArray [ JsString "presentationId" ]) ]) ];
           JsObject
             [ ("name", JsString "batch_update_presentation");
               ("description",
                JsString "Apply a batch of updates to a Google Slides presentation");
               ("inputSchema",
                JsObject
                  [ ("type", JsString "object");
                    ("properties",
                     JsObject
                       [ ("presentationId",
                          described_property "string" "The ID of the presentation to update.");
                         ("requests",
                          JsObject
                            [ ("type", JsString "array");
                              ("description",
                               JsString "A list of update requests to apply. See Google Slides API documentation for request structures.");
                              ("items", JsObject [ ("type", JsString "object") ]) ]);
                         ("writeControl",
                          JsObject
                            [ ("type", JsString "object");
                              ("description",
                               JsString "Optional. Provides control over how write requests are executed.");
                              ("properties",
                               JsObject
                                 [ ("requiredRevisionId",
                                    JsObject [ ("type", JsString "string") ]);
                                   ("targetRevisionId",
                                    JsObject [ ("type", JsString "string") ]) ]) ]) ]);
                    ("required",
                     JsArray [ JsString "presentationId"; JsString "requests" ]) ]) ];
           JsObject
             [ ("name", JsString "get_page");
               ("description",
                JsString "Get details about a specific page (slide) in a presentation");
               ("inputSchema",
                JsObject
                  [ ("type", JsString "object");
                    ("properties",
                     JsObject
                       [ ("presentationId",
                          described_property "string" "The ID of the presentation.");
                         ("pageObjectId",
                          described_property "string"
                            "The object ID of the page (slide) to retrieve.") ]);
                    ("required",
                     JsArray [ JsString "presentationId"; JsString "pageObjectId" ]) ]) ];
           JsObject
             [ ("name", JsString "summarize_presentation");
               ("description",
                JsString "Extract text content from all slides in a presentation for summarization purposes");
               ("inputSchema",
                JsObject
                  [ ("type", JsString "object");
                    ("properties",
                     JsObject
                       [ ("presentationId",
                          described_property "string" "The ID of the presentation to summarize.");
                         ("include_notes",
                          described_property "boolean"
                            "Optional. Whether to include speaker notes in the summary (default: false).") ]);
                    ("required", JsArray [ JsString "presentationId" ]) ]) ] ]) ].

(** Reading the listing: the items of an array, a string, the keys of an
    object. *)
Definition items_of (v : JsValue) : list JsValue :=
  match v with
  | JsArray items => items
  | _ => []
  end.

Definition string_of (v : JsValue) : string :=
  match v with
  | JsString s => s
  | _ => EmptyString
  end.

Definition keys_of (v : JsValue) : list string :=
  match v with
  | JsObject props => Js.keys props
  | _ => []
  end.

Definition listed_tools : list JsValue := items_of (Js.get listTools "tools").

Definition tool_name (tool : JsValue) : string := string_of (Js.get tool "name").

Definition listed_properties (tool : JsValue) : list string :=
  keys_of (Js.get (Js.get tool "inputSchema") "properties").

Definition listed_required (tool : JsValue) : list string :=
  map string_of (items_of (Js.get (Js.get tool "inputSchema") "required")).

Definition listed_type (tool : JsValue) (key : string) : string :=
  string_of (Js.get (Js.get (Js.get (Js.get tool "inputSchema") "properties") key) "type").

(** The JSON type a validator accepts; [z.any()] accepts every type. *)
Fixpoint json_type (validator : ZodType) : option string :=
  match validator with
  | ZString _ => Some "string"
  | ZBoolean => Some "boolean"
  | ZAny => None
  | ZOptional inner => json_type inner
  | ZArray _ _ => Some "array"
  | ZObject _ => Some "object"
  end.

(** The keys of a shape that a valid object must have. *)
Definition required_keys (shape : list (string * ZodType)) : list string :=
  map fst (filter (fun field => requires (snd field)) shape).

(* =================================================================== *)
(** *** The first form of the server class: validation by hand *)
(* =================================================================== *)

(** Before the schemas were introduced, the server class validated the
    arguments inside each tool method, which received the arguments of
    the request as they came ([args: any]). There were four tools. The
    definitions below carry the prefix [legacy_]; the source names are
    those of the later form ([createPresentation], ...). *)

Definition legacy_tools : list string :=
  [ "create_presentation"; "get_presentation"; "batch_update_presentation"; "get_page" ].

(** Every rejection of the remote client is an instance of [Error]. *)
Definition rejects_with_errors (slides : Slides) : Prop :=
  (forall request thrown,
     presentations_create slides request = Throw thrown -> Js.instanceof_Error thrown = true)
  /\ (forall request thrown,
        presentations_get slides request = Throw thrown -> Js.instanceof_Error thrown = true)
  /\ (forall request thrown,
        presentations_batchUpdate slides request = Throw thrown ->
        Js.instanceof_Error thrown = true)
  /\ (forall request thrown,
        presentations_pages_get slides request = Throw thrown ->
        Js.instanceof_Error thrown = true).

Section LegacyServer.

Variable rt : Runtime.

(** The message of the [TypeError] that the engine throws when property
    [key] of [undefined] or [null] is read. *)
Variable TypeError_message : JsValue -> string -> string.

(** [v.key] *)
Definition member (v : JsValue) (key : string) : Completion JsValue :=
  match v with
  | JsUndefined | JsNull => Throw (JsError PlainError (TypeError_message v key) [])
  | _ => Normal (Js.get v key)
  end.

(** [typeof v === 'string'] *)
Definition is_string (v : JsValue) : bool :=
  match v with
  | JsString _ => true
  | _ => false
  end.

(** [Array.isArray(v)] *)
Definition isArray (v : JsValue) : bool :=
  match v with
  | JsArray _ => true
  | _ => false
  end.

(** [if (!args.key || typeof args.key !== 'string') throw new McpError(...)] *)
Definition legacy_require_string (args : JsValue) (key : string) : Exec unit :=
  value <- lift (member args key) ;;
  if negb (Js.truthy value) || negb (is_string value)
  then throw (new_McpError rt InvalidParams
                ("Invalid or missing " ++ Str.quote ++ key ++ Str.quote
                   ++ " argument (string required)."))
  else ret tt.

(** [if (!args.key || !Array.isArray(args.key)) throw new McpError(...)] *)
Definition legacy_require_array (args : JsValue) (key : string) : Exec unit :=
  value <- lift (member args key) ;;
  if negb (Js.truthy value) || negb (isArray value)
  then throw (new_McpError rt InvalidParams
                ("Invalid or missing " ++ Str.quote ++ key ++ Str.quote
                   ++ " argument (array required)."))
  else ret tt.

(** The catch block of a tool method: it logs
    [error.response?.data || error.message] and throws an [McpError] whose
    detail is [error.response?.data?.error?.message || error.message]. *)
Definition legacy_rethrow (method : string) (error : JsValue) : Exec Envelope :=
  response <- lift (member error "response") ;;
  let data := Js.get response "data" in
  emit (ConsoleError ("Google API Error (" ++ method ++ "):")
          (if Js.truthy data then data else Js.get error "message")) ;;;
  let nested := Js.get (Js.get data "error") "message" in
  throw (new_McpError rt InternalError
           ("Google API Error: "
              ++ interpolate rt (if Js.truthy nested then nested else Js.get error "message"))).

Definition legacy_createPresentation : ToolFn := fun this_slides args =>
  legacy_require_string args "title" ;;;
  try_catch
    (data <- await_remote "presentations.create" (presentations_create this_slides)
               (JsObject [ ("requestBody", JsObject [ ("title", Js.get args "title") ]) ]) ;;
     ret (success_result (stringify_presentation rt data)))
    (legacy_rethrow "createPresentation").

Definition legacy_getPresentation : ToolFn := fun this_slides args =>
  legacy_require_string args "presentationId" ;;;
  try_catch
    (data <- await_remote "presentations.get" (presentations_get this_slides)
               (JsObject [ ("presentationId", Js.get args "presentationId");
                           ("fields", Js.get args "fields") ]) ;;
     ret (success_result (stringify_presentation rt data)))
    (legacy_rethrow "getPresentation").

Definition legacy_batchUpdatePresentation : ToolFn := fun this_slides args =>
  legacy_require_string args "presentationId" ;;;
  legacy_require_array args "requests" ;;;
  try_catch
    (data <- await_remote "presentations.batchUpdate" (presentations_batchUpdate this_slides)
               (JsObject [ ("presentationId", Js.get args "presentationId");
                           ("requestBody",
                            JsObject [ ("requests", Js.get args "requests");
                                       ("writeControl", Js.get args "writeControl") ]) ]) ;;
     ret (success_result (stringify rt data)))
    (legacy_rethrow "batchUpdatePresentation").

Definition legacy_getPage : ToolFn := fun this_slides args =>
  legacy_require_string args "presentationId" ;;;
  legacy_require_string args "pageObjectId" ;;;
  try_catch
    (data <- await_remote "presentations.pages.get" (presentations_pages_get this_slides)
               (JsObject [ ("presentationId", Js.get args "presentationId");
                           ("pageObjectId", Js.get args "pageObjectId") ]) ;;
     ret (success_result (stringify_page rt data)))
    (legacy_rethrow "getPage").

(** The catch block of the request handler: it logs the value, passes an
    [McpError] through and wraps anything else with
    [error.message || 'Unknown error']. *)
Definition legacy_catch (name : string) (error : JsValue) : Exec Envelope :=
  emit (ConsoleError ("Error executing tool " ++ Str.quote ++ name ++ Str.quote ++ ":") error) ;;;
  match error with
  | JsError (McpErrorClass code) msg _ => ret (error_result msg code)
  | _ =>
      error_message <- lift (member error "message") ;;
      ret (error_result
             (McpError_message rt (EnumCode InternalError)
                ("Failed to execute tool " ++ Str.quote ++ name ++ Str.quote ++ ": "
                   ++ interpolate rt (if Js.truthy error_message then error_message
                                      else JsString "Unknown error")))
             (EnumCode InternalError))
  end.

(** The handler of a tool call request: the [switch] on the tool name
    inside [try], and the catch block. *)
Definition legacy_handleCallTool (this_slides : Slides) (name : string) (args : JsValue)
    : Exec Envelope :=
  try_catch
    (if String.eqb name "create_presentation" then legacy_createPresentation this_slides args
     else if String.eqb name "get_presentation" then legacy_getPresentation this_slides args
     else if String.eqb name "batch_update_presentation"
          then legacy_batchUpdatePresentation this_slides args
     else if String.eqb name "get_page" then legacy_getPage this_slides args
     else throw (new_McpError rt MethodNotFound ("Unknown tool requested: " ++ name)))
    (legacy_catch name).

End LegacyServer.

(** A run that returns a success envelope, or throws an instance of
    [Error] that is a [TypeError] or an [McpError] with a code of the
    enumeration. *)
Definition envelope_or_error (run : Exec Envelope) : Prop :=
  (exists t events, run = (Normal (success_result t), events))
  \/ (exists cls msg events,
        run = (Throw (JsError cls msg []), events)
        /\ (cls = PlainError \/ exists code, cls = McpErrorClass (EnumCode code))).

(** The issue that a missing property [key] is reported with. *)
Definition required_issue (key : string) : ZodIssue :=
  {| path := [Key key]; message := "Required" |}.

(* ===================================================================== *)
(** ** Inputs of the test suites *)
(* ===================================================================== *)

(** A runtime to run the definitions with. *)
Definition demo_runtime : Runtime :=
  {| McpError_message := fun _ msg => "MCP error: " ++ msg;
     ZodError_message := fun _ => "validation failed";
     ToString := fun _ => "[object Object]";
     stringify := fun _ => "<json>";
     stringify_presentation := fun _ => "<presentation>";
     stringify_page := fun _ => "<page>" |}.

(** Remote clients: one whose every call is rejected, each with a value of
    another kind; one whose page request is denied; one that returns a
    presentation without slides. *)
Definition demo_slides : Slides :=
  {| presentations_create := fun _ => Throw (JsString "Connection refused");
     presentations_get := fun _ => Throw (JsError PlainError "Permission denied" []);
     presentations_batchUpdate := fun _ => Throw JsNull;
     presentations_pages_get := fun _ => Throw (JsNumber 404) |}.

Definition denied_slides : Slides :=
  {| presentations_create := fun _ => Throw (JsString "Connection refused");
     presentations_get := fun _ => Throw (JsError PlainError "Permission denied" []);
     presentations_batchUpdate := fun _ => Throw JsNull;
     presentations_pages_get := fun _ => Throw (JsError PlainError "Permission denied" []) |}.

Definition empty_presentation : Presentation :=
  {| title := Some "Empty Presentation"; revisionId := None; slides := Some [] |}.

Definition empty_slides : Slides :=
  {| presentations_create := fun _ => Normal empty_presentation;
     presentations_get := fun _ => Normal empty_presentation;
     presentations_batchUpdate := fun _ => Normal (JsObject []);
     presentations_pages_get := fun _ => Throw (JsNumber 404) |}.

(** Page elements as the tests write them. *)
Definition text_run (c : option string) : TextElement :=
  {| textRun := Some {| run_content := c |} |}.

Definition text_shape (l : list TextElement) : PageElement :=
  {| shape := Some {| shape_text := Some {| textElements := Some l |} |};
     table := None |}.

(** The slide of the test [should filter out empty text elements]. *)
Definition filtered_slide : Page :=
  {| objectId := Some "slide-1";
     pageElements :=
       Some [ text_shape [ text_run (Some "Real Content"); text_run (Some "   ");
                           text_run (Some EmptyString); text_run None ] ];
     slideProperties := None |}.

(** The slide of the test [should handle notes with empty content when
    include_notes is true]: its only notes run is white space. *)
Definition blank_notes_slide : Page :=
  {| objectId := Some "slide-1";
     pageElements := Some [ text_shape [ text_run (Some "Content") ] ];
     slideProperties :=
       Some {| notesPage :=
                 Some {| notes_pageElements :=
                           Some [ text_shape [ text_run (Some "   ") ] ] |} |} |}.

Definition blank_notes_presentation : Presentation :=
  {| title := Some "Test"; revisionId := None; slides := Some [ blank_notes_slide ] |}.

Definition blank_notes_slides : Slides :=
  {| presentations_create := fun _ => Normal blank_notes_presentation;
     presentations_get := fun _ => Normal blank_notes_presentation;
     presentations_batchUpdate := fun _ => Normal (JsObject []);
     presentations_pages_get := fun _ => Normal blank_notes_slide |}.

Definition blank_notes_args : JsValue :=
  JsObject [ ("presentationId", JsString "presentation-empty-notes");
             ("include_notes", JsBoolean true) ].

(** The slide of the test [should handle slides with table elements]. *)
Definition table_slide : Page :=
  let cell c := {| cell_text := Some {| textElements := Some [ text_run (Some c) ] |} |} in
  {| objectId := Some "slide-1";
     pageElements :=
       Some [ {| shape := None;
                 table :=
                   Some {| tableRows :=
                             Some [ {| tableCells := Some [ cell "Cell 1"; cell "Cell 2" ] |};
                                    {| tableCells := Some [ cell "Cell 3"; cell "Cell 4" ] |} ] |} |} ];
     slideProperties := None |}.

(** The slide of the test [should include speaker notes when include_notes
    is true]. *)
Definition noted_slide : Page :=
  {| objectId := Some "slide-1";
     pageElements := Some [ text_shape [ text_run (Some "Main Content") ] ];
     slideProperties :=
       Some {| notesPage :=
                 Some {| notes_pageElements :=
                           Some [ text_shape [ text_run (Some "Speaker notes for slide 1") ] ] |} |} |}.

(** Arguments of [create_presentation]. *)
Definition create_args : JsValue := JsObject [ ("title", JsString "My New Presentation") ].

(** Arguments of [get_page], and the same with a property that the schema
    does not declare. *)
Definition get_page_args : JsValue :=
  JsObject [ ("presentationId", JsString "presentation-123");
             ("pageObjectId", JsString "slide-456") ].

Definition get_page_args_extra : list (string * JsValue) :=
  [ ("presentationId", JsString "presentation-123");
    ("verbose", JsBoolean true);
    ("pageObjectId", JsString "slide-456") ].

(** The schema, the arguments and the tool functions of the tests of the
    tool executor. *)
Definition TestArgsSchema : ZodType := ZObject [ ("testParam", ZString None) ].

Definition test_args : JsValue := JsObject [ ("testParam", JsString "test") ].

Definition rejecting (thrown : JsValue) : ToolFn := fun _ _ => throw thrown.

Definition run_test_tool (args : JsValue) (toolFn : ToolFn) : Exec Envelope :=
  executeTool demo_runtime demo_slides "test_tool" args (parse demo_runtime TestArgsSchema) toolFn.

(** The text and the code of the envelope a call answers with. *)
Definition answer_text (m : Exec Envelope) : string :=
  match result m with
  | Normal envelope => Str.concat_all (map text (content envelope))
  | Throw _ => EmptyString
  end.

Definition answer_code (m : Exec Envelope) : option McpCode :=
  match result m with
  | Normal envelope => errorCode envelope
  | Throw _ => None
  end.

(** An error of the remote client that carries a response with a nested
    message, as the client library builds it. *)
Definition api_error : JsValue :=
  JsError PlainError "Request failed with status code 404"
    [ ("response",
       JsObject
         [ ("data",
            JsObject
              [ ("error", JsObject [ ("message", JsString "Presentation not found") ]) ]) ]) ].

(** Arguments of [batch_update_presentation], and the same with an empty
    list of requests. *)
Definition batch_args : JsValue :=
  JsObject [ ("presentationId", JsString "presentation-123");
             ("requests", JsArray [ JsObject [ ("createSlide", JsObject []) ] ]) ].

Definition batch_args_empty : JsValue :=
  JsObject [ ("presentationId", JsString "presentation-123");
             ("requests", JsArray []) ].

(** The message of the engine's [TypeError], as V8 words it. *)
Definition demo_TypeError_message (v : JsValue) (key : string) : string :=
  "Cannot read properties of "
    ++ (match v with JsNull => "null" | _ => "undefined" end)
    ++ " (reading '" ++ key ++ "')".

(* ===================================================================== *)
(** * Proofs *)
(* ===================================================================== *)

Ltac run_exec :=
  unfold executeTool, try_catch, bind, lift, emit, throw, ret, result, trace,
    toolFn_not_invoked; simpl.

Ltac unfold_callTool :=
  unfold callTool, callToolWith, class_tools;
  cbn [createPresentationTool getPresentationTool batchUpdatePresentationTool getPageTool
       summarizePresentationTool].

(* ===================================================================== *)
(** ** Strings: concatenation and containment *)
(* ===================================================================== *)

Module StrFacts.

Lemma append_nil_r (s : string) : s ++ EmptyString = s.
Proof. induction s as [|c s IH]; simpl; [reflexivity | now rewrite IH]. Qed.

Lemma append_assoc (a b c : string) : (a ++ b) ++ c = a ++ (b ++ c).
Proof. induction a as [|x a IH]; simpl; [reflexivity | now rewrite IH]. Qed.

Lemma contains_refl (s : string) : Str.contains s s.
Proof. exists EmptyString, EmptyString. simpl. now rewrite append_nil_r. Qed.

Lemma contains_prepend (n h before : string) :
  Str.contains n h -> Str.contains n (before ++ h).
Proof.
  intros (a & b & ->). exists (before ++ a), b. now rewrite append_assoc.
Qed.

Lemma contains_append (n h after : string) :
  Str.contains n h -> Str.contains n (h ++ after).
Proof.
  intros (a & b & ->). exists a, (b ++ after). now rewrite !append_assoc.
Qed.

Lemma contains_trans (a b c : string) :
  Str.contains a b -> Str.contains b c -> Str.contains a c.
Proof.
  intros Hab (x & y & ->). now apply contains_prepend, contains_append.
Qed.

Lemma contains_left (n rest : string) : Str.contains n (n ++ rest).
Proof. apply contains_append, contains_refl. Qed.

(** Every part of a joined list occurs in the result. *)
Lemma contains_join (sep x : string) (l : list string) :
  In x l -> Str.contains x (Str.join sep l).
Proof.
  unfold Str.join. induction l as [|y l IH]; intros Hin; [destruct Hin|].
  destruct Hin as [-> | Hin].
  - destruct l; simpl; [apply contains_refl | apply contains_left].
  - destruct l as [|z l]; [destruct Hin|].
    change (String.concat sep (y :: z :: l))
      with (y ++ sep ++ String.concat sep (z :: l)).
    now apply contains_prepend, contains_prepend, IH.
Qed.

Lemma startsWith_spec (prefix hay : string) :
  Str.startsWith prefix hay = true <-> exists rest, hay = prefix ++ rest.
Proof.
  revert hay. induction prefix as [|a p IH]; intros hay; simpl.
  - split; [intros _; now exists hay | reflexivity].
  - destruct hay as [|b h]; [split; [discriminate | intros (rest & Heq); discriminate]|].
    rewrite andb_true_iff, IH. split.
    + intros (Hab & rest & ->). apply Ascii.eqb_eq in Hab. subst b. now exists rest.
    + intros (rest & Heq). injection Heq as -> ->. split; [apply Ascii.eqb_refl | now exists rest].
Qed.

(** [includes] decides [contains]. *)
Lemma includes_contains (needle hay : string) :
  Str.includes needle hay = true <-> Str.contains needle hay.
Proof.
  split.
  - induction hay as [|c hay IH]; simpl; rewrite orb_true_iff; intros [Hhere|Hlater].
    + apply startsWith_spec in Hhere as (rest & ->). apply contains_left.
    + discriminate.
    + apply startsWith_spec in Hhere as (rest & ->). apply contains_left.
    + destruct (IH Hlater) as (before & after & ->).
      now exists (String c before), after.
  - intros (before & after & ->). induction before as [|c before IH].
    + simpl. destruct (needle ++ after) eqn:Heq; simpl; rewrite orb_true_iff; left;
        apply startsWith_spec; now exists after.
    + change (String c before ++ needle ++ after) with (String c (before ++ needle ++ after)).
      simpl. rewrite orb_true_iff. now right.
Qed.

End StrFacts.

Import StrFacts.

Lemma demo_runtime_carries_message : carries_message demo_runtime.
Proof.
  intros code msg. exists "MCP error: ", EmptyString.
  simpl. now rewrite append_nil_r.
Qed.

Lemma entry_in_said (entry : ZodIssue -> string) (sep : string)
    (errors : list ZodIssue) (e : ZodIssue) :
  In e errors -> Str.contains (entry e) (Str.join sep (map entry errors)).
Proof.
  intros Hin. apply contains_join, in_map, Hin.
Qed.

Section Pipeline.

Variable rt : Runtime.
Variable slides : Slides.
Variable toolName : string.

(** C1. Whatever the arguments, the schema and the tool function are,
    [executeTool] completes normally with an envelope: no thrown value
    leaves it. *)
Theorem executeTool_never_throws (args : JsValue) (schema : ZodSchema) (toolFn : ToolFn) :
  exists envelope,
    result (executeTool rt slides toolName args schema toolFn) = Normal envelope.
Proof.
  run_exec.
  destruct args; try (eexists; reflexivity);
    (destruct (schema _) as [parsedArgs|thrown]; simpl;
     [ destruct (toolFn slides parsedArgs) as [[envelope|thrown] events]; simpl;
       [ eexists; reflexivity | ]
     | ];
     destruct thrown as [| | | | | | |[| |] ? ?]; simpl; eexists; reflexivity).
Qed.

(** C3. When the arguments are [undefined] the result is the failure
    envelope of an InvalidParams error built with the message
    [Missing arguments for tool "<toolName>".]; its text contains that
    message, and the tool function is not called. *)
Theorem executeTool_missing_arguments (schema : ZodSchema) (toolFn : ToolFn) :
  carries_message rt ->
  let run := executeTool rt slides toolName JsUndefined schema toolFn in
  let said := "Missing arguments for tool " ++ Str.quote ++ toolName ++ Str.quote ++ "." in
  exists t,
    result run = Normal (error_result t (EnumCode InvalidParams))
    /\ t = McpError_message rt (EnumCode InvalidParams) said
    /\ Str.contains said t
    /\ toolFn_not_invoked run.
Proof.
  intros Hcarries run said. eexists. repeat split.
  - apply Hcarries.
Qed.

(** C4. When the arguments are present and the schema rejects them with
    a list of violations, the result is the failure envelope of an
    InvalidParams error built with the message
    [Invalid arguments for tool "<toolName>": ] followed by the entries
    [<path>: <reason>], one per violation, joined by [; ]. Every entry,
    and so the path of every violated field, occurs in the text, and the
    tool function is not called. *)
Theorem executeTool_invalid_arguments (args : JsValue) (schema : ZodSchema) (toolFn : ToolFn)
    (errors : list ZodIssue) (zmsg : string) (zprops : list (string * JsValue)) :
  carries_message rt ->
  args <> JsUndefined ->
  schema args = Throw (JsError (ZodErrorClass errors) zmsg zprops) ->
  let run := executeTool rt slides toolName args schema toolFn in
  let entries := map (fun e => path_join (path e) ++ ": " ++ message e) errors in
  let said :=
    "Invalid arguments for tool " ++ Str.quote ++ toolName ++ Str.quote ++ ": "
      ++ Str.join "; " entries in
  exists t,
    result run = Normal (error_result t (EnumCode InvalidParams))
    /\ t = McpError_message rt (EnumCode InvalidParams) said
    /\ Str.contains said t
    /\ List.length entries = List.length errors
    /\ (forall e, In e errors ->
          Str.contains (path_join (path e) ++ ": " ++ message e) t
          /\ Str.contains (path_join (path e)) t)
    /\ toolFn_not_invoked run.
Proof.
  intros Hcarries Hpresent Hrejected run entries said.
  assert (Hrun : run = (Normal (error_result (McpError_message rt (EnumCode InvalidParams) said)
                                             (EnumCode InvalidParams)),
                        [ConsoleError ("Error executing tool " ++ Str.quote ++ toolName
                                         ++ Str.quote ++ ":")
                                      (JsError (ZodErrorClass errors) zmsg zprops)])).
  { subst run. unfold executeTool.
    destruct args; try congruence; rewrite Hrejected; reflexivity. }
  exists (McpError_message rt (EnumCode InvalidParams) said).
  rewrite Hrun.
  assert (Hentry : forall e, In e errors ->
            Str.contains (path_join (path e) ++ ": " ++ message e)
                         (McpError_message rt (EnumCode InvalidParams) said)).
  { intros e He. eapply contains_trans; [|apply Hcarries].
    subst said entries. do 5 apply contains_prepend.
    exact (entry_in_said (fun e => path_join (path e) ++ ": " ++ message e) "; " errors e He). }
  repeat split.
  - apply Hcarries.
  - subst entries. now rewrite length_map.
  - now apply Hentry.
  - eapply contains_trans; [apply contains_left | now apply Hentry].
Qed.

(** C5, amended. After a successful validation, a value thrown by the
    tool function that is a validation error of zod is reported like a
    validation failure (InvalidParams); every other value is reported as
    the design describes: a structured error passes through with its code
    and message, anything else becomes an InternalError with the message
    [Failed to execute tool "<toolName>": <detail>]. *)
Theorem executeTool_tool_failure (args : JsValue) (schema : ZodSchema) (toolFn : ToolFn)
    (parsedArgs thrown : JsValue) :
  args <> JsUndefined ->
  schema args = Normal parsedArgs ->
  result (toolFn slides parsedArgs) = Throw thrown ->
  result (executeTool rt slides toolName args schema toolFn) =
    Normal
      (match thrown with
       | JsError (ZodErrorClass errors) _ _ =>
           error_result
             (McpError_message rt (EnumCode InvalidParams)
                ("Invalid arguments for tool " ++ Str.quote ++ toolName ++ Str.quote ++ ": "
                   ++ validationErrors errors))
             (EnumCode InvalidParams)
       | _ => described_failure rt toolName thrown
       end).
Proof.
  intros Hpresent Hvalid Hthrown. unfold executeTool.
  destruct (toolFn slides parsedArgs) as [outcome events] eqn:Htool.
  simpl in Hthrown. subst outcome.
  destruct args; try congruence; rewrite Hvalid; run_exec; rewrite Htool;
    destruct thrown as [| | | | | | |[| |] ? ?]; reflexivity.
Qed.

End Pipeline.

(** C5, as stated, fails: a tool function that throws a validation error of
    its own (here for a field of a remote response) after the arguments
    were accepted gets an InvalidParams envelope, not the InternalError
    envelope with [Failed to execute tool]. *)
Lemma executeTool_tool_failure_not_wrapped :
  let thrown :=
    JsError (ZodErrorClass [ {| path := [Key "slides"]; message := "Required" |} ])
            "validation failed" [] in
  let toolFn : ToolFn := fun _ _ => throw thrown in
  let run :=
    executeTool demo_runtime demo_slides "get_page"
      (JsObject [ ("presentationId", JsString "p1"); ("pageObjectId", JsString "s1") ])
      (parse demo_runtime GetPageArgsSchema) toolFn in
  result run =
    Normal (error_result
              ("MCP error: Invalid arguments for tool " ++ Str.quote ++ "get_page" ++ Str.quote
                 ++ ": slides: Required")
              (EnumCode InvalidParams))
  /\ result run <> Normal (described_failure demo_runtime "get_page" thrown).
Proof. split; [reflexivity | discriminate]. Qed.

Create HintDb discipline.

Section Invariant.

Variable rt : Runtime.

Lemma parse_throws_only_ZodError (schema : ZodType) : throws_only_ZodError (parse rt schema).
Proof.
  intros data thrown. unfold parse.
  destruct (check schema [] data) as [value [|issue issues]]; [discriminate|].
  intros [= <-]. unfold new_ZodError. eauto.
Qed.

(** A tool method: one remote call, a success envelope, and the catch
    block that rethrows a structured InternalError. *)
Lemma tool_method_disciplined {A} (method name : string)
    (call : Slides -> JsValue -> Completion A) (request : JsValue -> JsValue)
    (serialize : A -> string) :
  disciplined
    (fun this_slides args =>
       try_catch
         (data <- await_remote method (call this_slides) (request args) ;;
          ret (success_result (serialize data)))
         (rethrow_api_error rt name)).
Proof.
  intros slides args. unfold await_remote. run_exec.
  destruct (call slides (request args)); reflexivity.
Qed.

(** What a tool method throws when its remote call is rejected: the
    message does not name the operation, and its detail is the one of
    [apiErrorMessage]. *)
Lemma tool_method_failure {A} (method name : string)
    (call : Slides -> JsValue -> Completion A) (request : JsValue -> JsValue)
    (serialize : A -> string) (slides : Slides) (args error : JsValue) :
  call slides (request args) = Throw error ->
  result (try_catch
            (data <- await_remote method (call slides) (request args) ;;
             ret (success_result (serialize data)))
            (rethrow_api_error rt name))
  = Throw (new_McpError rt InternalError
             ("Google API Error: " ++ interpolate rt (apiErrorMessage rt error))).
Proof.
  intros Hrejected. unfold await_remote. run_exec. now rewrite Hrejected.
Qed.

Lemma createPresentation_disciplined : disciplined (createPresentation rt).
Proof.
  exact (tool_method_disciplined "presentations.create" "createPresentation"
           presentations_create
           (fun args => JsObject [("requestBody", JsObject [("title", Js.get args "title")])])
           (stringify_presentation rt)).
Qed.

Lemma getPresentation_disciplined : disciplined (getPresentation rt).
Proof.
  exact (tool_method_disciplined "presentations.get" "getPresentation"
           presentations_get
           (fun args => JsObject [("presentationId", Js.get args "presentationId");
                                  ("fields", Js.get args "fields")])
           (stringify_presentation rt)).
Qed.

Lemma batchUpdatePresentation_disciplined : disciplined (batchUpdatePresentation rt).
Proof.
  exact (tool_method_disciplined "presentations.batchUpdate" "batchUpdatePresentation"
           presentations_batchUpdate
           (fun args =>
              JsObject [("presentationId", Js.get args "presentationId");
                        ("requestBody",
                         JsObject [("requests", Js.get args "requests");
                                   ("writeControl", Js.get args "writeControl")])])
           (stringify rt)).
Qed.

Lemma getPage_disciplined : disciplined (getPage rt).
Proof.
  exact (tool_method_disciplined "presentations.pages.get" "getPage"
           presentations_pages_get
           (fun args => JsObject [("presentationId", Js.get args "presentationId");
                                  ("pageObjectId", Js.get args "pageObjectId")])
           (stringify_page rt)).
Qed.

Lemma summarizePresentation_disciplined : disciplined (summarizePresentation rt).
Proof.
  intros slides args. unfold summarizePresentation, await_remote. run_exec.
  destruct (presentations_get slides _); reflexivity.
Qed.

#[local] Hint Resolve parse_throws_only_ZodError createPresentation_disciplined
  getPresentation_disciplined batchUpdatePresentation_disciplined getPage_disciplined
  summarizePresentation_disciplined : discipline.

(** The pipeline turns a disciplined tool function and a schema into
    well-formed envelopes. *)
Lemma executeTool_well_formed (slides : Slides) (toolName : string) (args : JsValue)
    (schema : ZodSchema) (toolFn : ToolFn) :
  throws_only_ZodError schema ->
  disciplined toolFn ->
  exists envelope,
    result (executeTool rt slides toolName args schema toolFn) = Normal envelope
    /\ well_formed envelope = true.
Proof.
  intros Hschema Htool. unfold executeTool.
  destruct args; try (eexists; split; reflexivity);
    (destruct (schema _) as [parsedArgs|thrown] eqn:Hparse;
     [ specialize (Htool slides parsedArgs); run_exec;
       destruct (toolFn slides parsedArgs) as [[envelope|thrown] events]; simpl in *;
       [ eauto
       | destruct thrown as [| | | | | | |[| |] ? ?]; simpl; eauto ]
     | destruct (Hschema _ _ Hparse) as (zerrors & zmsg & zprops & ->);
       run_exec; eauto ]).
Qed.

Lemma class_tools_well_behaved (name : string) (schema : ZodType) (toolFn : ToolFn) :
  registered (class_tools rt) name = Some (schema, toolFn) -> well_behaved toolFn.
Proof.
  unfold registered, class_tools;
    cbn [createPresentationTool getPresentationTool batchUpdatePresentationTool getPageTool
         summarizePresentationTool].
  repeat match goal with
         | |- context [if String.eqb name ?s then _ else _] => destruct (String.eqb name s)
         end;
    intros [= <- <-];
    intros slides args;
    unfold createPresentation, getPresentation, batchUpdatePresentation, getPage,
      summarizePresentation, await_remote; cbv zeta; run_exec;
    match goal with
    | |- context [presentations_create slides ?r] => destruct (presentations_create slides r)
    | |- context [presentations_get slides ?r] => destruct (presentations_get slides r)
    | |- context [presentations_batchUpdate slides ?r] =>
        destruct (presentations_batchUpdate slides r)
    | |- context [presentations_pages_get slides ?r] =>
        destruct (presentations_pages_get slides r)
    end; simpl; auto.
Qed.

(** A tool function built on the normalizer returns a success envelope
    or throws a structured InternalError. *)
Lemma toolFunction_well_behaved {A} (toolName : string)
    (call : Slides -> JsValue -> Completion A) (request : JsValue -> JsValue)
    (serialize : A -> string) :
  well_behaved (toolFunction rt toolName call request serialize).
Proof.
  intros slides args.
  unfold toolFunction, handleGoogleApiError, await_remote, try_catch, bind, emit, lift, throw,
    ret, result.
  destruct (call slides (request args)); simpl; auto.
Qed.

(** The envelope of the pipeline, by the outcome of the call: the
    envelope of the tool function, with neither [isError] nor [errorCode],
    when the arguments are present, the schema accepts them and the tool
    function returns; an envelope with [isError] true and a code of the
    enumeration in every other case. *)
Lemma executeTool_outcome (slides : Slides) (toolName : string) (args : JsValue)
    (schema : ZodSchema) (toolFn : ToolFn) :
  throws_only_ZodError schema ->
  well_behaved toolFn ->
  exists envelope,
    result (executeTool rt slides toolName args schema toolFn) = Normal envelope
    /\ (((exists parsedArgs,
            args <> JsUndefined
            /\ schema args = Normal parsedArgs
            /\ result (toolFn slides parsedArgs) = Normal envelope)
         /\ isError envelope = None
         /\ errorCode envelope = None)
        \/ ((args = JsUndefined
             \/ (exists thrown, schema args = Throw thrown)
             \/ (exists parsedArgs thrown,
                   schema args = Normal parsedArgs
                   /\ result (toolFn slides parsedArgs) = Throw thrown))
            /\ isError envelope = Some true
            /\ exists code, errorCode envelope = Some (EnumCode code))).
Proof.
  intros Hschema Htool.
  assert (Hundef : args = JsUndefined \/ args <> JsUndefined)
    by (destruct args; (now left) || (right; discriminate)).
  destruct Hundef as [-> | Hargs].
  { eexists. split; [reflexivity|]. right. split; [now left|]. split; [reflexivity|].
    now eexists. }
  destruct (schema args) as [parsedArgs|thrown] eqn:Hparse.
  - specialize (Htool slides parsedArgs).
    destruct (toolFn slides parsedArgs) as [[envelope|thrown] events] eqn:Hrun.
    + exists envelope. split.
      * unfold executeTool. destruct args; try congruence;
          unfold try_catch, bind, lift, emit, result; rewrite Hparse; simpl; rewrite Hrun;
          reflexivity.
      * left. simpl in Htool. destruct Htool as (Herror & Hcode).
        split; [|now split]. exists parsedArgs.
        split; [exact Hargs|].
        split; [first [exact Hparse | reflexivity] | first [now rewrite Hrun | reflexivity]].
    + assert (Hanswer : exists envelope,
                result (executeTool rt slides toolName args schema toolFn) = Normal envelope
                /\ isError envelope = Some true
                /\ exists code, errorCode envelope = Some (EnumCode code)).
      { unfold executeTool. destruct args; try congruence;
          unfold try_catch, bind, lift, emit, result; rewrite Hparse; simpl; rewrite Hrun;
          simpl in Htool;
          (destruct thrown as [| | | | | | |[|zerrors|[ecode|ecode]] emsg eprops]; simpl;
           try discriminate Htool;
           eexists; (split; [reflexivity|]); (split; [reflexivity|]); now eexists). }
      destruct Hanswer as (envelope & Hresult & Herror & Hcode).
      exists envelope. split; [exact Hresult|]. right.
      split; [|now split]. right; right. exists parsedArgs, thrown.
      split; [first [exact Hparse | reflexivity] | first [now rewrite Hrun | reflexivity]].
  - destruct (Hschema _ _ Hparse) as (zerrors & zmsg & zprops & ->).
    eexists. split.
    + unfold executeTool. destruct args; try congruence;
        unfold try_catch, bind, lift, emit, result; rewrite Hparse; reflexivity.
    + right. split; [right; left; now eexists|]. split; [reflexivity | now eexists].
Qed.

(** The handler of index.ts is the pipeline applied to the schema and the
    tool function registered under the name, or the MethodNotFound answer
    when nothing is registered. *)
Lemma callToolWith_registered (tools : Tools) (slides : Slides) (name : string)
    (args : JsValue) :
  callToolWith rt tools slides name args
  = match registered tools name with
    | Some (schema, toolFn) => executeTool rt slides name args (parse rt schema) toolFn
    | None => ret (error_result ("Unknown tool requested: " ++ name) (EnumCode MethodNotFound))
    end.
Proof.
  unfold callToolWith, registered.
  repeat match goal with
         | |- context [if String.eqb name ?s then _ else _] => destruct (String.eqb name s)
         end; reflexivity.
Qed.

(** C2. Whatever the tool name and the arguments are, when the tool
    functions return success envelopes and throw structured errors with
    codes of the enumeration, the envelope that the request handler answers
    with follows the outcome of the call. On success (a tool is registered
    under the name, the arguments are present, the schema accepts them and
    the tool function returns) the envelope is the one of the tool function
    and has neither [isError] nor [errorCode]. On failure (no tool under
    the name, absent arguments, a schema that rejects, a tool function that
    throws) [isError] is present and true and [errorCode] is present and a
    member of the enumeration. *)
Theorem envelope_fields_follow_outcome (tools : Tools) (slides : Slides) (name : string)
    (args : JsValue) :
  (forall n schema toolFn, registered tools n = Some (schema, toolFn) -> well_behaved toolFn) ->
  exists envelope,
    result (callToolWith rt tools slides name args) = Normal envelope
    /\ (((exists schema toolFn parsedArgs,
            registered tools name = Some (schema, toolFn)
            /\ args <> JsUndefined
            /\ parse rt schema args = Normal parsedArgs
            /\ result (toolFn slides parsedArgs) = Normal envelope)
         /\ isError envelope = None
         /\ errorCode envelope = None)
        \/ ((registered tools name = None
             \/ (exists schema toolFn,
                   registered tools name = Some (schema, toolFn)
                   /\ (args = JsUndefined
                       \/ (exists thrown, parse rt schema args = Throw thrown)
                       \/ (exists parsedArgs thrown,
                             parse rt schema args = Normal parsedArgs
                             /\ result (toolFn slides parsedArgs) = Throw thrown))))
            /\ isError envelope = Some true
            /\ exists code, errorCode envelope = Some (EnumCode code))).
Proof.
  intros Htools. rewrite callToolWith_registered.
  destruct (registered tools name) as [[schema toolFn]|] eqn:Hregistered.
  - destruct (@executeTool_outcome slides name args (parse rt schema) toolFn
                (parse_throws_only_ZodError schema) (Htools _ _ _ Hregistered))
      as (envelope & Hrun & [((parsedArgs & Hargs & Hparse & Htool) & Hshape)
                            | (Hcause & Hshape)]).
    + exists envelope. split; [exact Hrun|]. left. split; [|exact Hshape].
      exists schema, toolFn, parsedArgs. auto.
    + exists envelope. split; [exact Hrun|]. right. split; [|exact Hshape].
      right. exists schema, toolFn. auto.
  - eexists. split; [reflexivity|]. right. split; [now left|].
    split; [reflexivity | now eexists].
Qed.

End Invariant.

Section Normalizer.

Variable rt : Runtime.

(** C6. A tool function built on the normalizer, whose remote call is
    rejected with [rawError], makes the pipeline answer with a failure
    envelope: [isError] is true, the code is InternalError, and the text
    contains [Remote API Error in <toolName>: <detail>]. The detail is the
    nested response/data/error/message string when there is one, else the
    message of an exception-like value, else a string itself, else the
    literal [Unknown Remote API error]. *)
Theorem remote_failure_envelope {A} (slides : Slides) (toolName : string) (args : JsValue)
    (schema : ZodSchema) (parsedArgs : JsValue)
    (call : Slides -> JsValue -> Completion A) (request : JsValue -> JsValue)
    (serialize : A -> string) (rawError : JsValue) :
  carries_message rt ->
  args <> JsUndefined ->
  schema args = Normal parsedArgs ->
  call slides (request parsedArgs) = Throw rawError ->
  let run :=
    executeTool rt slides toolName args schema
      (toolFunction rt toolName call request serialize) in
  exists envelope t detail,
    result run = Normal envelope
    /\ isError envelope = Some true
    /\ errorCode envelope = Some (EnumCode InternalError)
    /\ map text (content envelope) = [t]
    /\ Str.contains ("Remote API Error in " ++ toolName ++ ": " ++ detail) t
    /\ (forall s, nested_message rawError = JsString s -> detail = s)
    /\ ((forall s, nested_message rawError <> JsString s) ->
        (forall cls msg props, rawError = JsError cls msg props -> detail = msg)
        /\ (forall s, rawError = JsString s -> detail = s)
        /\ (Js.instanceof_Error rawError = false ->
            (forall s, rawError <> JsString s) ->
            detail = "Unknown Remote API error")).
Proof.
  intros Hcarries Hpresent Hvalid Hrejected run.
  exists (error_result
            (McpError_message rt (EnumCode InternalError)
               (described_remote_message toolName rawError))
            (EnumCode InternalError)),
         (McpError_message rt (EnumCode InternalError)
            (described_remote_message toolName rawError)),
         (described_remote_detail rawError).
  split; [|split; [reflexivity|split; [reflexivity|split; [reflexivity|
           split; [apply Hcarries|]]]]].
  - subst run. unfold executeTool, toolFunction, await_remote, handleGoogleApiError.
    destruct args; try congruence; rewrite Hvalid; run_exec; rewrite Hrejected; reflexivity.
  - unfold described_remote_detail, nested_message. split.
    + intros s ->. reflexivity.
    + intros Hnone.
      destruct (Js.get (Js.get (Js.get (Js.get rawError "response") "data") "error") "message")
        as [| | | |s| | |] eqn:Hnested;
        try (exfalso; exact (Hnone s eq_refl));
        (repeat split;
         [ intros ecls emsg eprops ->; reflexivity
         | intros s' ->; reflexivity
         | intros Hnot_error Hnot_string;
           destruct rawError; try reflexivity; try discriminate;
           exfalso; eapply Hnot_string; reflexivity ]).
Qed.

End Normalizer.

Section Walk.

Local Open Scope list_scope.

Lemma trim_empty : Str.trim EmptyString = EmptyString.
Proof. reflexivity. Qed.

Lemma nonempty_false (s : string) : Str.nonempty s = false -> s = EmptyString.
Proof. destruct s; [reflexivity | discriminate]. Qed.

(** Dropping the empty runs before trimming does not change which
    trimmed runs are kept. *)
Lemma filter_trim_filter (l : list string) :
  filter Str.nonempty (map Str.trim (filter Str.nonempty l))
  = filter Str.nonempty (map Str.trim l).
Proof.
  induction l as [|x l IH]; [reflexivity|].
  simpl. destruct (Str.nonempty x) eqn:Hx; simpl.
  - now rewrite IH.
  - apply nonempty_false in Hx. subst x. simpl. exact IH.
Qed.

Lemma push_runs_spec (l : list TextElement) (slideText : list string) :
  push_runs slideText l
  = slideText ++ map Str.trim (filter Str.nonempty (run_contents l)).
Proof.
  unfold push_runs. revert slideText.
  induction l as [|textElement l IH]; intros slideText; simpl.
  - now rewrite app_nil_r.
  - rewrite IH. unfold truthy_content.
    destruct (textRun textElement) as [[[c|]]|]; simpl; try reflexivity.
    destruct (Str.nonempty c); simpl; [now rewrite <- app_assoc | reflexivity].
Qed.

Lemma push_text_spec (t : option TextContent) (slideText : list string) :
  push_runs slideText (elements_of t)
  = slideText ++ map Str.trim (filter Str.nonempty (text_of t)).
Proof.
  rewrite push_runs_spec. unfold elements_of, text_of.
  destruct t as [[[l|]]|]; reflexivity.
Qed.

Lemma push_shape_spec (element : PageElement) (slideText : list string) :
  push_shape slideText element
  = slideText ++ map Str.trim (filter Str.nonempty (shape_runs element)).
Proof.
  unfold push_shape, shape_runs. destruct (shape element) as [sh|].
  - apply push_text_spec.
  - simpl. now rewrite app_nil_r.
Qed.

Lemma push_cells_spec (cells : list TableCell) (slideText : list string) :
  fold_left (fun acc cell => push_runs acc (elements_of (cell_text cell))) cells slideText
  = slideText
      ++ map Str.trim
           (filter Str.nonempty (flat_map (fun cell => text_of (cell_text cell)) cells)).
Proof.
  revert slideText. induction cells as [|cell cells IH]; intros slideText; simpl.
  - now rewrite app_nil_r.
  - rewrite IH, push_text_spec, filter_app, map_app, app_assoc. reflexivity.
Qed.

Lemma push_rows_spec (rows : list TableRow) (slideText : list string) :
  fold_left
    (fun acc row =>
       match tableCells row with
       | Some cells =>
           fold_left (fun acc' cell => push_runs acc' (elements_of (cell_text cell)))
                     cells acc
       | None => acc
       end)
    rows slideText
  = slideText
      ++ map Str.trim
           (filter Str.nonempty
              (flat_map
                 (fun row =>
                    flat_map (fun cell => text_of (cell_text cell))
                             (match tableCells row with Some cells => cells | None => [] end))
                 rows)).
Proof.
  revert slideText. induction rows as [|row rows IH]; intros slideText; simpl.
  - now rewrite app_nil_r.
  - rewrite IH, filter_app, map_app, app_assoc. f_equal.
    destruct (tableCells row) as [cells|].
    + apply push_cells_spec.
    + simpl. now rewrite app_nil_r.
Qed.

Lemma push_table_spec (element : PageElement) (slideText : list string) :
  push_table slideText element
  = slideText ++ map Str.trim (filter Str.nonempty (table_runs element)).
Proof.
  unfold push_table, table_runs. destruct (table element) as [tb|].
  - destruct (tableRows tb) as [rows|].
    + apply push_rows_spec.
    + simpl. now rewrite app_nil_r.
  - simpl. now rewrite app_nil_r.
Qed.

Lemma push_elements_spec (elements : list PageElement) (slideText : list string) :
  fold_left (fun acc element => push_table (push_shape acc element) element)
            elements slideText
  = slideText
      ++ map Str.trim
           (filter Str.nonempty
              (flat_map (fun element => shape_runs element ++ table_runs element)%list
                        elements)).
Proof.
  revert slideText. induction elements as [|element elements IH]; intros slideText; simpl.
  - now rewrite app_nil_r.
  - rewrite IH, push_table_spec, push_shape_spec.
    rewrite !filter_app, !map_app, !app_assoc. reflexivity.
Qed.

Lemma collect_slideText_spec (slide : Page) :
  collect_slideText slide = map Str.trim (filter Str.nonempty (document_runs slide)).
Proof.
  unfold collect_slideText, document_runs.
  destruct (pageElements slide) as [elements|]; [|reflexivity].
  now rewrite push_elements_spec.
Qed.

(** The [content] of the summary of one slide. *)
Lemma slideSummary_content (includeNotes : bool) (index : nat) (slide : Page) :
  Js.get (slideSummary includeNotes index slide) "content" = JsString (content_of slide).
Proof.
  unfold slideSummary, content_of. simpl.
  now rewrite collect_slideText_spec, filter_trim_filter.
Qed.

Lemma nth_error_map_from {A B} (f : nat -> A -> B) (l : list A) (start i : nat) :
  nth_error (map_from f start l) i = option_map (f (start + i)) (nth_error l i).
Proof.
  revert start i. induction l as [|x l IH]; intros start [|i]; simpl; try reflexivity.
  - now rewrite Nat.add_0_r.
  - rewrite IH. now rewrite Nat.add_succ_r.
Qed.

Lemma length_map_from {A B} (f : nat -> A -> B) (l : list A) (start : nat) :
  List.length (map_from f start l) = List.length l.
Proof.
  revert start. induction l as [|x l IH]; intros start; simpl; [reflexivity | now rewrite IH].
Qed.


(** C7, on the input of the test [should handle notes with empty content
    when include_notes is true]: the only notes run of the slide is white
    space, so the notes text trims to nothing; with [include_notes] the
    tool call succeeds and serializes a summary whose slide has a [notes]
    key all the same, holding the empty string. *)
Theorem blank_notes_yield_notes_key (rt : Runtime) :
  notes_text blank_notes_slide = EmptyString
  /\ result (callTool rt blank_notes_slides "summarize_presentation" blank_notes_args)
     = Normal
         (success_result
            (stringify rt
               (JsObject
                  [ ("title", JsString "Test");
                    ("slideCount", JsNumber 1);
                    ("lastModified", JsString "Unknown");
                    ("slides",
                     JsArray [ JsObject [ ("slideNumber", JsNumber 1);
                                          ("slideId", JsString "slide-1");
                                          ("content", JsString "Content");
                                          ("notes", JsString EmptyString) ] ]) ])))
  /\ Js.has_property "notes" (slideSummary true 0 blank_notes_slide) = true.
Proof. repeat split. Qed.

End Walk.

Section Summarize.

Variable rt : Runtime.


(** C9. When the presentation that the remote call returns has no slides
    list or an empty one, [summarizePresentation] returns a success
    envelope that serializes exactly the object with the keys [title],
    [slideCount] (0) and [summary] (the fixed sentence): there is no
    [slides] key and no [lastModified] key. The title is the one of the
    presentation, or [Untitled Presentation] when it has none. *)
Theorem summarize_no_slides (this_slides : Slides) (args : JsValue)
    (presentation : Presentation) :
  presentations_get this_slides (JsObject [ ("presentationId", Js.get args "presentationId") ])
    = Normal presentation ->
  slides presentation = None \/ slides presentation = Some [] ->
  exists shown payload,
    result (summarizePresentation rt this_slides args)
      = Normal {| content := [ {| block_type := "text"; text := stringify rt payload |} ];
                  isError := None;
                  errorCode := None |}
    /\ payload = JsObject [ ("title", JsString shown);
                            ("slideCount", JsNumber 0);
                            ("summary", JsString "This presentation contains no slides.") ]
    /\ (title presentation = None -> shown = "Untitled Presentation")
    /\ (forall s, title presentation = Some s -> s <> EmptyString -> shown = s)
    /\ (title presentation = Some EmptyString -> shown = "Untitled Presentation")
    /\ Js.has_property "slides" payload = false
    /\ Js.has_property "lastModified" payload = false.
Proof.
  intros Hget Hnone.
  exists (or_else (title presentation) "Untitled Presentation").
  eexists. split; [|split; [reflexivity|]].
  - unfold summarizePresentation, await_remote. run_exec. rewrite Hget. simpl.
    unfold success_result, summary_of.
    destruct Hnone as [-> | ->]; reflexivity.
  - repeat split.
    + intros ->. reflexivity.
    + intros s -> Hs. destruct s; [congruence | reflexivity].
    + intros ->. reflexivity.
Qed.

End Summarize.

Section Notes.

Lemma concat_all_app (l1 l2 : list string) :
  Str.concat_all (l1 ++ l2)%list = Str.concat_all l1 ++ Str.concat_all l2.
Proof.
  induction l1 as [|x l1 IH]; simpl; [reflexivity|].
  now rewrite IH, append_assoc.
Qed.

Lemma append_notes_spec (l : list TextElement) (notes : string) :
  append_notes notes l
  = notes ++ Str.concat_all (map spaced (filter Str.nonempty (run_contents l))).
Proof.
  unfold append_notes. revert notes.
  induction l as [|textElement l IH]; intros notes; simpl.
  - now rewrite append_nil_r.
  - rewrite IH. unfold truthy_content.
    destruct (textRun textElement) as [[[c|]]|]; simpl; try reflexivity.
    destruct (Str.nonempty c); simpl; [|reflexivity].
    unfold spaced. now rewrite !append_assoc.
Qed.

Lemma append_notes_elements (elements : list PageElement) (notes : string) :
  fold_left
    (fun acc element =>
       match shape element with
       | Some sh => append_notes acc (elements_of (shape_text sh))
       | None => acc
       end)
    elements notes
  = notes ++ Str.concat_all
               (map spaced (filter Str.nonempty (flat_map shape_runs elements))).
Proof.
  revert notes. induction elements as [|element elements IH]; intros notes; simpl.
  - now rewrite append_nil_r.
  - rewrite IH, filter_app, map_app, concat_all_app, <- append_assoc. f_equal.
    unfold shape_runs. destruct (shape element) as [sh|]; simpl.
    + rewrite append_notes_spec. unfold elements_of, text_of.
      destruct (shape_text sh) as [[[l|]]|]; reflexivity.
    + now rewrite append_nil_r.
Qed.

(** The accumulated notes string of a slide, before the final trim. *)
Lemma collect_notes_spec (slide : Page) :
  collect_notes true slide
  = Str.concat_all (map spaced (filter Str.nonempty (notes_runs slide))).
Proof.
  unfold collect_notes, notes_runs.
  destruct (slideProperties slide) as [[[[[elements|]]|]]|]; simpl; try reflexivity.
  now rewrite append_notes_elements.
Qed.

Lemma nonempty_concat_spaced (l : list string) :
  Str.nonempty (Str.concat_all (map spaced l)) = negb (match l with [] => true | _ => false end).
Proof.
  destruct l as [|x l]; [reflexivity|]. simpl. unfold spaced.
  destruct (Str.trim x); reflexivity.
Qed.

(** What decides the [notes] key of a slide summary: notes were asked for
    and the notes page has a run with a non-empty content, whatever that
    content trims to. When the key is there, it holds the notes text. *)
Lemma slideSummary_notes (includeNotes : bool) (index : nat) (slide : Page) :
  Js.has_property "notes" (slideSummary includeNotes index slide)
  = includeNotes && existsb Str.nonempty (notes_runs slide)
  /\ (Js.has_property "notes" (slideSummary includeNotes index slide) = true ->
      Js.get (slideSummary includeNotes index slide) "notes" = JsString (notes_text slide)).
Proof.
  assert (Hex : forall l, existsb Str.nonempty l
                          = negb (match filter Str.nonempty l with [] => true | _ => false end)).
  { induction l as [|x l IH]; [reflexivity|]. simpl. destruct (Str.nonempty x); simpl; auto. }
  unfold slideSummary. cbv zeta. destruct includeNotes.
  - rewrite collect_notes_spec, nonempty_concat_spaced, Hex. unfold notes_text. fold spaced.
    destruct (filter Str.nonempty (notes_runs slide)); simpl; split;
      try reflexivity; try discriminate.
  - simpl. split; [reflexivity | discriminate].
Qed.

End Notes.

Section Stripping.

Variable rt : Runtime.



Lemma check_fields_keys (validate : ZodType -> Checker) (p : list PathSegment)
    (data : JsValue) (shape : list (string * ZodType)) :
  incl (Js.keys (fst (check_fields validate p data shape))) (map fst shape).
Proof.
  induction shape as [|[key validator] shape IH]; [intros k []|].
  simpl. destruct (validate validator _ _) as [value issues].
  destruct (check_fields validate p data shape) as [out more]. simpl in *.
  destruct (negb (is_undefined value) || Js.has_property key data); simpl.
  - intros k [<-|Hk]; [now left | right; now apply IH].
  - intros k Hk. right. now apply IH.
Qed.


Lemma parse_object_keys (shape : list (string * ZodType)) (data out : JsValue) :
  parse rt (ZObject shape) data = Normal out ->
  exists fields, out = JsObject fields /\ incl (Js.keys fields) (map fst shape).
Proof.
  unfold parse. destruct (check (ZObject shape) [] data) as [value issues] eqn:Hcheck.
  destruct issues; [|discriminate]. intros [= <-].
  simpl in Hcheck. destruct data; try discriminate;
    injection Hcheck as <- _; eexists; (split; [reflexivity | apply check_fields_keys]).
Qed.


Lemma schema_of_object (name : string) (schema : ZodType) :
  schema_of name = Some schema -> exists shape, schema = ZObject shape.
Proof.
  unfold schema_of.
  repeat match goal with
         | |- context [if String.eqb name ?s then _ else _] => destruct (String.eqb name s)
         end; intros [= <-]; eexists; reflexivity.
Qed.

Lemma callTool_schema_of (slides : Slides) (name : string) (schema : ZodType) :
  schema_of name = Some schema ->
  exists toolFn,
    forall args, callTool rt slides name args
                 = executeTool rt slides name args (parse rt schema) toolFn.
Proof.
  unfold schema_of. unfold_callTool.
  repeat match goal with
         | |- context [if String.eqb name ?s then _ else _] => destruct (String.eqb name s)
         end; intros [= <-]; eexists; reflexivity.
Qed.


End Stripping.

(* ===================================================================== *)
(** ** The test suites, replayed *)
(* ===================================================================== *)

Section Replay.

Example tool_result_is_returned_unchanged :
  run_test_tool test_args (fun _ _ => ret (success_result "Success"))
  = (Normal (success_result "Success"), [ ToolFnCall test_args ]).
Proof. reflexivity. Qed.

Example required_field_missing :
  answer_text (run_test_tool (JsObject []) (rejecting JsNull))
  = "MCP error: Invalid arguments for tool " ++ Str.quote ++ "test_tool" ++ Str.quote
      ++ ": testParam: Required"
  /\ answer_code (run_test_tool (JsObject []) (rejecting JsNull)) = Some (EnumCode InvalidParams).
Proof. split; reflexivity. Qed.

Example field_of_wrong_type :
  answer_text (run_test_tool (JsObject [ ("testParam", JsNumber 123) ]) (rejecting JsNull))
  = "MCP error: Invalid arguments for tool " ++ Str.quote ++ "test_tool" ++ Str.quote
      ++ ": testParam: Expected string, received number".
Proof. reflexivity. Qed.

Example structured_error_passes_through :
  result (run_test_tool test_args
            (rejecting (JsError (McpErrorClass (EnumCode InvalidRequest))
                                "MCP error: Resource not found" [])))
  = Normal (error_result "MCP error: Resource not found" (EnumCode InvalidRequest)).
Proof. reflexivity. Qed.

Example standard_error_is_wrapped :
  answer_text (run_test_tool test_args
                 (rejecting (JsError PlainError "Unexpected error occurred" [])))
  = "MCP error: Failed to execute tool " ++ Str.quote ++ "test_tool" ++ Str.quote
      ++ ": Unexpected error occurred".
Proof. reflexivity. Qed.

Example string_error_is_wrapped :
  answer_text (run_test_tool test_args (rejecting (JsString "Something went wrong")))
  = "MCP error: Failed to execute tool " ++ Str.quote ++ "test_tool" ++ Str.quote
      ++ ": Something went wrong".
Proof. reflexivity. Qed.

Example other_values_are_unknown_errors :
  forall thrown,
    In thrown [ JsObject [ ("code", JsNumber 500); ("detail", JsString "Internal Server Error") ];
                JsNull; JsNumber 404 ] ->
    answer_text (run_test_tool test_args (rejecting thrown))
    = "MCP error: Failed to execute tool " ++ Str.quote ++ "test_tool" ++ Str.quote
        ++ ": Unknown error"
    /\ answer_code (run_test_tool test_args (rejecting thrown)) = Some (EnumCode InternalError).
Proof.
  intros thrown [<-|[<-|[<-|[]]]]; split; reflexivity.
Qed.

Example empty_title_has_its_own_message :
  answer_text (callTool demo_runtime demo_slides "create_presentation"
                 (JsObject [ ("title", JsString EmptyString) ]))
  = "MCP error: Invalid arguments for tool " ++ Str.quote ++ "create_presentation" ++ Str.quote
      ++ ": title: " ++ Str.quote ++ "title" ++ Str.quote ++ " (string) is required.".
Proof. reflexivity. Qed.

Example both_fields_of_get_page_missing :
  Str.includes "presentationId"
    (answer_text (callTool demo_runtime demo_slides "get_page" (JsObject []))) = true
  /\ Str.includes "pageObjectId"
       (answer_text (callTool demo_runtime demo_slides "get_page" (JsObject []))) = true.
Proof. split; reflexivity. Qed.

Example unknown_tool :
  callTool demo_runtime demo_slides "delete_presentation" JsUndefined
  = (Normal (error_result "Unknown tool requested: delete_presentation"
                          (EnumCode MethodNotFound)), []).
Proof. reflexivity. Qed.

Example table_cells_in_row_order :
  Js.get (slideSummary false 0 table_slide) "content" = JsString "Cell 1 Cell 2 Cell 3 Cell 4".
Proof. reflexivity. Qed.

Example slide_without_page_elements :
  Js.get (slideSummary false 1
            {| objectId := Some "slide-2"; pageElements := None; slideProperties := None |})
         "content"
  = JsString EmptyString.
Proof. reflexivity. Qed.

Example notes_when_asked_for :
  Js.get (slideSummary true 0 noted_slide) "notes" = JsString "Speaker notes for slide 1"
  /\ Js.has_property "notes" (slideSummary false 0 noted_slide) = false.
Proof. split; reflexivity. Qed.

Example untitled_presentation :
  Js.get (summary_of false
            {| title := None; revisionId := None; slides := Some [ filtered_slide ] |})
         "title"
  = JsString "Untitled Presentation".
Proof. reflexivity. Qed.

(** The class methods do not name the operation in the message, and a
    rejected string is not used verbatim. *)
Example class_method_on_rejected_string :
  answer_text (callTool demo_runtime demo_slides "create_presentation" create_args)
  = "MCP error: Google API Error: Unknown Google API error".
Proof. reflexivity. Qed.

(** An object with a [response] property and no nested message, which is
    not an [Error]: the detail is [String(error)]. *)
Example class_method_on_bare_response :
  apiErrorMessage demo_runtime (JsObject [ ("response", JsObject [ ("data", JsObject []) ]) ])
  = JsString "[object Object]"
  /\ described_remote_detail (JsObject [ ("response", JsObject [ ("data", JsObject []) ]) ])
     = "Unknown Remote API error".
Proof. split; reflexivity. Qed.

(** The detail that the design describes, on the inputs of the tests of
    the error handler. *)
Example described_detail_order :
  described_remote_detail
    (JsObject [ ("response",
                 JsObject [ ("data",
                             JsObject [ ("error",
                                         JsObject [ ("message",
                                                     JsString "Presentation not found") ]) ]) ]) ])
  = "Presentation not found"
  /\ described_remote_detail
       (JsError PlainError "API limit exceeded" [ ("response", JsObject [ ("data", JsObject []) ]) ])
     = "API limit exceeded"
  /\ described_remote_detail (JsError PlainError "Network timeout" []) = "Network timeout"
  /\ described_remote_detail (JsString "Connection refused") = "Connection refused"
  /\ described_remote_detail (JsObject [ ("code", JsNumber 500); ("status", JsString "Internal Server Error") ])
     = "Unknown Remote API error"
  /\ described_remote_detail JsNull = "Unknown Remote API error"
  /\ described_remote_detail JsUndefined = "Unknown Remote API error"
  /\ described_remote_detail (JsNumber 404) = "Unknown Remote API error".
Proof. repeat split. Qed.

End Replay.

(* ===================================================================== *)
(** ** The theorems at the inputs of the test suites *)
(* ===================================================================== *)

Lemma executeTool_missing_arguments_witness :
  carries_message demo_runtime
  /\ exists t,
       result (executeTool demo_runtime demo_slides "test_tool" JsUndefined
                 (parse demo_runtime GetPageArgsSchema) (getPage demo_runtime))
         = Normal (error_result t (EnumCode InvalidParams))
       /\ t = "MCP error: Missing arguments for tool " ++ Str.quote ++ "test_tool" ++ Str.quote ++ "."
       /\ Str.contains ("Missing arguments for tool " ++ Str.quote ++ "test_tool" ++ Str.quote ++ ".") t
       /\ toolFn_not_invoked
            (executeTool demo_runtime demo_slides "test_tool" JsUndefined
               (parse demo_runtime GetPageArgsSchema) (getPage demo_runtime)).
Proof.
  split; [exact demo_runtime_carries_message|].
  exact (executeTool_missing_arguments demo_slides "test_tool"
           (parse demo_runtime GetPageArgsSchema) (getPage demo_runtime)
           demo_runtime_carries_message).
Defined.

Lemma envelope_fields_follow_outcome_witness :
  (forall n schema toolFn,
      registered (class_tools demo_runtime) n = Some (schema, toolFn) -> well_behaved toolFn)
  /\ exists envelope,
       result (callToolWith demo_runtime (class_tools demo_runtime) empty_slides
                 "get_presentation" (JsObject [ ("presentationId", JsString "presentation-123") ]))
       = Normal envelope
       /\ isError envelope = None
       /\ errorCode envelope = None.
Proof.
  split; [exact (@class_tools_well_behaved demo_runtime)|].
  destruct (@envelope_fields_follow_outcome demo_runtime (class_tools demo_runtime) empty_slides
              "get_presentation" (JsObject [ ("presentationId", JsString "presentation-123") ])
              (@class_tools_well_behaved demo_runtime))
    as (envelope & Hrun & [(_ & Herror & Hcode) | (_ & Herror & _)]).
  - exists envelope. auto.
  - exfalso. vm_compute in Hrun. injection Hrun as <-. discriminate Herror.
Defined.

Lemma remote_failure_envelope_witness :
  carries_message demo_runtime
  /\ get_page_args <> JsUndefined
  /\ parse demo_runtime GetPageArgsSchema get_page_args = Normal get_page_args
  /\ presentations_pages_get denied_slides get_page_args
     = Throw (JsError PlainError "Permission denied" [])
  /\ exists envelope t detail,
       result (executeTool demo_runtime denied_slides "get_page" get_page_args
                 (parse demo_runtime GetPageArgsSchema)
                 (toolFunction demo_runtime "get_page" presentations_pages_get
                    (fun args => args) (stringify_page demo_runtime)))
         = Normal envelope
       /\ isError envelope = Some true
       /\ errorCode envelope = Some (EnumCode InternalError)
       /\ map text (content envelope) = [t]
       /\ Str.contains ("Remote API Error in get_page: " ++ detail) t
       /\ detail = "Permission denied".
Proof.
  split; [exact demo_runtime_carries_message|]. split; [discriminate|].
  split; [reflexivity|]. split; [reflexivity|].
  destruct (@remote_failure_envelope demo_runtime Page denied_slides "get_page" get_page_args
              (parse demo_runtime GetPageArgsSchema) get_page_args
              presentations_pages_get (fun args => args) (stringify_page demo_runtime)
              (JsError PlainError "Permission denied" [])
              demo_runtime_carries_message ltac:(discriminate) eq_refl eq_refl)
    as (envelope & t & detail & Hrun & Herror & Hcode & Htext & Hcontains & _ & Hother).
  exists envelope, t, detail. repeat (split; [assumption|]).
  exact (proj1 (Hother ltac:(discriminate)) _ _ _ eq_refl).
Defined.

Lemma executeTool_invalid_arguments_witness :
  carries_message demo_runtime
  /\ JsObject [] <> JsUndefined
  /\ parse demo_runtime GetPageArgsSchema (JsObject [])
     = Throw (JsError (ZodErrorClass
                         [ {| path := [Key "presentationId"]; message := "Required" |};
                           {| path := [Key "pageObjectId"]; message := "Required" |} ])
                      "validation failed" [])
  /\ exists t,
       result (executeTool demo_runtime demo_slides "get_page" (JsObject [])
                 (parse demo_runtime GetPageArgsSchema) (getPage demo_runtime))
         = Normal (error_result t (EnumCode InvalidParams))
       /\ Str.contains "presentationId" t
       /\ Str.contains "pageObjectId" t.
Proof.
  split; [exact demo_runtime_carries_message|]. split; [discriminate|].
  split; [reflexivity|].
  destruct (@executeTool_invalid_arguments demo_runtime demo_slides "get_page" (JsObject [])
              (parse demo_runtime GetPageArgsSchema) (getPage demo_runtime)
              [ {| path := [Key "presentationId"]; message := "Required" |};
                {| path := [Key "pageObjectId"]; message := "Required" |} ]
              "validation failed" []
              demo_runtime_carries_message
              ltac:(discriminate) eq_refl)
    as (t & Hrun & _ & _ & _ & Hpaths & _).
  exists t. split; [exact Hrun|]. split.
  - exact (proj2 (Hpaths _ (or_introl eq_refl))).
  - exact (proj2 (Hpaths _ (or_intror (or_introl eq_refl)))).
Defined.

Lemma executeTool_tool_failure_witness :
  get_page_args <> JsUndefined
  /\ parse demo_runtime GetPageArgsSchema get_page_args = Normal get_page_args
  /\ result (rejecting (JsNumber 404) demo_slides get_page_args) = Throw (JsNumber 404)
  /\ result (executeTool demo_runtime demo_slides "get_page" get_page_args
               (parse demo_runtime GetPageArgsSchema) (rejecting (JsNumber 404)))
     = Normal (error_result
                 ("MCP error: Failed to execute tool " ++ Str.quote ++ "get_page" ++ Str.quote
                    ++ ": Unknown error")
                 (EnumCode InternalError)).
Proof.
  split; [discriminate|]. split; [reflexivity|]. split; [reflexivity|].
  exact (@executeTool_tool_failure demo_runtime demo_slides "get_page" get_page_args
           (parse demo_runtime GetPageArgsSchema) (rejecting (JsNumber 404))
           get_page_args (JsNumber 404)
           ltac:(discriminate) eq_refl eq_refl).
Defined.


Lemma summarize_no_slides_witness :
  presentations_get empty_slides
    (JsObject [ ("presentationId",
                 Js.get (JsObject [ ("presentationId", JsString "empty-presentation") ])
                        "presentationId") ])
  = Normal empty_presentation
  /\ (slides empty_presentation = None \/ slides empty_presentation = Some [])
  /\ result (summarizePresentation demo_runtime empty_slides
               (JsObject [ ("presentationId", JsString "empty-presentation") ]))
     = Normal (success_result
                 (stringify demo_runtime
                    (JsObject [ ("title", JsString "Empty Presentation");
                                ("slideCount", JsNumber 0);
                                ("summary", JsString "This presentation contains no slides.") ]))).
Proof.
  split; [reflexivity|]. split; [right; reflexivity|].
  destruct (@summarize_no_slides demo_runtime empty_slides
              (JsObject [ ("presentationId", JsString "empty-presentation") ])
              empty_presentation eq_refl (or_intror eq_refl))
    as (shown & payload & Hrun & -> & _ & Htitle & _).
  rewrite (Htitle "Empty Presentation" eq_refl ltac:(discriminate)) in Hrun.
  exact Hrun.
Defined.


(* ===================================================================== *)
(** ** More of the server: traces, validation, listing, the class forms *)
(* ===================================================================== *)

Section PipelineTraces.

Variable rt : Runtime.
Variable slides : Slides.
Variable toolName : string.

(** X1. When the arguments are present, the schema accepts them and the
    tool function returns an envelope, [executeTool] returns that envelope
    unchanged; the tool function was called with the validated arguments
    and the pipeline wrote nothing of its own. *)
Theorem executeTool_success_unchanged (args parsedArgs : JsValue) (schema : ZodSchema)
    (toolFn : ToolFn) (envelope : Envelope) (events : list Event) :
  args <> JsUndefined ->
  schema args = Normal parsedArgs ->
  toolFn slides parsedArgs = (Normal envelope, events) ->
  executeTool rt slides toolName args schema toolFn
  = (Normal envelope, ToolFnCall parsedArgs :: events).
Proof.
  intros Hargs Hschema Htool.
  unfold executeTool. destruct args; try congruence;
    unfold try_catch, bind, lift, emit; rewrite Hschema; simpl; rewrite Htool; reflexivity.
Qed.

(** X2. Whatever the schema or the tool function throws, the pipeline
    writes exactly one diagnostic after it, labelled with the tool name and
    carrying the thrown value itself, not the error it is turned into. *)
Theorem executeTool_logs_thrown_value (args : JsValue) (schema : ZodSchema) (toolFn : ToolFn) :
  args <> JsUndefined ->
  (forall thrown,
     schema args = Throw thrown ->
     trace (executeTool rt slides toolName args schema toolFn)
     = [ ConsoleError (pipeline_label toolName) thrown ])
  /\ (forall parsedArgs thrown events,
        schema args = Normal parsedArgs ->
        toolFn slides parsedArgs = (Throw thrown, events) ->
        trace (executeTool rt slides toolName args schema toolFn)
        = (ToolFnCall parsedArgs :: events ++ [ ConsoleError (pipeline_label toolName) thrown ])%list).
Proof.
  intros Hargs. split.
  - intros thrown Hschema. unfold executeTool, pipeline_label.
    destruct args; try congruence;
      unfold try_catch, bind, lift, emit, trace; rewrite Hschema; simpl;
      destruct thrown as [| | | | | | |[| |]]; reflexivity.
  - intros parsedArgs thrown events Hschema Htool. unfold executeTool, pipeline_label.
    destruct args; try congruence;
      unfold try_catch, bind, lift, emit, trace; rewrite Hschema; simpl; rewrite Htool; simpl;
      destruct thrown as [| | | | | | |[| |]]; reflexivity.
Qed.

End PipelineTraces.

Section ClassHandlerFacts.

Variable rt : Runtime.

Lemma known_tools_cases (name : string) :
  In name known_tools ->
  name = "create_presentation" \/ name = "get_presentation"
  \/ name = "batch_update_presentation" \/ name = "get_page"
  \/ name = "summarize_presentation".
Proof. simpl. intuition. Qed.

Lemma unknown_tool_eqb (name : string) :
  ~ In name known_tools ->
  String.eqb name "create_presentation" = false
  /\ String.eqb name "get_presentation" = false
  /\ String.eqb name "batch_update_presentation" = false
  /\ String.eqb name "get_page" = false
  /\ String.eqb name "summarize_presentation" = false.
Proof.
  intros Hnot. repeat split; apply String.eqb_neq; intros ->; apply Hnot; simpl; tauto.
Qed.

Lemma handleCallTool_as_executeTool (slides : Slides) (name : string) (args : JsValue)
    (schema : ZodType) (method : ToolFn) :
  try_catch
    (match args with
     | JsUndefined =>
         throw (new_McpError rt InvalidParams
                  ("Missing arguments for tool " ++ Str.quote ++ name ++ Str.quote ++ "."))
     | _ =>
         parsedArgs <- lift (parse rt schema args) ;;
         emit (ToolFnCall parsedArgs) ;;;
         method slides parsedArgs
     end)
    (fun error =>
       emit (ConsoleError ("Error executing tool " ++ Str.quote ++ name ++ Str.quote ++ ":") error) ;;;
       let mcpError : string * McpCode :=
         match error with
         | JsError (ZodErrorClass errors) _ _ =>
             (McpError_message rt (EnumCode InvalidParams)
                ("Invalid arguments for tool " ++ Str.quote ++ name ++ Str.quote ++ ": "
                   ++ validationErrors errors),
              EnumCode InvalidParams)
         | JsError (McpErrorClass code) msg _ => (msg, code)
         | _ =>
             let errorMessage :=
               match error with
               | JsError _ msg _ => msg
               | JsString s => s
               | _ => "Unknown error"
               end in
             (McpError_message rt (EnumCode InternalError)
                ("Failed to execute tool " ++ Str.quote ++ name ++ Str.quote ++ ": "
                   ++ errorMessage),
              EnumCode InternalError)
         end in
       ret (error_result (fst mcpError) (snd mcpError)))
  = executeTool rt slides name args (parse rt schema) method.
Proof.
  unfold executeTool, try_catch.
  match goal with |- match ?b with _ => _ end = _ => destruct b as [[e|thrown] t] end;
    [reflexivity|].
  destruct thrown as [| | | | | | |[| |]]; reflexivity.
Qed.

(** X3. For each tool name of the class form of the server, with its
    schema and its tool method, the request handler of the class form (one
    [try] around the test for arguments, the [switch], [schema.parse] and
    the method) computes what [executeTool] computes when it is given that
    schema and that method as the tool function: the same result and the
    same trace. *)
Theorem handleCallTool_is_executeTool (slides : Slides) (name : string) (args : JsValue)
    (schema : ZodType) (method : ToolFn) :
  registered (class_tools rt) name = Some (schema, method) ->
  handleCallTool rt slides name args
  = executeTool rt slides name args (parse rt schema) method.
Proof.
  unfold registered, class_tools;
    cbn [createPresentationTool getPresentationTool batchUpdatePresentationTool getPageTool
         summarizePresentationTool].
  unfold handleCallTool.
  repeat match goal with
         | |- context [if String.eqb name ?s then _ else _] => destruct (String.eqb name s)
         end;
    intros [= <- <-];
    apply handleCallTool_as_executeTool.
Qed.

End ClassHandlerFacts.

Section ToolCalls.

Variable rt : Runtime.

(** What a tool method does, by the outcome of its remote call. *)
Lemma tool_method_run {A} (method name : string) (call : JsValue -> Completion A)
    (request : JsValue) (serialize : A -> string) :
  try_catch
    (data <- await_remote method call request ;;
     ret (success_result (serialize data)))
    (rethrow_api_error rt name)
  = match call request with
    | Normal data =>
        (Normal (success_result (serialize data)), [ RemoteCall method request ])
    | Throw error =>
        (Throw (new_McpError rt InternalError
                  ("Google API Error: " ++ interpolate rt (apiErrorMessage rt error))),
         [ RemoteCall method request;
           ConsoleError ("Google API Error (" ++ name ++ "):") error ])
    end.
Proof.
  unfold await_remote, rethrow_api_error, try_catch, bind, emit, lift, throw, ret.
  destruct (call request); reflexivity.
Qed.

Lemma tool_method_guarded {A} (method name : string)
    (call : Slides -> JsValue -> Completion A) (request : JsValue -> JsValue)
    (serialize : A -> string) :
  guarded_call rt
    (fun this_slides args =>
       try_catch
         (data <- await_remote method (call this_slides) (request args) ;;
          ret (success_result (serialize data)))
         (rethrow_api_error rt name)).
Proof.
  intros slides args. rewrite tool_method_run.
  destruct (call slides (request args)) as [data|error].
  - left. now exists (serialize data), (request args), method.
  - right. now exists error, (request args), method, name.
Qed.

Lemma createPresentation_guarded : guarded_call rt (createPresentation rt).
Proof.
  exact (tool_method_guarded "presentations.create" "createPresentation" presentations_create
           (fun args => JsObject [ ("requestBody", JsObject [ ("title", Js.get args "title") ]) ])
           (stringify_presentation rt)).
Qed.

Lemma getPresentation_guarded : guarded_call rt (getPresentation rt).
Proof.
  exact (tool_method_guarded "presentations.get" "getPresentation" presentations_get
           (fun args => JsObject [ ("presentationId", Js.get args "presentationId");
                                   ("fields", Js.get args "fields") ])
           (stringify_presentation rt)).
Qed.

Lemma batchUpdatePresentation_guarded : guarded_call rt (batchUpdatePresentation rt).
Proof.
  exact (tool_method_guarded "presentations.batchUpdate" "batchUpdatePresentation"
           presentations_batchUpdate
           (fun args =>
              JsObject [ ("presentationId", Js.get args "presentationId");
                         ("requestBody",
                          JsObject [ ("requests", Js.get args "requests");
                                     ("writeControl", Js.get args "writeControl") ]) ])
           (stringify rt)).
Qed.

Lemma getPage_guarded : guarded_call rt (getPage rt).
Proof.
  exact (tool_method_guarded "presentations.pages.get" "getPage" presentations_pages_get
           (fun args => JsObject [ ("presentationId", Js.get args "presentationId");
                                   ("pageObjectId", Js.get args "pageObjectId") ])
           (stringify_page rt)).
Qed.

Lemma summarizePresentation_guarded : guarded_call rt (summarizePresentation rt).
Proof.
  intros slides args. unfold summarizePresentation. cbv zeta.
  rewrite tool_method_run.
  destruct (presentations_get slides _) as [data|error].
  - left. eexists _, _, _. reflexivity.
  - right. eexists error, _, _, _. reflexivity.
Qed.

(** The tools of the request handler: the schema and the tool function of
    each known name. *)
Lemma callTool_known (name : string) :
  In name known_tools ->
  exists schema toolFn,
    schema_of name = Some schema
    /\ guarded_call rt toolFn
    /\ forall slides args,
         callTool rt slides name args
         = executeTool rt slides name args (parse rt schema) toolFn.
Proof.
  intros Hin. apply known_tools_cases in Hin.
  destruct Hin as [-> | [-> | [-> | [-> | ->]]]].
  - exists CreatePresentationArgsSchema, (createPresentation rt).
    repeat split; [apply createPresentation_guarded].
  - exists GetPresentationArgsSchema, (getPresentation rt).
    repeat split; [apply getPresentation_guarded].
  - exists BatchUpdatePresentationArgsSchema, (batchUpdatePresentation rt).
    repeat split; [apply batchUpdatePresentation_guarded].
  - exists GetPageArgsSchema, (getPage rt).
    repeat split; [apply getPage_guarded].
  - exists SummarizePresentationArgsSchema, (summarizePresentation rt).
    repeat split; [apply summarizePresentation_guarded].
Qed.

Lemma callTool_unknown (slides : Slides) (name : string) (args : JsValue) :
  ~ In name known_tools ->
  callTool rt slides name args
  = (Normal (error_result ("Unknown tool requested: " ++ name) (EnumCode MethodNotFound)), []).
Proof.
  intros Hnot. destruct (unknown_tool_eqb Hnot) as (H1 & H2 & H3 & H4 & H5).
  unfold_callTool. now rewrite H1, H2, H3, H4, H5.
Qed.

Lemma schema_of_known (name : string) (schema : ZodType) :
  schema_of name = Some schema -> In name known_tools.
Proof.
  unfold schema_of, known_tools. simpl.
  destruct (String.eqb_spec name "create_presentation"); [intuition|].
  destruct (String.eqb_spec name "get_presentation"); [intuition|].
  destruct (String.eqb_spec name "batch_update_presentation"); [intuition|].
  destruct (String.eqb_spec name "get_page"); [intuition|].
  destruct (String.eqb_spec name "summarize_presentation"); [intuition|].
  discriminate.
Qed.

(** The runs of the pipeline over a guarded remote call. *)
Lemma executeTool_guarded (slides : Slides) (toolName : string) (args : JsValue)
    (schema : ZodType) (toolFn : ToolFn) :
  guarded_call rt toolFn ->
  let run := executeTool rt slides toolName args (parse rt schema) toolFn in
  (exists parsedArgs t request method,
     args <> JsUndefined
     /\ parse rt schema args = Normal parsedArgs
     /\ run = (Normal (success_result t), [ ToolFnCall parsedArgs; RemoteCall method request ]))
  \/ (exists parsedArgs error request method name,
        args <> JsUndefined
        /\ parse rt schema args = Normal parsedArgs
        /\ toolFn slides parsedArgs
           = (Throw (new_McpError rt InternalError
                       ("Google API Error: " ++ interpolate rt (apiErrorMessage rt error))),
              [ RemoteCall method request;
                ConsoleError ("Google API Error (" ++ name ++ "):") error ])
        /\ run
           = (Normal (error_result
                        (McpError_message rt (EnumCode InternalError)
                           ("Google API Error: " ++ interpolate rt (apiErrorMessage rt error)))
                        (EnumCode InternalError)),
              [ ToolFnCall parsedArgs; RemoteCall method request;
                ConsoleError ("Google API Error (" ++ name ++ "):") error;
                ConsoleError (pipeline_label toolName)
                  (new_McpError rt InternalError
                     ("Google API Error: " ++ interpolate rt (apiErrorMessage rt error))) ]))
  \/ ((args = JsUndefined \/ exists thrown, parse rt schema args = Throw thrown)
      /\ exists t thrown,
           run = (Normal (error_result t (EnumCode InvalidParams)),
                  [ ConsoleError (pipeline_label toolName) thrown ])).
Proof.
  intros Hguard run.
  assert (Hundef : args = JsUndefined \/ args <> JsUndefined)
    by (destruct args; (now left) || (right; discriminate)).
  destruct Hundef as [-> | Hargs].
  { right; right. split; [now left|]. eexists _, _. reflexivity. }
  destruct (parse rt schema args) as [parsedArgs|thrown] eqn:Hparse.
  - destruct (Hguard slides parsedArgs)
      as [(t & request & method & Htool) | (error & request & method & name & Htool)].
    + left. exists parsedArgs, t, request, method. repeat split; [assumption|].
      subst run. unfold executeTool.
      destruct args; try congruence;
        unfold try_catch, bind, lift, emit; rewrite Hparse; simpl; rewrite Htool; reflexivity.
    + right; left. exists parsedArgs, error, request, method, name.
      repeat split; [assumption|assumption|].
      subst run. unfold executeTool, pipeline_label.
      destruct args; try congruence;
        unfold try_catch, bind, lift, emit; rewrite Hparse; simpl; rewrite Htool; reflexivity.
  - right; right. split; [right; now exists thrown|].
    destruct (parse_throws_only_ZodError rt schema _ Hparse) as (errors & zmsg & zprops & ->).
    subst run. unfold executeTool, pipeline_label.
    destruct args; try congruence;
      unfold try_catch, bind, lift, emit; rewrite Hparse; simpl; eexists _, _; reflexivity.
Qed.

(** X4. A tool call sends at most one request to the remote client, and
    it sends one exactly when the tool is known, the arguments are present
    and the schema of the tool accepts them. *)
Theorem callTool_one_request_iff_valid (slides : Slides) (name : string) (args : JsValue) :
  let run := callTool rt slides name args in
  (remote_calls run <= 1)%nat
  /\ (remote_calls run = 1%nat
      <-> args <> JsUndefined
          /\ exists schema parsedArgs,
               schema_of name = Some schema /\ parse rt schema args = Normal parsedArgs).
Proof.
  intros run. subst run.
  destruct (in_dec string_dec name known_tools) as [Hin | Hnot].
  - destruct (callTool_known Hin) as (schema & toolFn & Hschema & Hguard & Hcall).
    rewrite Hcall.
    destruct (executeTool_guarded slides name args schema Hguard)
      as [(parsedArgs & t & request & method & Hargs & Hparse & ->)
         | [(parsedArgs & error & request & method & mname & Hargs & Hparse & _ & ->)
           | (Hbad & t & thrown & ->)]];
      unfold remote_calls, trace; simpl.
    + split; [lia|]. split; [|reflexivity]. intros _. split; [assumption|].
      now exists schema, parsedArgs.
    + split; [lia|]. split; [|reflexivity]. intros _. split; [assumption|].
      now exists schema, parsedArgs.
    + split; [lia|]. split; [discriminate|].
      intros (Hargs & schema' & parsedArgs & Hschema' & Hparse).
      rewrite Hschema in Hschema'. injection Hschema' as <-.
      destruct Hbad as [-> | (thrown' & Hthrow)]; congruence.
  - rewrite (callTool_unknown slides args Hnot). unfold remote_calls, trace. simpl.
    split; [lia|]. split; [discriminate|].
    intros (_ & schema & parsedArgs & Hschema & _).
    exfalso. apply Hnot. eapply schema_of_known, Hschema.
Qed.

(** X5. A call of a known tool ends in one of three ways: a success with
    one request and no diagnostic; an InvalidParams answer with one
    diagnostic and no request; an InternalError answer with one request and
    two diagnostics (the one of the tool method and the one of the
    pipeline). *)
Theorem callTool_three_outcomes (slides : Slides) (name : string) (args : JsValue) :
  In name known_tools ->
  let run := callTool rt slides name args in
  (answer_code run = None /\ diagnostics run = 0%nat /\ remote_calls run = 1%nat)
  \/ (answer_code run = Some (EnumCode InvalidParams)
      /\ diagnostics run = 1%nat /\ remote_calls run = 0%nat)
  \/ (answer_code run = Some (EnumCode InternalError)
      /\ diagnostics run = 2%nat /\ remote_calls run = 1%nat).
Proof.
  intros Hin run. subst run.
  destruct (callTool_known Hin) as (schema & toolFn & Hschema & Hguard & Hcall).
  rewrite Hcall.
  destruct (executeTool_guarded slides name args schema Hguard)
    as [(parsedArgs & t & request & method & _ & _ & ->)
       | [(parsedArgs & error & request & method & mname & _ & _ & _ & ->)
         | (_ & t & thrown & ->)]].
  - left. repeat split.
  - right; right. repeat split.
  - right; left. repeat split.
Qed.

(** A known tool of the class form whose remote call is rejected, after
    a successful validation. *)
Lemma handleCallTool_rejected (name : string) (args parsedArgs error : JsValue)
    (schema : ZodType) :
  schema_of name = Some schema ->
  args <> JsUndefined ->
  parse rt schema args = Normal parsedArgs ->
  let run := handleCallTool rt (rejecting_slides error) name args in
  let said := "Google API Error: " ++ interpolate rt (apiErrorMessage rt error) in
  result run
  = Normal (error_result (McpError_message rt (EnumCode InternalError) said)
                         (EnumCode InternalError))
  /\ exists label,
       Str.startsWith "Google API Error (" label = true
       /\ filter is_ConsoleError (trace run)
          = [ ConsoleError label error;
              ConsoleError (pipeline_label name) (new_McpError rt InternalError said) ].
Proof.
  intros Hschema Hargs Hparse run said.
  subst run said. unfold handleCallTool.
  pose proof (schema_of_known _ Hschema) as Hin. apply known_tools_cases in Hin.
  destruct Hin as [-> | [-> | [-> | [-> | ->]]]];
    simpl String.eqb; cbv iota; injection Hschema as <-;
    rewrite handleCallTool_as_executeTool;
    unfold executeTool;
    (destruct args; try congruence);
    unfold try_catch at 1, bind at 1, lift; rewrite Hparse;
    unfold createPresentation, getPresentation, batchUpdatePresentation, getPage,
      summarizePresentation; cbv zeta;
    rewrite tool_method_run;
    (split; [reflexivity | eexists; split; [|reflexivity]; reflexivity]).
Qed.

Lemma apiErrorMessage_without_response (error : JsValue) :
  Js.has_property "response" error = false ->
  interpolate rt (apiErrorMessage rt error)
  = match error with
    | JsError _ msg _ => msg
    | _ => "Unknown Google API error"
    end.
Proof.
  intros Hresp. unfold apiErrorMessage. rewrite Hresp, andb_false_r.
  destruct error; reflexivity.
Qed.

Lemma apiErrorMessage_nested (error : JsValue) (nested : string) :
  Js.get (Js.get (Js.get (Js.get error "response") "data") "error") "message"
    = JsString nested ->
  nested <> EmptyString ->
  interpolate rt (apiErrorMessage rt error) = nested.
Proof.
  intros Hnested Hne. unfold apiErrorMessage.
  assert (Hhas : Js.typeof_object error
                 && negb (match error with JsNull => true | _ => false end)
                 && Js.has_property "response" error = true).
  { destruct error; try discriminate Hnested; simpl in *.
    - destruct (Js.lookup "response" props); [reflexivity | discriminate Hnested].
    - destruct (Js.lookup "response" props); [reflexivity | discriminate Hnested]. }
  rewrite Hhas, Hnested. simpl. destruct nested; [congruence | reflexivity].
Qed.

(** X6. When the remote call of a tool of the class form rejects with a
    value that has no [response] property, the request handler of the class
    form answers with an InternalError whose text is built from
    [Google API Error: ] and the message of the value if it is an [Error],
    the literal [Unknown Google API error] for anything else (a string
    included); the first diagnostic carries the rejected value, the second
    the [McpError]. *)
Theorem rejected_remote_call_without_response (name : string) (args parsedArgs error : JsValue)
    (schema : ZodType) :
  schema_of name = Some schema ->
  args <> JsUndefined ->
  parse rt schema args = Normal parsedArgs ->
  Js.has_property "response" error = false ->
  let run := handleCallTool rt (rejecting_slides error) name args in
  let detail :=
    match error with
    | JsError _ msg _ => msg
    | _ => "Unknown Google API error"
    end in
  result run
  = Normal (error_result
              (McpError_message rt (EnumCode InternalError) ("Google API Error: " ++ detail))
              (EnumCode InternalError))
  /\ exists label,
       Str.startsWith "Google API Error (" label = true
       /\ filter is_ConsoleError (trace run)
          = [ ConsoleError label error;
              ConsoleError (pipeline_label name)
                (new_McpError rt InternalError ("Google API Error: " ++ detail)) ].
Proof.
  intros Hschema Hargs Hparse Hresp run detail. subst run detail.
  rewrite <- (apiErrorMessage_without_response _ Hresp).
  exact (@handleCallTool_rejected name args parsedArgs error schema Hschema Hargs Hparse).
Qed.

(** X7. When the remote call of a tool of the class form rejects with a
    value whose [response.data.error.message] is a non-empty string, that
    string is the detail of the answer of the request handler of the class
    form, whatever the own message of the value is. *)
Theorem rejected_remote_call_nested_message (name : string) (args parsedArgs error : JsValue)
    (schema : ZodType) (nested : string) :
  schema_of name = Some schema ->
  args <> JsUndefined ->
  parse rt schema args = Normal parsedArgs ->
  Js.get (Js.get (Js.get (Js.get error "response") "data") "error") "message"
    = JsString nested ->
  nested <> EmptyString ->
  result (handleCallTool rt (rejecting_slides error) name args)
  = Normal (error_result
              (McpError_message rt (EnumCode InternalError) ("Google API Error: " ++ nested))
              (EnumCode InternalError)).
Proof.
  intros Hschema Hargs Hparse Hnested Hne.
  rewrite <- (@apiErrorMessage_nested error nested Hnested Hne).
  exact (proj1 (@handleCallTool_rejected name args parsedArgs error schema Hschema Hargs Hparse)).
Qed.

End ToolCalls.

Section Validation.

Variable rt : Runtime.

Lemma check_undefined_required (validator : ZodType) (p : list PathSegment) :
  requires validator = true ->
  check validator p JsUndefined = (JsUndefined, [ {| path := p; message := "Required" |} ]).
Proof. destruct validator; simpl; intros H; try discriminate; reflexivity. Qed.

Lemma check_fields_missing (p : list PathSegment) (data : JsValue)
    (shape : list (string * ZodType)) (key : string) (validator : ZodType) :
  In (key, validator) shape ->
  requires validator = true ->
  Js.get data key = JsUndefined ->
  In {| path := (p ++ [Key key])%list; message := "Required" |}
     (snd (check_fields (fun v => check v) p data shape)).
Proof.
  intros Hin Hreq Hget. induction shape as [|[k v] rest IH]; [destruct Hin|].
  simpl.
  destruct (check v (p ++ [Key k]) (Js.get data k)) as [value issues] eqn:Hcheck.
  destruct (check_fields (fun v0 => check v0) p data rest) as [out more] eqn:Hrest.
  simpl. apply in_or_app.
  destruct Hin as [Heq | Hin].
  - injection Heq as -> ->. left.
    rewrite Hget, (@check_undefined_required validator (p ++ [Key key])%list Hreq) in Hcheck.
    injection Hcheck as _ <-. now left.
  - right. exact (IH Hin).
Qed.

Lemma parse_missing (shape : list (string * ZodType)) (props : list (string * JsValue))
    (key : string) (validator : ZodType) :
  In (key, validator) shape ->
  requires validator = true ->
  Js.get (JsObject props) key = JsUndefined ->
  exists issues,
    parse rt (ZObject shape) (JsObject props) = Throw (new_ZodError rt issues)
    /\ In {| path := [Key key]; message := "Required" |} issues.
Proof.
  intros Hin Hreq Hget.
  pose proof (@check_fields_missing [] (JsObject props) shape key validator Hin Hreq Hget) as Hissue.
  unfold parse. simpl.
  destruct (snd (check_fields (fun v => check v) [] (JsObject props) shape)) as [|i l] eqn:Hs;
    [destruct Hissue|].
  exists (i :: l). split; [reflexivity | exact Hissue].
Qed.

(** X8. For every known tool and every key that its schema declares with a
    validator other than [.optional()] and [z.any()]: an arguments object
    where the key is absent or [undefined] is answered with InvalidParams,
    the text has the entry [<key>: Required], the tool function is not
    called and no request is sent. *)
Theorem missing_required_property (slides : Slides) (name key : string)
    (shape : list (string * ZodType)) (validator : ZodType) (props : list (string * JsValue)) :
  carries_message rt ->
  schema_of name = Some (ZObject shape) ->
  In (key, validator) shape ->
  requires validator = true ->
  Js.get (JsObject props) key = JsUndefined ->
  let run := callTool rt slides name (JsObject props) in
  answer_code run = Some (EnumCode InvalidParams)
  /\ Str.contains (key ++ ": Required") (answer_text run)
  /\ toolFn_not_invoked run
  /\ remote_calls run = 0%nat.
Proof.
  intros Hrt Hschema Hin Hreq Hget run. subst run.
  destruct (@callTool_schema_of rt slides name _ Hschema) as (toolFn & ->).
  destruct (@parse_missing shape props key validator Hin Hreq Hget) as (issues & Hparse & Hissue).
  assert (Hrun : executeTool rt slides name (JsObject props) (parse rt (ZObject shape)) toolFn
                 = (Normal (error_result
                              (McpError_message rt (EnumCode InvalidParams)
                                 ("Invalid arguments for tool " ++ Str.quote ++ name ++ Str.quote
                                    ++ ": " ++ validationErrors issues))
                              (EnumCode InvalidParams)),
                    [ ConsoleError (pipeline_label name) (new_ZodError rt issues) ])).
  { unfold executeTool. rewrite Hparse. reflexivity. }
  rewrite Hrun.
  unfold answer_code, answer_text, toolFn_not_invoked, remote_calls, result, trace.
  cbn [fst snd content errorCode error_result map text Str.concat_all fold_right
       forallb filter is_ToolFnCall is_RemoteCall negb andb List.length].
  repeat split.
  rewrite append_nil_r.
  eapply contains_trans; [|apply Hrt].
  do 5 apply contains_prepend.
  exact (entry_in_said (fun e => path_join (path e) ++ ": " ++ message e) "; " issues _ Hissue).
Qed.

Lemma too_small_nil_iff (size n : nat) (msg : string) (p : list PathSegment) :
  too_small size (Some (n, msg)) p = [] <-> (n <= size)%nat.
Proof.
  unfold too_small. destruct (Nat.ltb_spec size n); split; intros H0;
    (reflexivity || discriminate || lia).
Qed.

Lemma check_string_min1 (msg : string) (p : list PathSegment) (v value : JsValue) :
  check (ZString (Some (1%nat, msg))) p v = (value, [])
  <-> exists s, v = JsString s /\ s <> EmptyString /\ value = JsString s.
Proof.
  simpl. destruct v; try (split; [discriminate | intros (s0 & H & _); discriminate]).
  destruct s as [|c s]; simpl.
  - split; [discriminate | intros (s0 & H & Hne & _)]. injection H as <-. congruence.
  - split.
    + intros H. injection H as <-. exists (String c s). repeat split. discriminate.
    + intros (s0 & H & _ & ->). now injection H as <-.
Qed.

Lemma check_items_any (element : Checker) (p : list PathSegment) (items : list JsValue)
    (i : nat) :
  (forall q v, element q v = (v, [])) ->
  map fst (check_items element p i items) = items
  /\ List.concat (map snd (check_items element p i items)) = [].
Proof.
  intros Hany. revert i. induction items as [|item rest IH]; intros i; simpl; [now split|].
  rewrite Hany. destruct (IH (S i)) as (H1 & H2). split; simpl; [f_equal; exact H1 | exact H2].
Qed.

Lemma check_array_any_min1 (msg : string) (p : list PathSegment) (v value : JsValue) :
  check (ZArray ZAny (Some (1%nat, msg))) p v = (value, [])
  <-> exists items, v = JsArray items /\ items <> [] /\ value = JsArray items.
Proof.
  cbn [check]. destruct v; try (split; [discriminate | intros (s0 & H & _); discriminate]).
  match goal with
  | |- context [check_items ?element p 0 items] =>
      destruct (@check_items_any element p items 0 (fun q v => eq_refl)) as (-> & ->)
  end.
  rewrite app_nil_r.
  destruct items as [|item rest]; simpl.
  - split; [discriminate | intros (s0 & H & Hne & _)]. injection H as <-. congruence.
  - split.
    + intros H. injection H as <-. exists (item :: rest). repeat split. discriminate.
    + intros (s0 & H & _ & ->). now injection H as <-.
Qed.

Lemma check_optional_any (p : list PathSegment) (v : JsValue) :
  check (ZOptional ZAny) p v = (v, []).
Proof. destruct v; reflexivity. Qed.

(** An object schema accepts when every field of its shape does. *)
Lemma check_fields_accepts (validate : ZodType -> Checker) (p : list PathSegment)
    (data : JsValue) (key : string) (validator : ZodType) (rest : list (string * ZodType))
    (out : list (string * JsValue)) :
  check_fields validate p data ((key, validator) :: rest) = (out, [])
  <-> exists value out',
        validate validator (p ++ [Key key])%list (Js.get data key) = (value, [])
        /\ check_fields validate p data rest = (out', [])
        /\ out = (if negb (is_undefined value) || Js.has_property key data
                  then (key, value) :: out' else out').
Proof.
  cbn [check_fields].
  destruct (validate validator (p ++ [Key key])%list (Js.get data key)) as [value issues].
  destruct (check_fields validate p data rest) as [out' more].
  split.
  - intros H. injection H as <- Hnil. apply app_eq_nil in Hnil as (-> & ->).
    now exists value, out'.
  - intros (value' & out'' & H1 & H2 & ->).
    injection H1 as <- ->. injection H2 as <- ->. reflexivity.
Qed.

Lemma parse_object_accepts (shape : list (string * ZodType)) (args out : JsValue) :
  parse rt (ZObject shape) args = Normal out
  <-> parsedType args = "object"
      /\ exists fields,
           check_fields (fun validator => check validator) [] args shape = (fields, [])
           /\ out = JsObject fields.
Proof.
  unfold parse.
  destruct args; try (simpl; split; [discriminate | intros (H & _); discriminate]);
    cbn [check parsedType];
    destruct (check_fields (fun validator => check validator) [] _ shape) as [fields issues];
    cbn [fst snd]; (destruct issues as [|i l]; split;
      [ intros H; injection H as <-; split; [reflexivity | now exists fields]
      | intros (_ & fields' & H & ->); now injection H as <-
      | discriminate
      | intros (_ & fields' & H & _); discriminate ]).
Qed.

(** X9. [CreatePresentationArgsSchema] accepts exactly the objects whose
    [title] is a non-empty string, and the validated arguments are then
    [{ title }] alone. *)
Theorem create_presentation_accepts_iff (args out : JsValue) :
  parse rt CreatePresentationArgsSchema args = Normal out
  <-> parsedType args = "object"
      /\ exists t,
           Js.get args "title" = JsString t
           /\ t <> EmptyString
           /\ out = JsObject [ ("title", JsString t) ].
Proof.
  unfold CreatePresentationArgsSchema. rewrite parse_object_accepts.
  split; intros (Hobj & Hrest); (split; [exact Hobj|]).
  - destruct Hrest as (fields & Hfields & ->).
    apply check_fields_accepts in Hfields as (value & out' & Hvalue & Hnil & ->).
    apply check_string_min1 in Hvalue as (t & Hget & Hne & ->).
    injection Hnil as <-. exists t. now repeat split.
  - destruct Hrest as (t & Hget & Hne & ->).
    exists [ ("title", JsString t) ]. split; [|reflexivity].
    apply check_fields_accepts. exists (JsString t), [].
    repeat split. apply check_string_min1. now exists t.
Qed.

Lemma batch_update_accepted (args : JsValue) (presentationId : string)
    (requests : list JsValue) :
  parsedType args = "object" ->
  Js.get args "presentationId" = JsString presentationId ->
  presentationId <> EmptyString ->
  Js.get args "requests" = JsArray requests ->
  requests <> [] ->
  parse rt BatchUpdatePresentationArgsSchema args
  = Normal (JsObject ([ ("presentationId", JsString presentationId);
                        ("requests", JsArray requests) ]
                      ++ optional_property "writeControl" args)%list).
Proof.
  intros Hobj Hpid Hne Hitems Hnonempty.
  unfold BatchUpdatePresentationArgsSchema, GoogleSlidesRequestSchema,
    GoogleSlidesWriteControlSchema, optional_property.
  apply parse_object_accepts. split; [exact Hobj|].
  eexists. split; [|reflexivity].
  apply check_fields_accepts. exists (JsString presentationId). eexists. split; [|split].
  - apply check_string_min1. now exists presentationId.
  - apply check_fields_accepts. exists (JsArray requests). eexists. split; [|split].
    + apply check_array_any_min1. now exists requests.
    + apply check_fields_accepts. exists (Js.get args "writeControl"), [].
      split; [apply check_optional_any | split; reflexivity].
    + reflexivity.
  - reflexivity.
Qed.

(** X10. [BatchUpdatePresentationArgsSchema] accepts exactly the objects
    whose [presentationId] is a non-empty string and whose [requests] is a
    non-empty array; the requests are not looked into, [writeControl] is
    not validated, and the validated arguments carry all three as given. *)
Theorem batch_update_accepts_iff (args out : JsValue) :
  parse rt BatchUpdatePresentationArgsSchema args = Normal out
  <-> parsedType args = "object"
      /\ exists presentationId requests,
           Js.get args "presentationId" = JsString presentationId
           /\ presentationId <> EmptyString
           /\ Js.get args "requests" = JsArray requests
           /\ requests <> []
           /\ out = JsObject ([ ("presentationId", JsString presentationId);
                                ("requests", JsArray requests) ]
                              ++ optional_property "writeControl" args)%list.
Proof.
  split.
  - unfold BatchUpdatePresentationArgsSchema, GoogleSlidesRequestSchema,
      GoogleSlidesWriteControlSchema, optional_property.
    rewrite parse_object_accepts.
    intros (Hobj & fields & Hfields & ->). split; [exact Hobj|].
    apply check_fields_accepts in Hfields as (v1 & out1 & Hv1 & Hfields & ->).
    apply check_fields_accepts in Hfields as (v2 & out2 & Hv2 & Hfields & ->).
    apply check_fields_accepts in Hfields as (v3 & out3 & Hv3 & Hnil & ->).
    apply check_string_min1 in Hv1 as (pid & Hpid & Hne & ->).
    apply check_array_any_min1 in Hv2 as (items & Hitems & Hnonempty & ->).
    rewrite check_optional_any in Hv3. injection Hv3 as <-.
    injection Hnil as <-. exists pid, items. now repeat split.
  - intros (Hobj & pid & items & Hpid & Hne & Hitems & Hnonempty & ->).
    now apply batch_update_accepted.
Qed.

End Validation.

Section Trimmed.

Lemma trimStart_head (s : string) :
  Str.trimStart s = EmptyString
  \/ exists c rest, Str.trimStart s = String c rest /\ Str.is_whitespace c = false.
Proof.
  induction s as [|c s IH]; [now left|].
  simpl. destruct (Str.is_whitespace c) eqn:Hc; [exact IH|].
  right. now exists c, s.
Qed.

Lemma trimEnd_idempotent (s : string) : Str.trimEnd (Str.trimEnd s) = Str.trimEnd s.
Proof.
  induction s as [|c s IH]; [reflexivity|].
  simpl. destruct (Str.trimEnd s) as [|k kept] eqn:Hkept.
  - destruct (Str.is_whitespace c) eqn:Hc; simpl; [reflexivity | now rewrite Hc].
  - change (Str.trimEnd (String c (String k kept))) with
      (match Str.trimEnd (String k kept) with
       | EmptyString => if Str.is_whitespace c then EmptyString else String c EmptyString
       | kept' => String c kept'
       end).
    now rewrite IH.
Qed.

(** A string that starts with a character that is not white space keeps it
    when its end is trimmed. *)
Lemma trimEnd_head (c : ascii) (rest : string) :
  Str.is_whitespace c = false ->
  exists kept, Str.trimEnd (String c rest) = String c kept.
Proof.
  intros Hc. simpl. destruct (Str.trimEnd rest) as [|k kept].
  - rewrite Hc. now exists EmptyString.
  - now exists (String k kept).
Qed.

Lemma trimStart_fixed (c : ascii) (rest : string) :
  Str.is_whitespace c = false -> Str.trimStart (String c rest) = String c rest.
Proof. intros Hc. simpl. now rewrite Hc. Qed.

Lemma trim_shape (s : string) :
  Str.trim s = EmptyString
  \/ exists c rest, Str.trim s = String c rest /\ Str.is_whitespace c = false.
Proof.
  unfold Str.trim. destruct (trimStart_head s) as [-> | (c & rest & -> & Hc)]; [now left|].
  right. destruct (@trimEnd_head c rest Hc) as (kept & ->). now exists c, kept.
Qed.

Lemma trimEnd_trim (s : string) : Str.trimEnd (Str.trim s) = Str.trim s.
Proof. unfold Str.trim. apply trimEnd_idempotent. Qed.

Lemma trimStart_trim (s : string) : Str.trimStart (Str.trim s) = Str.trim s.
Proof.
  destruct (trim_shape s) as [-> | (c & rest & -> & Hc)]; [reflexivity|].
  now apply trimStart_fixed.
Qed.

Lemma trimStart_append (a b : string) :
  Str.nonempty a = true -> Str.trimStart a = a -> Str.trimStart (a ++ b) = a ++ b.
Proof.
  destruct a as [|c a]; [discriminate|]. intros _. simpl.
  destruct (Str.is_whitespace c) eqn:Hc; [|reflexivity].
  intros H. exfalso.
  assert (Hlen : (String.length (Str.trimStart a) <= String.length a)%nat).
  { clear. induction a as [|x a IH]; simpl; [lia|].
    destruct (Str.is_whitespace x); simpl; lia. }
  rewrite H in Hlen. simpl in Hlen. lia.
Qed.

Lemma trimEnd_append (a b : string) :
  Str.nonempty b = true -> Str.trimEnd b = b -> Str.trimEnd (a ++ b) = a ++ b.
Proof.
  intros Hb Hfix. induction a as [|c a IH]; [exact Hfix|].
  simpl. rewrite IH.
  destruct (a ++ b) as [|x rest] eqn:Hab; [|reflexivity].
  destruct a; [|discriminate]. simpl in Hab. subst b. discriminate.
Qed.

(** The parts joined by [join] keep their first and last characters. *)
Lemma join_trimmed (l : list string) :
  Forall (fun x => Str.nonempty x = true /\ Str.trimStart x = x /\ Str.trimEnd x = x) l ->
  Str.trimStart (Str.join " " l) = Str.join " " l
  /\ Str.trimEnd (Str.join " " l) = Str.join " " l.
Proof.
  unfold Str.join. induction 1 as [|x l (Hne & Hs & He) Hall IH]; [now split|].
  destruct l as [|y l]; [now split|].
  change (String.concat " " (x :: y :: l)) with (x ++ " " ++ String.concat " " (y :: l)).
  destruct IH as (IHs & IHe). split.
  - now apply trimStart_append.
  - rewrite <- append_assoc. apply trimEnd_append; [|exact IHe].
    inversion Hall as [|? ? (Hy & _) _]; subst.
    destruct y; [discriminate|]. destruct l; reflexivity.
Qed.

Lemma join_empty_iff (l : list string) :
  Forall (fun x => Str.nonempty x = true) l ->
  (Str.join " " l = EmptyString <-> l = []).
Proof.
  intros Hall. split; [|now intros ->].
  destruct l as [|x l]; [reflexivity|]. intros H. exfalso.
  inversion Hall as [|? ? Hx _]; subst.
  unfold Str.join in H. destruct x; [discriminate|].
  destruct l; simpl in H; discriminate.
Qed.

Lemma filter_nonempty_nil_iff (l : list string) :
  filter Str.nonempty l = [] <-> forall x, In x l -> x = EmptyString.
Proof.
  induction l as [|x l IH]; simpl; [now split|].
  destruct x as [|c x]; simpl.
  - rewrite IH. split; [intros H y [<- | Hy]; auto | intros H y Hy; apply H; now right].
  - split; [discriminate|]. intros H. specialize (H (String c x) (or_introl eq_refl)).
    discriminate.
Qed.

(** X11. The [content] of a slide summary has no white space at either
    end, and it is empty exactly when every text run of the slide is empty
    or white space. *)
Theorem slide_content_is_trimmed (includeNotes : bool) (index : nat) (slide : Page) :
  exists c,
    Js.get (slideSummary includeNotes index slide) "content" = JsString c
    /\ Str.trim c = c
    /\ (c = EmptyString <-> forall run, In run (document_runs slide) -> Str.trim run = EmptyString).
Proof.
  exists (content_of slide). split; [apply slideSummary_content|].
  unfold content_of.
  assert (Hall : Forall (fun x => Str.nonempty x = true /\ Str.trimStart x = x
                                   /\ Str.trimEnd x = x)
                        (filter Str.nonempty (map Str.trim (document_runs slide)))).
  { apply Forall_forall. intros x Hx. apply filter_In in Hx as (Hx & Hne).
    apply in_map_iff in Hx as (run & <- & _).
    repeat split; [exact Hne | apply trimStart_trim | apply trimEnd_trim]. }
  split.
  - destruct (@join_trimmed _ Hall) as (Hs & He). unfold Str.trim at 1. rewrite Hs. exact He.
  - rewrite join_empty_iff by (eapply Forall_impl; [|exact Hall]; now intros x (H & _)).
    rewrite filter_nonempty_nil_iff. split.
    + intros H run Hrun. apply H. now apply in_map.
    + intros H x Hx. apply in_map_iff in Hx as (run & <- & Hrun). now apply H.
Qed.

End Trimmed.

Section Numbering.

(** X12. In the summary of a presentation with slides, [slideCount] is the
    number of slides, the entry of the slide at index [i] has the
    [slideNumber] [i + 1], and its [slideId] is the object id of the page,
    or [slide_<i + 1>] when the page has none or an empty one. *)
Theorem summary_numbers_slides (includeNotes : bool) (presentation : Presentation)
    (pages : list Page) :
  slides presentation = Some pages ->
  pages <> [] ->
  exists items,
    Js.get (summary_of includeNotes presentation) "slides" = JsArray items
    /\ Js.get (summary_of includeNotes presentation) "slideCount"
       = JsNumber (Z.of_nat (List.length pages))
    /\ forall i slide,
         nth_error pages i = Some slide ->
         exists item,
           nth_error items i = Some item
           /\ Js.get item "slideNumber" = JsNumber (Z.of_nat i + 1)
           /\ (forall id, objectId slide = Some id -> id <> EmptyString ->
                 Js.get item "slideId" = JsString id)
           /\ (objectId slide = None \/ objectId slide = Some EmptyString ->
                 Js.get item "slideId" = JsString ("slide_" ++ Str.of_nat (i + 1))).
Proof.
  intros Hslides Hne.
  exists (map_indexed (slideSummary includeNotes) pages).
  unfold summary_of. rewrite Hslides.
  destruct pages as [|first rest]; [congruence|].
  split; [reflexivity|]. split.
  { unfold map_indexed. cbn [Js.get Js.lookup String.eqb Ascii.eqb Bool.eqb].
    now rewrite length_map_from. }
  intros i slide Hnth. exists (slideSummary includeNotes i slide).
  split; [unfold map_indexed; now rewrite nth_error_map_from, Hnth|].
  split; [|split].
  - unfold slideSummary. cbn [Js.get Js.lookup app]. simpl String.eqb. cbv iota.
    f_equal. lia.
  - intros id Hid Hid_ne. unfold slideSummary. rewrite Hid. simpl.
    destruct id; [congruence | reflexivity].
  - intros [Hid | Hid]; unfold slideSummary; rewrite Hid; simpl;
      now replace (i + 1)%nat with (S i) by lia.
Qed.

(** X13. The entry of a slide has a [notes] key exactly when notes were
    asked for and some text run of a shape of the notes page has a
    non-empty content; the value is then the notes text. *)
Theorem summary_notes_key (includeNotes : bool) (presentation : Presentation)
    (pages : list Page) :
  slides presentation = Some pages ->
  pages <> [] ->
  exists items,
    Js.get (summary_of includeNotes presentation) "slides" = JsArray items
    /\ forall i slide,
         nth_error pages i = Some slide ->
         exists item,
           nth_error items i = Some item
           /\ Js.has_property "notes" item
              = includeNotes && existsb Str.nonempty (notes_runs slide)
           /\ (Js.has_property "notes" item = true ->
               Js.get item "notes" = JsString (notes_text slide)).
Proof.
  intros Hslides Hne.
  exists (map_indexed (slideSummary includeNotes) pages).
  unfold summary_of. rewrite Hslides.
  destruct pages as [|first rest]; [congruence|].
  split; [reflexivity|].
  intros i slide Hnth. exists (slideSummary includeNotes i slide).
  split; [unfold map_indexed; now rewrite nth_error_map_from, Hnth|].
  apply slideSummary_notes.
Qed.

End Numbering.

Section Agreement.

Variable rt : Runtime.

Lemma check_passes_through (validator : ZodType) (p : list PathSegment) (v value : JsValue) :
  passes_through validator = true ->
  check validator p v = (value, []) ->
  value = v.
Proof.
  destruct validator as [min| | |inner|element min|shape]; try discriminate.
  - simpl. destruct v; intros _ H; try discriminate H. now injection H as <-.
  - simpl. destruct v; intros _ H; try discriminate H. now injection H as <-.
  - simpl. intros _ H. now injection H as <-.
  - destruct inner as [min| | |inner|element min|shape]; try discriminate;
      simpl; destruct v; intros _ H; try discriminate H; now injection H as <-.
  - destruct element; try discriminate. intros _. cbn [check].
    destruct v; try discriminate.
    match goal with
    | |- context [check_items ?element p 0 items] =>
        destruct (@check_items_any element p items 0 (fun q v => eq_refl)) as (-> & _)
    end.
    intros H. now injection H as <-.
Qed.

Lemma lookup_not_key (key : string) (props : list (string * JsValue)) :
  ~ In key (Js.keys props) -> Js.lookup key props = None.
Proof.
  induction props as [|[k v] rest IH]; [reflexivity|].
  simpl. intros Hnot. destruct (String.eqb_spec k key) as [-> | Hne]; [tauto|].
  apply IH. tauto.
Qed.

(** The validated fields agree with the input on every key of the shape. *)
Lemma check_fields_agree (p : list PathSegment) (data : JsValue)
    (shape : list (string * ZodType)) :
  (forall key validator, In (key, validator) shape -> passes_through validator = true) ->
  forall out,
    check_fields (fun validator => check validator) p data shape = (out, []) ->
    forall key, In key (map fst shape) -> Js.get (JsObject out) key = Js.get data key.
Proof.
  induction shape as [|[k validator] rest IH]; intros Hpass out Hfields key Hkey;
    [destruct Hkey|].
  apply check_fields_accepts in Hfields as (value & out' & Hvalue & Hrest & ->).
  apply check_passes_through in Hvalue; [|apply (Hpass k); now left]. subst value.
  assert (IH' : forall key, In key (map fst rest) ->
                  Js.get (JsObject out') key = Js.get data key).
  { apply IH; [|exact Hrest]. intros k' v' Hin. apply (Hpass k'). now right. }
  assert (Hkeys : incl (Js.keys out') (map fst rest)).
  { pose proof (check_fields_keys (fun validator => check validator) p data rest) as Hincl.
    now rewrite Hrest in Hincl. }
  destruct (String.eqb_spec k key) as [-> | Hne].
  - destruct (negb (is_undefined (Js.get data key)) || Js.has_property key data) eqn:Hincluded.
    + simpl. now rewrite String.eqb_refl.
    + apply orb_false_elim in Hincluded as (Hundef & _).
      apply negb_false_iff in Hundef.
      destruct (in_dec string_dec key (map fst rest)) as [Hin | Hnot]; [now apply IH'|].
      simpl. rewrite lookup_not_key by (intros Hk; apply Hnot, Hkeys, Hk).
      destruct (Js.get data key); try discriminate. reflexivity.
  - assert (Hin : In key (map fst rest))
      by (destruct Hkey as [Heq | Hin]; [simpl in Heq; congruence | exact Hin]).
    destruct (negb (is_undefined (Js.get data k)) || Js.has_property k data).
    + simpl. apply String.eqb_neq in Hne. rewrite Hne. now apply IH'.
    + now apply IH'.
Qed.

Lemma parse_agrees (name : string) (schema : ZodType) (args out : JsValue) :
  schema_of name = Some schema ->
  parse rt schema args = Normal out ->
  forall key, In key (declared schema) -> Js.get out key = Js.get args key.
Proof.
  intros Hschema Hparse key Hkey.
  assert (Hshape : exists shape,
             schema = ZObject shape
             /\ forall k v, In (k, v) shape -> passes_through v = true).
  { unfold schema_of in Hschema.
    repeat match type of Hschema with
           | (if ?b then _ else _) = _ => destruct b
           end;
      try discriminate; injection Hschema as <-; eexists; (split; [reflexivity|]);
      intros k v Hin; simpl in Hin; intuition;
      match goal with H : _ = (k, v) |- _ => injection H as <- <- end; reflexivity. }
  destruct Hshape as (shape & -> & Hpass).
  apply parse_object_accepts in Hparse as (_ & fields & Hfields & ->).
  exact (@check_fields_agree [] args shape Hpass fields Hfields key Hkey).
Qed.

(** X14. The validated arguments of a known tool agree with the input on
    every key that the schema declares, and have no other key: validation
    changes no value. *)
Theorem validated_arguments_agree_with_input (name : string) (schema : ZodType)
    (args out : JsValue) :
  schema_of name = Some schema ->
  parse rt schema args = Normal out ->
  forall key,
    (In key (declared schema) -> Js.get out key = Js.get args key)
    /\ (~ In key (declared schema) -> Js.get out key = JsUndefined).
Proof.
  intros Hschema Hparse key. split; [now apply (parse_agrees name)|].
  intros Hnot.
  destruct (schema_of_object name Hschema) as (shape & ->).
  destruct (@parse_object_keys rt shape args out Hparse) as (fields & -> & Hkeys).
  simpl. rewrite lookup_not_key; [reflexivity|].
  intros Hk. apply Hnot, Hkeys, Hk.
Qed.

End Agreement.

Section Listing.

Variable rt : Runtime.

Lemma listed_names : map tool_name listed_tools = known_tools.
Proof. reflexivity. Qed.

(** X15. The tools that the server lists are the tools that it dispatches:
    a listed name is never answered with MethodNotFound, and every other
    name is answered with it, with the text [Unknown tool requested: <name>],
    no diagnostic and no request. *)
Theorem listed_tools_are_dispatched (slides : Slides) (name : string) (args : JsValue) :
  (In name (map tool_name listed_tools) ->
   answer_code (callTool rt slides name args) <> Some (EnumCode MethodNotFound))
  /\ (~ In name (map tool_name listed_tools) ->
      callTool rt slides name args
      = (Normal (error_result ("Unknown tool requested: " ++ name) (EnumCode MethodNotFound)),
         [])).
Proof.
  rewrite listed_names. split.
  - intros Hin.
    destruct (callTool_known rt Hin) as (schema & toolFn & Hschema & Hguard & Hcall).
    rewrite Hcall.
    destruct (executeTool_guarded slides name args schema Hguard)
      as [(parsedArgs & t & request & method & _ & _ & ->)
         | [(parsedArgs & error & request & method & mname & _ & _ & _ & ->)
           | (_ & t & thrown & ->)]]; discriminate.
  - apply callTool_unknown.
Qed.

(** X16. Every listed tool has an argument schema; the properties of its
    input schema are the keys of the schema in the same order, its
    [required] list is the keys whose validator does not accept
    [undefined], and the listed type of a key is the type its validator
    accepts (the keys validated with [z.any()] apart). *)
Theorem listing_matches_schemas (tool : JsValue) :
  In tool listed_tools ->
  exists shape,
    schema_of (tool_name tool) = Some (ZObject shape)
    /\ listed_properties tool = map fst shape
    /\ listed_required tool = required_keys shape
    /\ forall key validator type,
         In (key, validator) shape ->
         json_type validator = Some type ->
         listed_type tool key = type.
Proof.
  intros Hin.
  repeat (destruct Hin as [<- | Hin]; [eexists; split; [reflexivity|]; split; [reflexivity|];
    split; [reflexivity|]; intros key validator type Hfield Htype; simpl in Hfield;
    repeat (destruct Hfield as [Heq | Hfield]; [injection Heq as <- <-; simpl in Htype;
      try discriminate Htype; injection Htype as <-; reflexivity|]); destruct Hfield|]).
  destruct Hin.
Qed.

End Listing.

Section ClassHandlerTotal.

Variable rt : Runtime.

(** X17. For a name that is not a known tool, the handler of the class form
    throws inside its [try]: the text is the message attribute of an
    [McpError] and a diagnostic is written, and absent arguments are
    reported (InvalidParams) before the name is looked at; the handler of
    index.ts answers MethodNotFound with the bare text and writes nothing. *)
Theorem handleCallTool_unknown_tool (slides : Slides) (name : string) (args : JsValue) :
  ~ In name known_tools ->
  args <> JsUndefined ->
  handleCallTool rt slides name args
  = (Normal (error_result
               (McpError_message rt (EnumCode MethodNotFound)
                  ("Unknown tool requested: " ++ name))
               (EnumCode MethodNotFound)),
     [ ConsoleError (pipeline_label name)
         (new_McpError rt MethodNotFound ("Unknown tool requested: " ++ name)) ])
  /\ handleCallTool rt slides name JsUndefined
     = (Normal (error_result
                  (McpError_message rt (EnumCode InvalidParams)
                     ("Missing arguments for tool " ++ Str.quote ++ name ++ Str.quote ++ "."))
                  (EnumCode InvalidParams)),
        [ ConsoleError (pipeline_label name)
            (new_McpError rt InvalidParams
               ("Missing arguments for tool " ++ Str.quote ++ name ++ Str.quote ++ ".")) ])
  /\ callTool rt slides name args
     = (Normal (error_result ("Unknown tool requested: " ++ name) (EnumCode MethodNotFound)),
        []).
Proof.
  intros Hnot Hargs. split; [|split].
  - destruct (unknown_tool_eqb Hnot) as (H1 & H2 & H3 & H4 & H5).
    unfold handleCallTool. rewrite H1, H2, H3, H4, H5.
    destruct args; try congruence; reflexivity.
  - reflexivity.
  - now apply callTool_unknown.
Qed.

(** X18. The request handler of the class form never throws, and its
    envelope has [isError] and [errorCode] both absent or both present with
    a code of the enumeration. *)
Theorem handleCallTool_envelope_well_formed (slides : Slides) (name : string) (args : JsValue) :
  exists envelope,
    result (handleCallTool rt slides name args) = Normal envelope
    /\ well_formed envelope = true.
Proof.
  destruct (in_dec string_dec name known_tools) as [Hin | Hnot].
  - apply known_tools_cases in Hin.
    destruct Hin as [-> | [-> | [-> | [-> | ->]]]];
      unfold handleCallTool; simpl String.eqb; cbv iota;
      rewrite handleCallTool_as_executeTool;
      apply executeTool_well_formed;
      first [ apply parse_throws_only_ZodError
            | apply createPresentation_disciplined
            | apply getPresentation_disciplined
            | apply batchUpdatePresentation_disciplined
            | apply getPage_disciplined
            | apply summarizePresentation_disciplined ].
  - destruct (unknown_tool_eqb Hnot) as (H1 & H2 & H3 & H4 & H5).
    unfold handleCallTool. rewrite H1, H2, H3, H4, H5.
    destruct args; eexists; split; reflexivity.
Qed.

End ClassHandlerTotal.

Section Forwarding.

Variable rt : Runtime.


Lemma try_catch_normal {A} (body : Exec A) (handler : JsValue -> Exec A) (a : A)
    (t : list Event) :
  body = (Normal a, t) -> try_catch body handler = (Normal a, t).
Proof. now intros ->. Qed.

(** The run of a known tool whose arguments are valid and whose remote
    call resolves. *)
Lemma executeTool_resolved {A} (slides : Slides) (name method mname : string)
    (args parsedArgs : JsValue) (schema : ZodType)
    (call : Slides -> JsValue -> Completion A) (request : JsValue -> JsValue)
    (serialize : A -> string) (data : A) :
  args <> JsUndefined ->
  parse rt schema args = Normal parsedArgs ->
  call slides (request parsedArgs) = Normal data ->
  executeTool rt slides name args (parse rt schema)
    (fun this_slides a =>
       try_catch
         (d <- await_remote method (call this_slides) (request a) ;;
          ret (success_result (serialize d)))
         (rethrow_api_error rt mname))
  = (Normal (success_result (serialize data)),
     [ ToolFnCall parsedArgs; RemoteCall method (request parsedArgs) ]).
Proof.
  intros Hargs Hparse Hcall.
  unfold executeTool. apply try_catch_normal.
  destruct args; try congruence;
    unfold bind at 1, lift; rewrite Hparse; cbv beta iota;
    rewrite tool_method_run, Hcall; reflexivity.
Qed.

(** X19. For valid arguments, [batch_update_presentation] sends one request
    [{ presentationId, requestBody: { requests, writeControl } }] with the
    requests and the write control exactly as given, and answers with the
    serialized response. *)
Theorem batch_update_forwards_requests (slides : Slides) (args data : JsValue)
    (presentationId : string) (requests : list JsValue) :
  parsedType args = "object" ->
  Js.get args "presentationId" = JsString presentationId ->
  presentationId <> EmptyString ->
  Js.get args "requests" = JsArray requests ->
  requests <> [] ->
  let request :=
    JsObject [ ("presentationId", JsString presentationId);
               ("requestBody",
                JsObject [ ("requests", JsArray requests);
                           ("writeControl", Js.get args "writeControl") ]) ] in
  presentations_batchUpdate slides request = Normal data ->
  let run := callTool rt slides "batch_update_presentation" args in
  result run = Normal (success_result (stringify rt data))
  /\ filter is_RemoteCall (trace run) = [ RemoteCall "presentations.batchUpdate" request ]
  /\ diagnostics run = 0%nat.
Proof.
  intros Hobj Hpid Hne Hrequests Hnonempty request Hcall run.
  assert (Hargs : args <> JsUndefined) by (intros ->; discriminate Hobj).
  pose proof (batch_update_accepted rt args Hobj Hpid Hne Hrequests Hnonempty) as Hparse.
  set (parsedArgs := JsObject ([ ("presentationId", JsString presentationId);
                                 ("requests", JsArray requests) ]
                               ++ optional_property "writeControl" args)%list) in Hparse.
  assert (Hagree : forall key, In key (declared BatchUpdatePresentationArgsSchema) ->
                     Js.get parsedArgs key = Js.get args key)
    by (apply (parse_agrees rt "batch_update_presentation"); [reflexivity | exact Hparse]).
  subst run. unfold_callTool. simpl String.eqb. cbv iota.
  unfold batchUpdatePresentation.
  rewrite (@executeTool_resolved _ slides "batch_update_presentation"
             "presentations.batchUpdate" "batchUpdatePresentation" args parsedArgs
             BatchUpdatePresentationArgsSchema presentations_batchUpdate
             (fun a => JsObject [ ("presentationId", Js.get a "presentationId");
                                  ("requestBody",
                                   JsObject [ ("requests", Js.get a "requests");
                                              ("writeControl", Js.get a "writeControl") ]) ])
             (stringify rt) data Hargs Hparse).
  - cbv beta. rewrite !Hagree by (simpl; tauto). rewrite Hpid, Hrequests.
    repeat split.
  - cbv beta. rewrite !Hagree by (simpl; tauto). rewrite Hpid, Hrequests. exact Hcall.
Qed.



End Forwarding.

Section LegacyFacts.

Variable rt : Runtime.
Variable TypeError_message : JsValue -> string -> string.

Lemma bind_done {A} (guard : Exec unit) (k : Exec A) :
  guard = (Normal tt, []) -> (guard ;;; k) = k.
Proof. intros ->. unfold bind. now destruct k. Qed.

Lemma bind_thrown {A} (guard : Exec unit) (k : Exec A) (thrown : JsValue) (events : list Event) :
  guard = (Throw thrown, events) -> (guard ;;; k) = (Throw thrown, events).
Proof. now intros ->. Qed.

(** A guard lets the call pass, or throws an [McpError] or a [TypeError],
    and leaves no trace. *)
Lemma legacy_require_string_cases (args : JsValue) (key : string) :
  legacy_require_string rt TypeError_message args key = (Normal tt, [])
  \/ exists cls msg,
       legacy_require_string rt TypeError_message args key = (Throw (JsError cls msg []), [])
       /\ (cls = PlainError \/ cls = McpErrorClass (EnumCode InvalidParams)).
Proof.
  unfold legacy_require_string, member, bind, lift.
  destruct args; try (right; eexists _, _; split; [reflexivity | now left]);
    (destruct (negb (Js.truthy _) || negb (is_string _));
     [right; eexists _, _; split; [reflexivity | now right] | now left]).
Qed.

Lemma legacy_require_array_cases (args : JsValue) (key : string) :
  legacy_require_array rt TypeError_message args key = (Normal tt, [])
  \/ exists cls msg,
       legacy_require_array rt TypeError_message args key = (Throw (JsError cls msg []), [])
       /\ (cls = PlainError \/ cls = McpErrorClass (EnumCode InvalidParams)).
Proof.
  unfold legacy_require_array, member, bind, lift.
  destruct args; try (right; eexists _, _; split; [reflexivity | now left]);
    (destruct (negb (Js.truthy _) || negb (isArray _));
     [right; eexists _, _; split; [reflexivity | now right] | now left]).
Qed.

(** The guarded remote call of a tool method, by the outcome of the call. *)
Lemma legacy_remote_run {A} (method name : string) (call : JsValue -> Completion A)
    (request : JsValue) (serialize : A -> string) :
  try_catch
    (data <- await_remote method call request ;;
     ret (success_result (serialize data)))
    (legacy_rethrow rt TypeError_message name)
  = match call request with
    | Normal data =>
        (Normal (success_result (serialize data)), [ RemoteCall method request ])
    | Throw error =>
        match member TypeError_message error "response" with
        | Throw typeError => (Throw typeError, [ RemoteCall method request ])
        | Normal response =>
            let data := Js.get response "data" in
            let nested := Js.get (Js.get data "error") "message" in
            (Throw (new_McpError rt InternalError
                      ("Google API Error: "
                         ++ interpolate rt (if Js.truthy nested then nested
                                            else Js.get error "message"))),
             [ RemoteCall method request;
               ConsoleError ("Google API Error (" ++ name ++ "):")
                 (if Js.truthy data then data else Js.get error "message") ])
        end
    end.
Proof.
  unfold await_remote, legacy_rethrow, try_catch, bind, emit, lift, throw, ret.
  destruct (call request) as [data|error]; [reflexivity|].
  destruct (member TypeError_message error "response"); reflexivity.
Qed.

Lemma legacy_remote_outcome {A} (method name : string) (call : JsValue -> Completion A)
    (request : JsValue) (serialize : A -> string) :
  envelope_or_error
    (try_catch
       (data <- await_remote method call request ;;
        ret (success_result (serialize data)))
       (legacy_rethrow rt TypeError_message name)).
Proof.
  rewrite legacy_remote_run. destruct (call request) as [data|error].
  - left. now eexists _, _.
  - right. unfold member. destruct error;
      try (eexists _, _, _; split; [reflexivity | now left]);
      (eexists _, _, _; split; [reflexivity | right; now eexists]).
Qed.

Lemma guarded_outcome (guard : Exec unit) (k : Exec Envelope) :
  (guard = (Normal tt, [])
   \/ exists cls msg,
        guard = (Throw (JsError cls msg []), [])
        /\ (cls = PlainError \/ cls = McpErrorClass (EnumCode InvalidParams))) ->
  envelope_or_error k ->
  envelope_or_error (guard ;;; k).
Proof.
  intros [Hok | (cls & msg & Hthrow & Hcls)] Hk.
  - now rewrite (bind_done k Hok).
  - rewrite (bind_thrown k Hthrow). right. exists cls, msg, [].
    split; [reflexivity|]. destruct Hcls as [-> | ->]; [now left | right; now eexists].
Qed.

Lemma legacy_methods_outcome (slides : Slides) (args : JsValue) :
  envelope_or_error (legacy_createPresentation rt TypeError_message slides args)
  /\ envelope_or_error (legacy_getPresentation rt TypeError_message slides args)
  /\ envelope_or_error (legacy_batchUpdatePresentation rt TypeError_message slides args)
  /\ envelope_or_error (legacy_getPage rt TypeError_message slides args).
Proof.
  unfold legacy_createPresentation, legacy_getPresentation, legacy_batchUpdatePresentation,
    legacy_getPage.
  repeat split;
    repeat (apply guarded_outcome;
            [first [apply legacy_require_string_cases | apply legacy_require_array_cases]|]);
    apply legacy_remote_outcome.
Qed.

Lemma legacy_catch_answers (name : string) (cls : ErrorClass) (msg : string) :
  cls = PlainError \/ (exists code, cls = McpErrorClass (EnumCode code)) ->
  exists envelope,
    result (legacy_catch rt TypeError_message name (JsError cls msg [])) = Normal envelope
    /\ well_formed envelope = true.
Proof.
  intros [-> | (code & ->)]; eexists; split; reflexivity.
Qed.

(** X21. The request handler of the first form of the server never throws
    either: every value that reaches its catch block is a [TypeError] or an
    [McpError], so reading [error.message] there cannot fail, and the
    envelope is well formed. *)
Theorem legacy_handler_envelope_well_formed (slides : Slides) (name : string) (args : JsValue) :
  exists envelope,
    result (legacy_handleCallTool rt TypeError_message slides name args) = Normal envelope
    /\ well_formed envelope = true.
Proof.
  assert (Hbody : envelope_or_error
            (if String.eqb name "create_presentation"
             then legacy_createPresentation rt TypeError_message slides args
             else if String.eqb name "get_presentation"
             then legacy_getPresentation rt TypeError_message slides args
             else if String.eqb name "batch_update_presentation"
             then legacy_batchUpdatePresentation rt TypeError_message slides args
             else if String.eqb name "get_page"
             then legacy_getPage rt TypeError_message slides args
             else throw (new_McpError rt MethodNotFound ("Unknown tool requested: " ++ name)))).
  { destruct (legacy_methods_outcome slides args) as (H1 & H2 & H3 & H4).
    repeat match goal with |- envelope_or_error (if ?b then _ else _) => destruct b end;
      try assumption.
    right. eexists _, _, _. split; [reflexivity | right; now eexists]. }
  unfold legacy_handleCallTool.
  destruct Hbody as [(t & events & ->) | (cls & msg & events & -> & Hcls)].
  - eexists. split; reflexivity.
  - unfold try_catch.
    destruct (legacy_catch_answers name msg Hcls) as (envelope & Hresult & Hwf).
    exists envelope. split; [|exact Hwf].
    unfold result in *.
    destruct (legacy_catch rt TypeError_message name (JsError cls msg [])) as [r t'].
    exact Hresult.
Qed.

Lemma legacy_catch_TypeError (name said : string) :
  legacy_catch rt TypeError_message name (JsError PlainError said [])
  = (Normal (error_result
               (McpError_message rt (EnumCode InternalError)
                  ("Failed to execute tool " ++ Str.quote ++ name ++ Str.quote ++ ": "
                     ++ (if Str.nonempty said then said else "Unknown error")))
               (EnumCode InternalError)),
     [ ConsoleError ("Error executing tool " ++ Str.quote ++ name ++ Str.quote ++ ":")
         (JsError PlainError said []) ]).
Proof. unfold legacy_catch. destruct said; reflexivity. Qed.

Lemma legacy_body_without_arguments (slides : Slides) (name : string) (args : JsValue) :
  In name legacy_tools ->
  args = JsUndefined \/ args = JsNull ->
  exists key,
    legacy_handleCallTool rt TypeError_message slides name args
    = try_catch (Throw (JsError PlainError (TypeError_message args key) []), [])
                (legacy_catch rt TypeError_message name).
Proof.
  intros Hin Hargs. simpl in Hin.
  destruct Hin as [<- | [<- | [<- | [<- | []]]]]; destruct Hargs as [-> | ->];
    eexists; reflexivity.
Qed.

(** X22. In the first form of the server absent arguments are not
    detected: the tool method reads a property of [undefined], and the
    answer is an InternalError built from the message of the [TypeError],
    where the later form answers InvalidParams. *)
Theorem legacy_missing_arguments (slides : Slides) (name : string) (args : JsValue) :
  In name legacy_tools ->
  args = JsUndefined \/ args = JsNull ->
  let run := legacy_handleCallTool rt TypeError_message slides name args in
  (exists key,
     let said := TypeError_message args key in
     result run
     = Normal (error_result
                 (McpError_message rt (EnumCode InternalError)
                    ("Failed to execute tool " ++ Str.quote ++ name ++ Str.quote ++ ": "
                       ++ (if Str.nonempty said then said else "Unknown error")))
                 (EnumCode InternalError)))
  /\ remote_calls run = 0%nat
  /\ diagnostics run = 1%nat
  /\ answer_code (handleCallTool rt slides name JsUndefined) = Some (EnumCode InvalidParams).
Proof.
  intros Hin Hargs run. subst run.
  destruct (legacy_body_without_arguments slides Hin Hargs) as (key & ->).
  unfold try_catch. rewrite legacy_catch_TypeError.
  split; [now exists key|]. repeat split.
Qed.

(** A field that an accepted object was validated at. *)
Lemma accepted_field (p : list PathSegment) (data : JsValue) (shape : list (string * ZodType))
    (out : list (string * JsValue)) (key : string) (validator : ZodType) :
  check_fields (fun v => check v) p data shape = (out, []) ->
  In (key, validator) shape ->
  exists value, check validator (p ++ [Key key])%list (Js.get data key) = (value, []).
Proof.
  revert out. induction shape as [|[k v] rest IH]; intros out Hfields Hin; [destruct Hin|].
  apply check_fields_accepts in Hfields as (value & out' & Hvalue & Hrest & _).
  destruct Hin as [Heq | Hin].
  - injection Heq as -> ->. now exists value.
  - now apply (IH out').
Qed.

Lemma accepted_string (schema : ZodType) (shape : list (string * ZodType))
    (args out : JsValue) (key msg : string) :
  schema = ZObject shape ->
  parse rt schema args = Normal out ->
  In (key, ZString (Some (1%nat, msg))) shape ->
  exists s, Js.get args key = JsString s /\ s <> EmptyString.
Proof.
  intros -> Hparse Hin.
  apply parse_object_accepts in Hparse as (_ & fields & Hfields & _).
  destruct (@accepted_field _ _ _ _ _ _ Hfields Hin) as (value & Hvalue).
  apply check_string_min1 in Hvalue as (s & Hs & Hne & _). now exists s.
Qed.

Lemma accepted_array (schema : ZodType) (shape : list (string * ZodType))
    (args out : JsValue) (key msg : string) :
  schema = ZObject shape ->
  parse rt schema args = Normal out ->
  In (key, ZArray ZAny (Some (1%nat, msg))) shape ->
  exists items, Js.get args key = JsArray items /\ items <> [].
Proof.
  intros -> Hparse Hin.
  apply parse_object_accepts in Hparse as (_ & fields & Hfields & _).
  destruct (@accepted_field _ _ _ _ _ _ Hfields Hin) as (value & Hvalue).
  apply check_array_any_min1 in Hvalue as (items & Hitems & Hne & _). now exists items.
Qed.

Lemma legacy_require_string_ok (args : JsValue) (key s : string) :
  parsedType args = "object" ->
  Js.get args key = JsString s ->
  s <> EmptyString ->
  legacy_require_string rt TypeError_message args key = (Normal tt, []).
Proof.
  intros Hobj Hget Hne. unfold legacy_require_string, member, bind, lift.
  destruct args; try discriminate Hobj; rewrite Hget; destruct s; try congruence; reflexivity.
Qed.

Lemma legacy_require_array_ok (args : JsValue) (key : string) (items : list JsValue) :
  parsedType args = "object" ->
  Js.get args key = JsArray items ->
  legacy_require_array rt TypeError_message args key = (Normal tt, []).
Proof.
  intros Hobj Hget. unfold legacy_require_array, member, bind, lift.
  destruct args; try discriminate Hobj; rewrite Hget; reflexivity.
Qed.

(** The detail that the later catch block computes for an instance of
    [Error] is the one of the first form. *)
Lemma apiErrorMessage_of_Error (cls : ErrorClass) (msg : string)
    (props : list (string * JsValue)) :
  let error := JsError cls msg props in
  let nested :=
    Js.get (Js.get (Js.get (Js.get error "response") "data") "error") "message" in
  apiErrorMessage rt error = (if Js.truthy nested then nested else Js.get error "message").
Proof.
  cbv zeta. unfold apiErrorMessage. simpl.
  destruct (Js.lookup "response" props) as [response|]; reflexivity.
Qed.

(** The run of the pipeline over a tool method, for valid arguments. *)
Lemma executeTool_valid_run {A} (slides : Slides) (name method mname : string)
    (args parsedArgs : JsValue) (schema : ZodType)
    (call : Slides -> JsValue -> Completion A) (request : JsValue -> JsValue)
    (serialize : A -> string) :
  args <> JsUndefined ->
  parse rt schema args = Normal parsedArgs ->
  executeTool rt slides name args (parse rt schema)
    (fun this_slides a =>
       try_catch
         (d <- await_remote method (call this_slides) (request a) ;;
          ret (success_result (serialize d)))
         (rethrow_api_error rt mname))
  = match call slides (request parsedArgs) with
    | Normal data =>
        (Normal (success_result (serialize data)),
         [ ToolFnCall parsedArgs; RemoteCall method (request parsedArgs) ])
    | Throw error =>
        (Normal (error_result
                   (McpError_message rt (EnumCode InternalError)
                      ("Google API Error: " ++ interpolate rt (apiErrorMessage rt error)))
                   (EnumCode InternalError)),
         [ ToolFnCall parsedArgs; RemoteCall method (request parsedArgs);
           ConsoleError ("Google API Error (" ++ mname ++ "):") error;
           ConsoleError (pipeline_label name)
             (new_McpError rt InternalError
                ("Google API Error: " ++ interpolate rt (apiErrorMessage rt error))) ])
    end.
Proof.
  intros Hargs Hparse.
  destruct (call slides (request parsedArgs)) as [data|error] eqn:Hcall.
  - now apply executeTool_resolved.
  - unfold executeTool, pipeline_label.
    destruct args; try congruence;
      unfold try_catch at 1, bind at 1, lift; rewrite Hparse; cbv beta iota;
      rewrite tool_method_run, Hcall; reflexivity.
Qed.

(** The first form of a tool method under its request handler, for
    arguments that pass its guards. *)
Lemma legacy_valid_run {A} (name method mname : string)
    (call : JsValue -> Completion A) (request : JsValue) (serialize : A -> string) :
  (forall thrown, call request = Throw thrown -> Js.instanceof_Error thrown = true) ->
  let run :=
    try_catch
      (try_catch
         (d <- await_remote method call request ;;
          ret (success_result (serialize d)))
         (legacy_rethrow rt TypeError_message mname))
      (legacy_catch rt TypeError_message name) in
  result run
  = match call request with
    | Normal data => Normal (success_result (serialize data))
    | Throw error =>
        Normal (error_result
                  (McpError_message rt (EnumCode InternalError)
                     ("Google API Error: " ++ interpolate rt (apiErrorMessage rt error)))
                  (EnumCode InternalError))
    end
  /\ filter is_RemoteCall (trace run) = [ RemoteCall method request ].
Proof.
  intros Herrors run. subst run. rewrite legacy_remote_run.
  destruct (call request) as [data|error] eqn:Hcall; [now split|].
  specialize (Herrors error eq_refl).
  destruct error as [| | | | | | |cls msg props]; try discriminate Herrors.
  pose proof (apiErrorMessage_of_Error cls msg props) as Hdetail. cbv zeta in Hdetail.
  rewrite Hdetail. split; reflexivity.
Qed.

(** X23. Introducing the schemas changed nothing for valid calls: for
    arguments that the schema of a tool accepts and a remote client that
    rejects with instances of [Error] only, the first form of the server
    and the later one give the same result and send the same request. *)
Theorem legacy_agrees_on_valid_arguments (slides : Slides) (name : string)
    (args parsedArgs : JsValue) (schema : ZodType) :
  In name legacy_tools ->
  schema_of name = Some schema ->
  parse rt schema args = Normal parsedArgs ->
  rejects_with_errors slides ->
  let old := legacy_handleCallTool rt TypeError_message slides name args in
  let new := handleCallTool rt slides name args in
  result old = result new
  /\ filter is_RemoteCall (trace old) = filter is_RemoteCall (trace new).
Proof.
  intros Hin Hschema Hparse (Hcreate & Hget & Hbatch & Hpage) old new.
  assert (Hobj : parsedType args = "object").
  { destruct (schema_of_object name Hschema) as (shape & ->).
    now apply parse_object_accepts in Hparse. }
  assert (Hargs : args <> JsUndefined) by (intros ->; discriminate Hobj).
  pose proof (@parse_agrees rt name schema args parsedArgs Hschema Hparse) as Hagree.
  subst old new. simpl in Hin.
  destruct Hin as [<- | [<- | [<- | [<- | []]]]]; injection Hschema as <-;
    unfold legacy_handleCallTool, handleCallTool; simpl String.eqb; cbv iota;
    rewrite handleCallTool_as_executeTool.
  - destruct (@accepted_string _ _ args parsedArgs "title" _ eq_refl Hparse (or_introl eq_refl))
      as (t & Ht & Hne).
    unfold legacy_createPresentation, createPresentation.
    rewrite (bind_done _ (legacy_require_string_ok args "title" Hobj Ht Hne)).
    rewrite (@executeTool_valid_run _ slides "create_presentation" "presentations.create"
               "createPresentation" args parsedArgs _ presentations_create
               (fun a => JsObject [ ("requestBody", JsObject [ ("title", Js.get a "title") ]) ])
               (stringify_presentation rt) Hargs Hparse).
    cbv beta. rewrite !Hagree by (simpl; tauto).
    destruct (@legacy_valid_run _ "create_presentation" "presentations.create"
                "createPresentation" (presentations_create slides)
                (JsObject [ ("requestBody", JsObject [ ("title", Js.get args "title") ]) ])
                (stringify_presentation rt) (Hcreate _)) as (-> & ->).
    destruct (presentations_create slides _); split; reflexivity.
  - destruct (@accepted_string _ _ args parsedArgs "presentationId" _ eq_refl Hparse
                (or_introl eq_refl)) as (pid & Hpid & Hne).
    unfold legacy_getPresentation, getPresentation.
    rewrite (bind_done _ (legacy_require_string_ok args "presentationId" Hobj Hpid Hne)).
    rewrite (@executeTool_valid_run _ slides "get_presentation" "presentations.get"
               "getPresentation" args parsedArgs _ presentations_get
               (fun a => JsObject [ ("presentationId", Js.get a "presentationId");
                                    ("fields", Js.get a "fields") ])
               (stringify_presentation rt) Hargs Hparse).
    cbv beta. rewrite !Hagree by (simpl; tauto).
    destruct (@legacy_valid_run _ "get_presentation" "presentations.get"
                "getPresentation" (presentations_get slides)
                (JsObject [ ("presentationId", Js.get args "presentationId");
                            ("fields", Js.get args "fields") ])
                (stringify_presentation rt) (Hget _)) as (-> & ->).
    destruct (presentations_get slides _); split; reflexivity.
  - destruct (@accepted_string _ _ args parsedArgs "presentationId" _ eq_refl Hparse
                (or_introl eq_refl)) as (pid & Hpid & Hne).
    destruct (@accepted_array _ _ args parsedArgs "requests" _ eq_refl Hparse
                (or_intror (or_introl eq_refl))) as (items & Hitems & _).
    unfold legacy_batchUpdatePresentation, batchUpdatePresentation.
    rewrite (bind_done _ (legacy_require_string_ok args "presentationId" Hobj Hpid Hne)).
    rewrite (bind_done _ (legacy_require_array_ok args "requests" Hobj Hitems)).
    rewrite (@executeTool_valid_run _ slides "batch_update_presentation" "presentations.batchUpdate"
               "batchUpdatePresentation" args parsedArgs _ presentations_batchUpdate
               (fun a => JsObject [ ("presentationId", Js.get a "presentationId");
                                    ("requestBody",
                                     JsObject [ ("requests", Js.get a "requests");
                                                ("writeControl", Js.get a "writeControl") ]) ])
               (stringify rt) Hargs Hparse).
    cbv beta. rewrite !Hagree by (simpl; tauto).
    destruct (@legacy_valid_run _ "batch_update_presentation" "presentations.batchUpdate"
                "batchUpdatePresentation" (presentations_batchUpdate slides)
                (JsObject [ ("presentationId", Js.get args "presentationId");
                            ("requestBody",
                             JsObject [ ("requests", Js.get args "requests");
                                        ("writeControl", Js.get args "writeControl") ]) ])
                (stringify rt) (Hbatch _)) as (-> & ->).
    destruct (presentations_batchUpdate slides _); split; reflexivity.
  - destruct (@accepted_string _ _ args parsedArgs "presentationId" _ eq_refl Hparse
                (or_introl eq_refl)) as (pid & Hpid & Hne).
    destruct (@accepted_string _ _ args parsedArgs "pageObjectId" _ eq_refl Hparse
                (or_intror (or_introl eq_refl))) as (page & Hpage_id & Hpage_ne).
    unfold legacy_getPage, getPage.
    rewrite (bind_done _ (legacy_require_string_ok args "presentationId" Hobj Hpid Hne)).
    rewrite (bind_done _ (legacy_require_string_ok args "pageObjectId" Hobj Hpage_id Hpage_ne)).
    rewrite (@executeTool_valid_run _ slides "get_page" "presentations.pages.get"
               "getPage" args parsedArgs _ presentations_pages_get
               (fun a => JsObject [ ("presentationId", Js.get a "presentationId");
                                    ("pageObjectId", Js.get a "pageObjectId") ])
               (stringify_page rt) Hargs Hparse).
    cbv beta. rewrite !Hagree by (simpl; tauto).
    destruct (@legacy_valid_run _ "get_page" "presentations.pages.get"
                "getPage" (presentations_pages_get slides)
                (JsObject [ ("presentationId", Js.get args "presentationId");
                            ("pageObjectId", Js.get args "pageObjectId") ])
                (stringify_page rt) (Hpage _)) as (-> & ->).
    destruct (presentations_pages_get slides _); split; reflexivity.
Qed.

Lemma parse_empty_requests (args : JsValue) (presentationId : string) :
  parsedType args = "object" ->
  Js.get args "presentationId" = JsString presentationId ->
  presentationId <> EmptyString ->
  Js.get args "requests" = JsArray [] ->
  parse rt BatchUpdatePresentationArgsSchema args
  = Throw (new_ZodError rt [ {| path := [Key "requests"];
                                message := required_message "requests" "array" |} ]).
Proof.
  intros Hobj Hpid Hne Hrequests.
  unfold parse, BatchUpdatePresentationArgsSchema, GoogleSlidesRequestSchema,
    GoogleSlidesWriteControlSchema.
  destruct args; try discriminate Hobj;
    cbn [check check_fields]; rewrite Hpid, Hrequests;
    (destruct presentationId; [congruence|]);
    destruct (Js.get _ "writeControl"); reflexivity.
Qed.

(** X24. An empty list of requests passed the validation by hand and was
    sent to the remote client; the schema refuses it with its own message
    and nothing is sent. *)
Theorem legacy_accepts_empty_requests (slides : Slides) (args : JsValue)
    (presentationId : string) :
  parsedType args = "object" ->
  Js.get args "presentationId" = JsString presentationId ->
  presentationId <> EmptyString ->
  Js.get args "requests" = JsArray [] ->
  filter is_RemoteCall
    (trace (legacy_handleCallTool rt TypeError_message slides "batch_update_presentation" args))
  = [ RemoteCall "presentations.batchUpdate"
        (JsObject [ ("presentationId", JsString presentationId);
                    ("requestBody",
                     JsObject [ ("requests", JsArray []);
                                ("writeControl", Js.get args "writeControl") ]) ]) ]
  /\ handleCallTool rt slides "batch_update_presentation" args
     = (Normal (error_result
                  (McpError_message rt (EnumCode InvalidParams)
                     ("Invalid arguments for tool " ++ Str.quote ++ "batch_update_presentation"
                        ++ Str.quote ++ ": requests: " ++ required_message "requests" "array"))
                  (EnumCode InvalidParams)),
        [ ConsoleError (pipeline_label "batch_update_presentation")
            (new_ZodError rt [ {| path := [Key "requests"];
                                  message := required_message "requests" "array" |} ]) ]).
Proof.
  intros Hobj Hpid Hne Hrequests. split.
  - unfold legacy_handleCallTool. simpl String.eqb. cbv iota.
    unfold legacy_batchUpdatePresentation.
    rewrite (bind_done _ (legacy_require_string_ok args "presentationId" Hobj Hpid Hne)).
    rewrite (bind_done _ (legacy_require_array_ok args "requests" Hobj Hrequests)).
    rewrite legacy_remote_run, Hpid, Hrequests.
    destruct (presentations_batchUpdate slides _) as [data|error]; [reflexivity|].
    unfold member. destruct error as [| | | | | | |[| |]]; reflexivity.
  - assert (Hargs : args <> JsUndefined) by (intros ->; discriminate Hobj).
    unfold handleCallTool. simpl String.eqb. cbv iota.
    rewrite handleCallTool_as_executeTool. unfold executeTool.
    pose proof (@parse_empty_requests args presentationId Hobj Hpid Hne Hrequests) as Hparse.
    destruct args; try congruence; rewrite Hparse; reflexivity.
Qed.

End LegacyFacts.

Section Revalidation.

Variable rt : Runtime.

Lemma check_undefined_optional (validator : ZodType) (p : list PathSegment) :
  requires validator = false -> check validator p JsUndefined = (JsUndefined, []).
Proof. destruct validator; simpl; intros H; try discriminate; reflexivity. Qed.

Lemma check_fields_empty_object (shape : list (string * ZodType)) :
  check_fields (fun validator => check validator) [] (JsObject []) shape
  = ([], map required_issue (required_keys shape)).
Proof.
  unfold required_keys. induction shape as [|[key validator] rest IH]; [reflexivity|].
  cbn [check_fields]. rewrite IH.
  change (Js.get (JsObject []) key) with JsUndefined.
  destruct (requires validator) eqn:Hreq.
  - rewrite (@check_undefined_required validator ([] ++ [Key key])%list Hreq).
    cbn [filter snd]. rewrite Hreq. reflexivity.
  - rewrite (@check_undefined_optional validator ([] ++ [Key key])%list Hreq).
    cbn [filter snd]. rewrite Hreq. reflexivity.
Qed.

(** X25. A known tool called with the empty object is answered with
    InvalidParams and one [<key>: Required] entry for each required key of
    its schema, in the order of the schema, joined by [; ]. *)
Theorem empty_object_reports_required_keys (slides : Slides) (name : string)
    (shape : list (string * ZodType)) :
  schema_of name = Some (ZObject shape) ->
  let run := callTool rt slides name (JsObject []) in
  let reported := map (fun key => key ++ ": Required") (required_keys shape) in
  result run
  = Normal (error_result
              (McpError_message rt (EnumCode InvalidParams)
                 ("Invalid arguments for tool " ++ Str.quote ++ name ++ Str.quote ++ ": "
                    ++ Str.join "; " reported))
              (EnumCode InvalidParams))
  /\ reported <> []
  /\ remote_calls run = 0%nat.
Proof.
  intros Hschema run reported.
  assert (Hrequired : required_keys shape <> []).
  { unfold schema_of in Hschema.
    repeat match type of Hschema with
           | (if ?b then _ else _) = _ => destruct b
           end; try discriminate; injection Hschema as <-; discriminate. }
  assert (Hparse : parse rt (ZObject shape) (JsObject [])
                   = Throw (new_ZodError rt (map required_issue (required_keys shape)))).
  { unfold parse. cbn [check]. rewrite check_fields_empty_object. cbn [fst snd].
    destruct (required_keys shape); [congruence | reflexivity]. }
  assert (Hsaid : validationErrors (map required_issue (required_keys shape))
                  = Str.join "; " reported).
  { subst reported. unfold validationErrors. rewrite map_map. reflexivity. }
  subst run. destruct (@callTool_schema_of rt slides name _ Hschema) as (toolFn & ->).
  unfold executeTool. rewrite Hparse. unfold new_ZodError.
  unfold try_catch, bind, lift, emit, ret, result, remote_calls, trace. cbn [fst snd].
  rewrite Hsaid. split; [reflexivity|]. split; [|reflexivity].
  subst reported. destruct (required_keys shape); [congruence | discriminate].
Qed.

(** The validated fields have a key of the shape exactly when its value is
    defined or the input has the key. *)
Lemma has_property_fields (p : list PathSegment) (data : JsValue)
    (shape : list (string * ZodType)) :
  NoDup (map fst shape) ->
  (forall key validator, In (key, validator) shape -> passes_through validator = true) ->
  forall out,
    check_fields (fun validator => check validator) p data shape = (out, []) ->
    forall key,
      In key (map fst shape) ->
      Js.has_property key (JsObject out)
      = negb (is_undefined (Js.get data key)) || Js.has_property key data.
Proof.
  induction shape as [|[k validator] rest IH]; intros Hnodup Hpass out Hfields key Hkey;
    [destruct Hkey|].
  apply check_fields_accepts in Hfields as (value & out' & Hvalue & Hrest & ->).
  apply check_passes_through in Hvalue; [|apply (Hpass k); now left]. subst value.
  inversion Hnodup as [|? ? Hnotin Hnodup']; subst.
  assert (Hkeys : incl (Js.keys out') (map fst rest)).
  { pose proof (check_fields_keys (fun validator => check validator) p data rest) as Hincl.
    now rewrite Hrest in Hincl. }
  assert (IH' : forall key, In key (map fst rest) ->
                  Js.has_property key (JsObject out')
                  = negb (is_undefined (Js.get data key)) || Js.has_property key data).
  { apply IH; [exact Hnodup' | | exact Hrest].
    intros k' v' Hin. apply (Hpass k'). now right. }
  destruct (String.eqb_spec k key) as [-> | Hne].
  - destruct (negb (is_undefined (Js.get data key)) || Js.has_property key data) eqn:Hincluded.
    + simpl. now rewrite String.eqb_refl.
    + simpl. rewrite lookup_not_key; [reflexivity|].
      intros Hk. apply Hnotin, Hkeys, Hk.
  - assert (Hin : In key (map fst rest))
      by (destruct Hkey as [Heq | Hin]; [simpl in Heq; congruence | exact Hin]).
    destruct (negb (is_undefined (Js.get data k)) || Js.has_property k data).
    + simpl. apply String.eqb_neq in Hne. rewrite Hne. now apply IH'.
    + now apply IH'.
Qed.

(** The validation of an object looks only at the values of the keys of
    the shape and at whether the object has them. *)
Lemma check_fields_same (validate : ZodType -> Checker) (p : list PathSegment)
    (a b : JsValue) (shape : list (string * ZodType)) :
  (forall key validator,
     In (key, validator) shape ->
     Js.get b key = Js.get a key
     /\ negb (is_undefined (fst (validate validator (p ++ [Key key])%list (Js.get a key))))
        || Js.has_property key b
        = negb (is_undefined (fst (validate validator (p ++ [Key key])%list (Js.get a key))))
          || Js.has_property key a) ->
  check_fields validate p b shape = check_fields validate p a shape.
Proof.
  induction shape as [|[key validator] rest IH]; intros Hsame; [reflexivity|].
  cbn [check_fields].
  destruct (Hsame key validator (or_introl eq_refl)) as (Hget & Hflag).
  rewrite Hget, IH by (intros k v Hin; apply Hsame; now right).
  destruct (validate validator (p ++ [Key key])%list (Js.get a key)) as [value issues].
  cbn [fst] in Hflag. rewrite Hflag. reflexivity.
Qed.

Lemma check_fields_reparse (p : list PathSegment) (data : JsValue)
    (shape : list (string * ZodType)) (out : list (string * JsValue)) :
  NoDup (map fst shape) ->
  (forall key validator, In (key, validator) shape -> passes_through validator = true) ->
  check_fields (fun validator => check validator) p data shape = (out, []) ->
  check_fields (fun validator => check validator) p (JsObject out) shape = (out, []).
Proof.
  intros Hnodup Hpass Hfields. rewrite <- Hfields. apply check_fields_same.
  intros key validator Hin.
  assert (Hkey : In key (map fst shape)) by (apply in_map_iff; now exists (key, validator)).
  split; [exact (@check_fields_agree p data shape Hpass out Hfields key Hkey)|].
  rewrite (@has_property_fields p data shape Hnodup Hpass out Hfields key Hkey).
  destruct (@accepted_field p data shape out key validator Hfields Hin) as (value & Hvalue).
  rewrite Hvalue. cbn [fst].
  apply check_passes_through in Hvalue; [|now apply (Hpass key)]. subst value.
  now destruct (is_undefined (Js.get data key)), (Js.has_property key data).
Qed.

(** X26. Validated arguments are valid, and validate to themselves. *)
Theorem validation_is_idempotent (name : string) (schema : ZodType) (args out : JsValue) :
  schema_of name = Some schema ->
  parse rt schema args = Normal out ->
  parse rt schema out = Normal out.
Proof.
  intros Hschema Hparse.
  assert (Hshape : exists shape,
             schema = ZObject shape
             /\ NoDup (map fst shape)
             /\ forall k v, In (k, v) shape -> passes_through v = true).
  { unfold schema_of in Hschema.
    repeat match type of Hschema with
           | (if ?b then _ else _) = _ => destruct b
           end;
      try discriminate; injection Hschema as <-; eexists; (split; [reflexivity|]);
      (split;
       [ repeat constructor; simpl; intuition discriminate
       | intros k v Hin; simpl in Hin; intuition;
         match goal with H : _ = (k, v) |- _ => injection H as <- <- end; reflexivity ]). }
  destruct Hshape as (shape & -> & Hnodup & Hpass).
  apply parse_object_accepts in Hparse as (_ & fields & Hfields & ->).
  apply parse_object_accepts. split; [reflexivity|].
  exists fields. split; [|reflexivity].
  exact (@check_fields_reparse [] args shape fields Hnodup Hpass Hfields).
Qed.

End Revalidation.

(* ===================================================================== *)
(** ** These theorems at inputs of the test suites *)
(* ===================================================================== *)

Lemma executeTool_success_unchanged_witness :
  test_args <> JsUndefined
  /\ parse demo_runtime TestArgsSchema test_args = Normal test_args
  /\ run_test_tool test_args (fun _ _ => ret (success_result "Success"))
     = (Normal (success_result "Success"), [ ToolFnCall test_args ]).
Proof.
  split; [discriminate|]. split; [reflexivity|].
  exact (@executeTool_success_unchanged demo_runtime demo_slides "test_tool" test_args test_args
           (parse demo_runtime TestArgsSchema) (fun _ _ => ret (success_result "Success"))
           (success_result "Success") [] ltac:(discriminate) eq_refl eq_refl).
Defined.

Lemma executeTool_logs_thrown_value_witness :
  test_args <> JsUndefined
  /\ trace (run_test_tool test_args (rejecting (JsNumber 404)))
     = [ ToolFnCall test_args; ConsoleError (pipeline_label "test_tool") (JsNumber 404) ].
Proof.
  split; [discriminate|].
  exact (proj2 (@executeTool_logs_thrown_value demo_runtime demo_slides "test_tool" test_args
                  (parse demo_runtime TestArgsSchema) (rejecting (JsNumber 404))
                  ltac:(discriminate))
               test_args (JsNumber 404) [] eq_refl eq_refl).
Defined.

Lemma handleCallTool_is_executeTool_witness :
  registered (class_tools demo_runtime) "get_page"
  = Some (GetPageArgsSchema, getPage demo_runtime)
  /\ handleCallTool demo_runtime denied_slides "get_page" get_page_args
     = executeTool demo_runtime denied_slides "get_page" get_page_args
         (parse demo_runtime GetPageArgsSchema) (getPage demo_runtime).
Proof.
  split; [reflexivity|].
  exact (@handleCallTool_is_executeTool demo_runtime denied_slides "get_page" get_page_args
           GetPageArgsSchema (getPage demo_runtime) eq_refl).
Defined.

Lemma handleCallTool_unknown_tool_witness :
  ~ In "delete_presentation" known_tools
  /\ answer_text (handleCallTool demo_runtime demo_slides "delete_presentation" (JsObject []))
     = "MCP error: Unknown tool requested: delete_presentation"
  /\ answer_text (callTool demo_runtime demo_slides "delete_presentation" (JsObject []))
     = "Unknown tool requested: delete_presentation".
Proof.
  assert (Hnot : ~ In "delete_presentation" known_tools) by (simpl; intuition discriminate).
  split; [exact Hnot|].
  destruct (@handleCallTool_unknown_tool demo_runtime demo_slides "delete_presentation"
              (JsObject []) Hnot ltac:(discriminate)) as (Hclass & _ & Hindex).
  rewrite Hclass, Hindex. split; reflexivity.
Defined.

Lemma callTool_three_outcomes_witness :
  In "create_presentation" known_tools
  /\ answer_code (callTool demo_runtime demo_slides "create_presentation" create_args)
     = Some (EnumCode InternalError)
  /\ diagnostics (callTool demo_runtime demo_slides "create_presentation" create_args) = 2%nat.
Proof.
  split; [simpl; tauto|].
  destruct (@callTool_three_outcomes demo_runtime demo_slides "create_presentation" create_args
              ltac:(simpl; tauto))
    as [(Hcode & _) | [(Hcode & _) | (Hcode & Hdiagnostics & _)]];
    [discriminate Hcode | discriminate Hcode | now split].
Defined.

Lemma rejected_remote_call_without_response_witness :
  schema_of "get_page" = Some GetPageArgsSchema
  /\ parse demo_runtime GetPageArgsSchema get_page_args = Normal get_page_args
  /\ Js.has_property "response" (JsString "Connection refused") = false
  /\ answer_text (handleCallTool demo_runtime (rejecting_slides (JsString "Connection refused"))
                    "get_page" get_page_args)
     = "MCP error: Google API Error: Unknown Google API error".
Proof.
  split; [reflexivity|]. split; [reflexivity|]. split; [reflexivity|].
  destruct (@rejected_remote_call_without_response demo_runtime "get_page" get_page_args
              get_page_args (JsString "Connection refused") GetPageArgsSchema
              eq_refl ltac:(discriminate) eq_refl eq_refl) as (Hresult & _).
  unfold answer_text. now rewrite Hresult.
Defined.

Lemma rejected_remote_call_nested_message_witness :
  schema_of "get_page" = Some GetPageArgsSchema
  /\ parse demo_runtime GetPageArgsSchema get_page_args = Normal get_page_args
  /\ Js.get (Js.get (Js.get (Js.get api_error "response") "data") "error") "message"
     = JsString "Presentation not found"
  /\ answer_text (handleCallTool demo_runtime (rejecting_slides api_error) "get_page"
                    get_page_args)
     = "MCP error: Google API Error: Presentation not found".
Proof.
  split; [reflexivity|]. split; [reflexivity|]. split; [reflexivity|].
  unfold answer_text.
  now rewrite (@rejected_remote_call_nested_message demo_runtime "get_page" get_page_args
                 get_page_args api_error GetPageArgsSchema "Presentation not found"
                 eq_refl ltac:(discriminate) eq_refl eq_refl ltac:(discriminate)).
Defined.

Lemma missing_required_property_witness :
  carries_message demo_runtime
  /\ In ("pageObjectId", ZString (Some (1%nat, required_message "pageObjectId" "string")))
        [ ("presentationId", ZString (Some (1%nat, required_message "presentationId" "string")));
          ("pageObjectId", ZString (Some (1%nat, required_message "pageObjectId" "string"))) ]
  /\ Str.contains "pageObjectId: Required"
       (answer_text (callTool demo_runtime demo_slides "get_page"
                       (JsObject [ ("presentationId", JsString "presentation-123") ]))).
Proof.
  split; [exact demo_runtime_carries_message|]. split; [simpl; tauto|].
  exact (proj1 (proj2
    (@missing_required_property demo_runtime demo_slides "get_page" "pageObjectId"
       [ ("presentationId", ZString (Some (1%nat, required_message "presentationId" "string")));
         ("pageObjectId", ZString (Some (1%nat, required_message "pageObjectId" "string"))) ]
       (ZString (Some (1%nat, required_message "pageObjectId" "string")))
       [ ("presentationId", JsString "presentation-123") ]
       demo_runtime_carries_message eq_refl ltac:(simpl; tauto) eq_refl eq_refl))).
Defined.

Lemma validated_arguments_agree_with_input_witness :
  parse demo_runtime GetPageArgsSchema (JsObject get_page_args_extra) = Normal get_page_args
  /\ Js.get get_page_args "pageObjectId" = Js.get (JsObject get_page_args_extra) "pageObjectId"
  /\ Js.get get_page_args "verbose" = JsUndefined.
Proof.
  split; [reflexivity|]. split.
  - exact (proj1 (@validated_arguments_agree_with_input demo_runtime "get_page"
                    GetPageArgsSchema (JsObject get_page_args_extra) get_page_args
                    eq_refl eq_refl "pageObjectId")
                 ltac:(simpl; tauto)).
  - exact (proj2 (@validated_arguments_agree_with_input demo_runtime "get_page"
                    GetPageArgsSchema (JsObject get_page_args_extra) get_page_args
                    eq_refl eq_refl "verbose")
                 ltac:(simpl; intuition discriminate)).
Defined.

Lemma batch_update_forwards_requests_witness :
  presentations_batchUpdate empty_slides
    (JsObject [ ("presentationId", JsString "presentation-123");
                ("requestBody",
                 JsObject [ ("requests", JsArray [ JsObject [ ("createSlide", JsObject []) ] ]);
                            ("writeControl", JsUndefined) ]) ])
  = Normal (JsObject [])
  /\ filter is_RemoteCall
       (trace (callTool demo_runtime empty_slides "batch_update_presentation" batch_args))
     = [ RemoteCall "presentations.batchUpdate"
           (JsObject [ ("presentationId", JsString "presentation-123");
                       ("requestBody",
                        JsObject [ ("requests",
                                    JsArray [ JsObject [ ("createSlide", JsObject []) ] ]);
                                   ("writeControl", JsUndefined) ]) ]) ].
Proof.
  split; [reflexivity|].
  exact (proj1 (proj2
    (@batch_update_forwards_requests demo_runtime empty_slides batch_args (JsObject [])
       "presentation-123" [ JsObject [ ("createSlide", JsObject []) ] ]
       eq_refl eq_refl ltac:(discriminate) eq_refl ltac:(discriminate) eq_refl))).
Defined.


Lemma summary_numbers_slides_witness :
  slides blank_notes_presentation = Some [ blank_notes_slide ]
  /\ Js.get (summary_of false blank_notes_presentation) "slideCount" = JsNumber 1.
Proof.
  split; [reflexivity|].
  destruct (@summary_numbers_slides false blank_notes_presentation [ blank_notes_slide ]
              eq_refl ltac:(discriminate)) as (items & _ & Hcount & _).
  exact Hcount.
Defined.

Lemma summary_notes_key_witness :
  slides blank_notes_presentation = Some [ blank_notes_slide ]
  /\ exists items item,
       Js.get (summary_of true blank_notes_presentation) "slides" = JsArray items
       /\ nth_error items 0 = Some item
       /\ Js.has_property "notes" item = true.
Proof.
  split; [reflexivity|].
  destruct (@summary_notes_key true blank_notes_presentation [ blank_notes_slide ]
              eq_refl ltac:(discriminate)) as (items & Hslides & Hitems).
  destruct (Hitems 0%nat blank_notes_slide eq_refl) as (item & Hnth & Hkey & _).
  exists items, item. repeat split; assumption.
Defined.

Lemma listing_matches_schemas_witness :
  exists tool,
    In tool listed_tools
    /\ tool_name tool = "create_presentation"
    /\ listed_required tool = [ "title" ].
Proof.
  exists (hd JsNull listed_tools).
  assert (Hin : In (hd JsNull listed_tools) listed_tools) by (left; reflexivity).
  split; [exact Hin|]. split; [reflexivity|].
  destruct (@listing_matches_schemas (hd JsNull listed_tools) Hin)
    as (shape & Hschema & _ & Hrequired & _).
  rewrite Hrequired. injection Hschema as <-. reflexivity.
Defined.

Lemma legacy_missing_arguments_witness :
  In "get_page" legacy_tools
  /\ answer_code (legacy_handleCallTool demo_runtime demo_TypeError_message demo_slides
                    "get_page" JsUndefined)
     = Some (EnumCode InternalError).
Proof.
  split; [simpl; tauto|].
  destruct (@legacy_missing_arguments demo_runtime demo_TypeError_message demo_slides
              "get_page" JsUndefined ltac:(simpl; tauto) (or_introl eq_refl))
    as ((key & Hresult) & _).
  unfold answer_code. now rewrite Hresult.
Defined.

Lemma rejecting_slides_rejects_with_errors (cls : ErrorClass) (msg : string)
    (props : list (string * JsValue)) :
  rejects_with_errors (rejecting_slides (JsError cls msg props)).
Proof.
  repeat split; intros request thrown Hthrown; simpl in Hthrown;
    injection Hthrown as <-; reflexivity.
Qed.

Lemma legacy_agrees_on_valid_arguments_witness :
  In "get_page" legacy_tools
  /\ parse demo_runtime GetPageArgsSchema get_page_args = Normal get_page_args
  /\ rejects_with_errors (rejecting_slides api_error)
  /\ result (legacy_handleCallTool demo_runtime demo_TypeError_message
               (rejecting_slides api_error) "get_page" get_page_args)
     = result (handleCallTool demo_runtime (rejecting_slides api_error) "get_page"
                 get_page_args).
Proof.
  split; [simpl; tauto|]. split; [reflexivity|].
  split; [apply rejecting_slides_rejects_with_errors|].
  exact (proj1
    (@legacy_agrees_on_valid_arguments demo_runtime demo_TypeError_message
       (rejecting_slides api_error) "get_page" get_page_args get_page_args GetPageArgsSchema
       ltac:(simpl; tauto) eq_refl eq_refl
       (rejecting_slides_rejects_with_errors _ _ _))).
Defined.

Lemma legacy_accepts_empty_requests_witness :
  Js.get batch_args_empty "requests" = JsArray []
  /\ remote_calls (legacy_handleCallTool demo_runtime demo_TypeError_message empty_slides
                     "batch_update_presentation" batch_args_empty) = 1%nat
  /\ remote_calls (handleCallTool demo_runtime empty_slides "batch_update_presentation"
                     batch_args_empty) = 0%nat.
Proof.
  split; [reflexivity|].
  destruct (@legacy_accepts_empty_requests demo_runtime demo_TypeError_message empty_slides
              batch_args_empty "presentation-123"
              eq_refl eq_refl ltac:(discriminate) eq_refl) as (Hlegacy & Hclass).
  unfold remote_calls. rewrite Hlegacy, Hclass. split; reflexivity.
Defined.

Lemma empty_object_reports_required_keys_witness :
  answer_text (callTool demo_runtime demo_slides "get_page" (JsObject []))
  = "MCP error: Invalid arguments for tool " ++ Str.quote ++ "get_page" ++ Str.quote
      ++ ": presentationId: Required; pageObjectId: Required".
Proof.
  destruct (@empty_object_reports_required_keys demo_runtime demo_slides "get_page"
              [ ("presentationId",
                 ZString (Some (1%nat, required_message "presentationId" "string")));
                ("pageObjectId",
                 ZString (Some (1%nat, required_message "pageObjectId" "string"))) ]
              eq_refl) as (Hresult & _).
  unfold answer_text. now rewrite Hresult.
Defined.

Lemma validation_is_idempotent_witness :
  parse demo_runtime GetPageArgsSchema (JsObject get_page_args_extra) = Normal get_page_args
  /\ parse demo_runtime GetPageArgsSchema get_page_args = Normal get_page_args.
Proof.
  split; [reflexivity|].
  exact (@validation_is_idempotent demo_runtime "get_page" GetPageArgsSchema
           (JsObject get_page_args_extra) get_page_args eq_refl eq_refl).
Defined.
